(** * Token and credential lifecycle of go-gin-clean-starter

    A shallow embedding of the authentication core of the repository:
    pagination arithmetic ([repository.TotalPage]), the symmetric token
    codec ([utils.AESEncrypt], [utils.AESDecrypt]), the session token
    issuer ([service.jwtService]), the refresh-token store
    ([repository.refreshTokenRepository], [repository.tokenRepository])
    and the two orchestrators found in the sources
    ([service.userService] and [service.authService]).

    Go strings are byte sequences and are modelled by [string]; [[]byte]
    is [list byte]; [int64] is [Z] together with its range; [float64] is
    the IEEE-754 binary64 format of [SpecFloat]. *)

From Stdlib Require Import ZArith Lia Bool List Ascii String SpecFloat.
From Stdlib.Strings Require Import Byte.
From Stdlib Require DecimalString.
From stdpp Require Import base option list strings gmap.
Import ListNotations.

Local Open Scope string_scope.
Local Open Scope Z_scope.

(* ===================================================================== *)
(** * Go values shared by all packages                                    *)
(* ===================================================================== *)

(** An [error] is identified by the text its [Error()] method returns:
    [errors.New(msg)] and [fmt.Errorf] build it from a message. *)
Definition error := string.
Definition errors_New (msg : string) : error := msg.

(** A Go call either returns or panics with a value (shown as text). *)
Inductive outcome (A : Type) : Type :=
| Return (a : A)
| Panic (v : string).
Arguments Return {A} a.
Arguments Panic {A} v.

Definition bind_outcome {A B} (x : outcome A) (k : A -> outcome B) : outcome B :=
  match x with
  | Return a => k a
  | Panic v => Panic v
  end.

(** [time.Time] as nanoseconds since the Unix epoch, [time.Duration] as
    an [int64] count of nanoseconds. *)
Definition Time := Z.
Definition Duration := Z.

#[global] Instance byte_eq_dec : EqDecision byte := Byte.byte_eq_dec.

Definition wrap64 (z : Z) : Z := (z + 2 ^ 63) mod 2 ^ 64 - 2 ^ 63.

Definition Nanosecond : Duration := 1.
Definition Second : Duration := 1000000000.
Definition Minute : Duration := 60 * Second.
Definition Hour : Duration := 60 * Minute.

Definition Time_Add (t : Time) (d : Duration) : Time := t + d.
(** [t.After(u)] *)
Definition Time_After (t u : Time) : bool := u <? t.

(* ===================================================================== *)
(** * Pagination (package repository)                                     *)
(* ===================================================================== *)

Module Pagination.

(** [float64]: binary64, precision 53, maximal exponent 1024. *)
Definition float64 := spec_float.
Definition prec : Z := 53.
Definition emax : Z := 1024.

Definition MinInt64 : Z := - 2 ^ 63.
Definition MaxInt64 : Z := 2 ^ 63 - 1.

(** The conversion [float64(n)] of an [int64]: round to nearest even. *)
Definition float64_of_int64 (n : Z) : float64 :=
  binary_normalize prec emax n 0 false.

(** The [/] operator on [float64]. *)
Definition float64_div (x y : float64) : float64 := SFdiv prec emax x y.

(** [math.Ceil]: the least integer value not below [x];
    [Ceil(±0) = ±0], [Ceil(±Inf) = ±Inf], [Ceil(NaN) = NaN]. *)
Definition math_Ceil (x : float64) : float64 :=
  match x with
  | S754_finite s m e =>
      if 0 <=? e then x
      else
        let d := 2 ^ (- e) in
        let q := if s then - (Z.pos m / d) else (Z.pos m + d - 1) / d in
        if q =? 0 then S754_zero s else binary_normalize prec emax q 0 s
  | _ => x
  end.

(** The Go specification leaves [int64(f)] implementation-dependent when
    [f] is not representable.  The two 64-bit targets of the gc compiler
    behave as follows: amd64 ([CVTTSD2SQ]) yields the "integer
    indefinite" value [MinInt64]; arm64 ([FCVTZS]) saturates and maps
    NaN to 0. *)
Inductive GOARCH := amd64 | arm64.

Definition int64_unrepresentable (a : GOARCH) (x : float64) : Z :=
  match a with
  | amd64 => MinInt64
  | arm64 =>
      match x with
      | S754_nan => 0
      | S754_infinity s | S754_finite s _ _ => if s then MinInt64 else MaxInt64
      | S754_zero _ => 0
      end
  end.

(** The conversion [int64(x)]: truncation towards zero. *)
Definition int64_of_float64 (a : GOARCH) (x : float64) : Z :=
  match x with
  | S754_zero _ => 0
  | S754_finite s m e =>
      let mag := if 0 <=? e then Z.pos m * 2 ^ e else Z.pos m / 2 ^ (- e) in
      let v := if s then - mag else mag in
      if (MinInt64 <=? v) && (v <=? MaxInt64) then v
      else int64_unrepresentable a x
  | _ => int64_unrepresentable a x
  end.

(** [func TotalPage(count, perPage int64) int64] *)
Definition TotalPage (a : GOARCH) (count perPage : Z) : Z :=
  let totalPage :=
    int64_of_float64 a
      (math_Ceil (float64_div (float64_of_int64 count) (float64_of_int64 perPage))) in
  totalPage.

(** [func TotalPage] of tests/integration/repository/user_repository_test.go:
    the copy the integration tests compute with, on [int64] throughout. *)
Definition TotalPage_integration (count perPage : Z) : Z :=
  if perPage =? 0 then 0
  else wrap64 (Z.quot (wrap64 (wrap64 (count + perPage) - 1)) perPage).

(** The ceiling of [count / perPage] on the integers, [perPage > 0]. *)
Definition ceil_div (count perPage : Z) : Z := (count + perPage - 1) / perPage.

End Pagination.


(* ===================================================================== *)
(** * Symmetric token codec (package utils, aes.go)                       *)
(* ===================================================================== *)

Module hex.

(** [encoding/hex]: value of one hexadecimal character, both cases. *)
Definition fromHexChar (c : ascii) : option N :=
  let n := N_of_ascii c in
  if ((48 <=? n) && (n <=? 57))%N then Some (n - 48)%N
  else if ((97 <=? n) && (n <=? 102))%N then Some (n - 97 + 10)%N
  else if ((65 <=? n) && (n <=? 70))%N then Some (n - 65 + 10)%N
  else None.

Definition ErrLength : error := "encoding/hex: odd length hex string".

(** One upper-case digit of the table ["0123456789ABCDEF"]. *)
Definition upperhex (n : N) : ascii :=
  if (n <? 10)%N then ascii_of_N (48 + n) else ascii_of_N (65 + (n - 10)).

(** [strconv.IsPrint] on the runes up to U+00FF: the ASCII from the
    space to the tilde, and the Latin-1 from U+00A1 on without the soft
    hyphen. *)
Definition IsPrint (r : N) : bool :=
  ((32 <=? r) && (r <? 127))%N
  || (((161 <=? r) && (r <=? 255))%N && negb (r =? 173)%N).

(** The UTF-8 encoding of a rune up to U+00FF. *)
Definition utf8 (r : N) : string :=
  if (r <? 128)%N then String (ascii_of_N r) ""
  else String (ascii_of_N (192 + r / 64)) (String (ascii_of_N (128 + r mod 64)) "").

(** [func (e InvalidByteError) Error() string]:
    [fmt.Sprintf("encoding/hex: invalid byte: %#U", rune(e))], that is
    the code point on four digits, followed by the quoted character when
    it is printable. *)
Definition InvalidByteError (c : ascii) : error :=
  let r := N_of_ascii c in
  "encoding/hex: invalid byte: U+00"
  ++ String (upperhex (r / 16)) (String (upperhex (r mod 16)) "")
  ++ (if IsPrint r then " '" ++ utf8 r ++ "'" else "").

Definition mkbyte (a b : N) : byte :=
  match Byte.of_N (16 * a + b) with
  | Some x => x
  | None => x00
  end.

(** [hex.DecodeString]: the bytes decoded before the first error, and
    that error.  An odd length is reported after an invalid character. *)
Fixpoint DecodeString (s : string) : list byte * option error :=
  match s with
  | EmptyString => ([], None)
  | String p EmptyString =>
      match fromHexChar p with
      | None => ([], Some (InvalidByteError p))
      | Some _ => ([], Some ErrLength)
      end
  | String p (String q rest) =>
      match fromHexChar p, fromHexChar q with
      | None, _ => ([], Some (InvalidByteError p))
      | Some _, None => ([], Some (InvalidByteError q))
      | Some a, Some b =>
          let '(bs, err) := DecodeString rest in (mkbyte a b :: bs, err)
      end
  end.

(** One lower-case digit of the table ["0123456789abcdef"]. *)
Definition hextable (n : N) : ascii :=
  if (n <? 10)%N then ascii_of_N (48 + n) else ascii_of_N (97 + (n - 10)).

(** [fmt.Sprintf("%x", b)] for a byte slice: two lower-case digits per
    byte, no separator. *)
Fixpoint Sprintf_x (bs : list byte) : string :=
  match bs with
  | [] => EmptyString
  | b :: rest =>
      let n := Byte.to_N b in
      String (hextable (n / 16)) (String (hextable (n mod 16)) (Sprintf_x rest))
  end.

End hex.

Module utils.

(** [var KEY]: the hard-coded key, 48 hexadecimal characters. *)
Definition KEY : string := "00112233445566778899aabb00112233445566778899aabb".

(** [aes.NewCipher]: the key must be 16, 24 or 32 bytes long. *)
Definition aes_NewCipher (key : list byte) : list byte * option error :=
  let k := length key in
  if (k =? 16)%nat || (k =? 24)%nat || (k =? 32)%nat then (key, None)
  else ([], Some (errors_New "crypto/aes: invalid key size")).

(** [aesGCM.NonceSize()] of the standard GCM mode. *)
Definition NonceSize : nat := 12.

(** [io.EOF] and [io.ErrUnexpectedEOF]. *)
Definition io_EOF : error := errors_New "EOF".
Definition io_ErrUnexpectedEOF : error := errors_New "unexpected EOF".

(** [io.ReadFull(r, buf)] on a reader that delivers the bytes [r] and
    then ends: the bytes read, with no error when the buffer of [n]
    bytes is filled, with [io.EOF] when no byte was read and with
    [io.ErrUnexpectedEOF] when some but not all were. *)
Definition io_ReadFull (r : list byte) (n : nat) : list byte * option error :=
  if (n <=? length r)%nat then (take n r, None)
  else if (length r =? 0)%nat then (r, Some io_EOF)
  else (r, Some io_ErrUnexpectedEOF).

Section Codec.

(** [crypto/cipher]'s AES-GCM, outside the repository: [Seal key nonce
    plaintext] is the ciphertext followed by its tag; [Open key nonce
    ciphertext] yields the plaintext, fails the authentication
    ([None]) or panics (an unusable nonce or buffer). *)
Variable gcm_Seal : list byte -> list byte -> list byte -> list byte.
Variable gcm_Open : list byte -> list byte -> list byte -> outcome (option (list byte)).

(** [func AESEncrypt(stringToEncrypt string) (encryptedString string, err error)];
    [random] is what [rand.Reader] delivers. *)
Definition AESEncrypt (random : list byte) (stringToEncrypt : string)
  : string * option error :=
  match hex.DecodeString KEY with
  | (_, Some err) => ("", Some err)
  | (key, None) =>
      let plaintext := list_byte_of_string stringToEncrypt in
      match aes_NewCipher key with
      | (_, Some err) => ("", Some err)
      | (block, None) =>
          (* cipher.NewGCM accepts every 128-bit block cipher *)
          match io_ReadFull random NonceSize with
          | (_, Some err) => ("", Some err)
          | (nonce, None) =>
              let ciphertext := (nonce ++ gcm_Seal block nonce plaintext)%list in
              (hex.Sprintf_x ciphertext, None)
          end
      end
  end.

(** The statements of [AESDecrypt] below its [defer]. *)
Definition AESDecrypt_body (encryptedString : string)
  : outcome (string * option error) :=
  match hex.DecodeString KEY with
  | (_, Some _) => Return ("", Some (errors_New "error in decoding key"))
  | (key, None) =>
      match hex.DecodeString encryptedString with
      | (_, Some _) =>
          Return ("", Some (errors_New "error in decoding encrypted string"))
      | (enc, None) =>
          match aes_NewCipher key with
          | (_, Some err) => Return ("", Some err)
          | (block, None) =>
              (* cipher.NewGCM accepts every 128-bit block cipher *)
              let nonceSize := NonceSize in
              if (length enc <? nonceSize)%nat
              then Return ("", Some (errors_New "ciphertext too short"))
              else
                let nonce := take nonceSize enc in
                let ciphertext := drop nonceSize enc in
                bind_outcome (gcm_Open block nonce ciphertext) (fun r =>
                  match r with
                  | None => Return ("", Some (errors_New "error decrypting"))
                  | Some plaintext => Return (string_of_list_byte plaintext, None)
                  end)
          end
      end
  end.

(** [func AESDecrypt(encryptedString string) (decryptedString string, err error)]:
    the deferred function recovers every panic of the body and sets
    the named results. *)
Definition AESDecrypt (encryptedString : string)
  : outcome (string * option error) :=
  match AESDecrypt_body encryptedString with
  | Panic _ => Return ("", Some (errors_New "ciphertext too short"))
  | Return r => Return r
  end.

End Codec.

End utils.

(* ===================================================================== *)
(** * Package strings                                                     *)
(* ===================================================================== *)

Module strings.

(** [strings.Split(s, sep)] for a one-byte separator: the pieces between
    the separators, in order; a string without separator is one piece. *)
Fixpoint Split (s : string) (sep : ascii) : list string :=
  match s with
  | EmptyString => [EmptyString]
  | String c rest =>
      if Ascii.eqb c sep then EmptyString :: Split rest sep
      else
        match Split rest sep with
        | piece :: pieces => String c piece :: pieces
        | [] => [String c EmptyString]
        end
  end.

(** [strings.Contains(s, sep)] for a one-byte [sep]. *)
Fixpoint Contains (s : string) (sep : ascii) : bool :=
  match s with
  | EmptyString => false
  | String c rest => Ascii.eqb c sep || Contains rest sep
  end.

(** [strings.Join(elems, sep)] *)
Fixpoint Join (elems : list string) (sep : string) : string :=
  match elems with
  | [] => ""
  | [e] => e
  | e :: rest => e ++ sep ++ Join rest sep
  end.

Definition lower (c : ascii) : ascii :=
  let n := N_of_ascii c in
  if ((65 <=? n) && (n <=? 90))%N then ascii_of_N (n + 32) else c.

(** [strings.ToLower] on ASCII text. *)
Fixpoint ToLower (s : string) : string :=
  match s with
  | EmptyString => EmptyString
  | String c rest => String (lower c) (ToLower rest)
  end.

Definition HasPrefix (s pre : string) : bool := String.prefix pre s.

(** [s[i]] on a slice of strings: a run-time panic out of range. *)
Definition index (l : list string) (i : nat) : outcome string :=
  match l !! i with
  | Some x => Return x
  | None => Panic "runtime error: index out of range"
  end.

End strings.

(* ===================================================================== *)
(** * github.com/golang-jwt/jwt/v4, as the services use it                *)
(* ===================================================================== *)

Module jwt.

(** The signing methods the library registers. *)
Inductive SigningMethod :=
| HS256 | HS384 | HS512
| RS256 | RS384 | RS512
| PS256 | PS384 | PS512
| ES256 | ES384 | ES512
| EdDSA | none.

#[global] Instance SigningMethod_eq_dec : EqDecision SigningMethod.
Proof. solve_decision. Defined.

Definition Alg (m : SigningMethod) : string :=
  match m with
  | HS256 => "HS256" | HS384 => "HS384" | HS512 => "HS512"
  | RS256 => "RS256" | RS384 => "RS384" | RS512 => "RS512"
  | PS256 => "PS256" | PS384 => "PS384" | PS512 => "PS512"
  | ES256 => "ES256" | ES384 => "ES384" | ES512 => "ES512"
  | EdDSA => "EdDSA" | none => "none"
  end.

Definition all_methods : list SigningMethod :=
  [HS256; HS384; HS512; RS256; RS384; RS512; PS256; PS384; PS512;
   ES256; ES384; ES512; EdDSA; none].

(** [jwt.GetSigningMethod(alg)]: [None] is Go's nil method. *)
Definition GetSigningMethod (alg : string) : option SigningMethod :=
  List.find (fun m => String.eqb (Alg m) alg) all_methods.

(** The dynamic type of the method value is [*jwt.SigningMethodHMAC]. *)
Definition is_SigningMethodHMAC (m : SigningMethod) : bool :=
  match m with
  | HS256 | HS384 | HS512 => true
  | _ => false
  end.

(** A decoded JSON value ([interface{}] after [json.Unmarshal]). *)
#[warnings="-register-all"]
Inductive json :=
| JNull
| JBool (b : bool)
| JNumber (n : Z)
| JString (s : string)
| JArray (l : list json)
| JObject (l : list (string * json)).

(** The name of the dynamic type, as a failed type assertion prints it. *)
Definition type_name (v : option json) : string :=
  match v with
  | None | Some JNull => "nil"
  | Some (JBool _) => "bool"
  | Some (JNumber _) => "float64"
  | Some (JString _) => "string"
  | Some (JArray _) => "[]interface {}"
  | Some (JObject _) => "map[string]interface {}"
  end.

(** The decimal digits of a natural number. *)
Definition decimal (n : N) : string :=
  DecimalString.NilZero.string_of_uint (N.to_uint n).

(** A text of digits without its trailing zeros. *)
Fixpoint trim_zeros (s : string) : string :=
  match s with
  | EmptyString => EmptyString
  | String c rest =>
      match trim_zeros rest with
      | EmptyString => if Ascii.eqb c "0" then EmptyString else String c EmptyString
      | rest' => String c rest'
      end
  end.

(** [fmt.Sprintf("%v", x)] for the [float64] of integer value [n], which
    is [strconv.FormatFloat(x, 'g', -1, 64)]: the digits of the integer
    below an exponent of 6, and from there on the first digit, the
    further digits up to the last that is not zero, and the exponent on
    two digits at least.  ([JNumber n] stands for a [float64] that holds
    the integer [n]; up to 2^53 in magnitude every integer is held, and
    its shortest digits are its own.) *)
Definition Sprint_float64 (n : Z) : string :=
  let ds := decimal (Z.abs_N n) in
  let sign : string := if (n <? 0)%Z then "-" else "" in
  let exp := (String.length ds - 1)%nat in
  if (exp <? 6)%nat then sign ++ ds
  else
    match trim_zeros ds with
    | EmptyString => sign ++ ds
    | String d rest =>
        sign ++ String d (if String.eqb rest "" then "" else "." ++ rest)
        ++ "e+" ++ (if (exp <? 10)%nat then "0" else "") ++ decimal (N.of_nat exp)
    end.

(** The entries of a Go map in the order [fmt] prints them: one entry
    per key, the later one when a key is given twice, the keys sorted. *)
Fixpoint insert_entry (k v : string) (l : list (string * string)) : list (string * string) :=
  match l with
  | [] => [(k, v)]
  | (k', v') :: rest =>
      if String.eqb k k' then (k, v) :: rest
      else if String.ltb k k' then (k, v) :: l
      else (k', v') :: insert_entry k v rest
  end.

Definition sorted_entries (l : list (string * string)) : list (string * string) :=
  fold_left (fun acc kv => insert_entry (fst kv) (snd kv) acc) l [].

(** [fmt.Sprintf("%v", v)] for a decoded JSON value: nil is [<nil>], a
    string is its text, a number is printed as a [float64], a slice as
    its elements between brackets and a map as [map[key:value ...]]. *)
Fixpoint Sprint (v : json) : string :=
  match v with
  | JNull => "<nil>"
  | JBool b => if b then "true" else "false"
  | JNumber n => Sprint_float64 n
  | JString s => s
  | JArray l => "[" ++ strings.Join (List.map Sprint l) " " ++ "]"
  | JObject l =>
      "map["
      ++ strings.Join
           (List.map (fun kv => fst kv ++ ":" ++ snd kv)
              (sorted_entries (List.map (fun '(k, x) => (k, Sprint x)) l))) " "
      ++ "]"
  end.

(** [fmt.Sprintf("%v", v)] for a map entry [v]; an absent entry is nil. *)
Definition Sprintf_v (v : option json) : string :=
  match v with
  | None => "<nil>"
  | Some x => Sprint x
  end.

(** [v.(string)] without the comma-ok form. *)
Definition assert_string (v : option json) : outcome string :=
  match v with
  | Some (JString s) => Return s
  | _ => Panic ("interface conversion: interface {} is " ++ type_name v ++ ", not string")
  end.

Record RegisteredClaims := {
  Issuer : string;
  ExpiresAt : option Time;
  IssuedAt : option Time
}.

(** [type jwtCustomClaim struct] of package service. *)
Record jwtCustomClaim := {
  UserID : string;
  Role : string;
  Registered : RegisteredClaims
}.

(** The two implementations of the interface [jwt.Claims] in use. *)
Inductive Claims :=
| CustomClaims (c : jwtCustomClaim)
| MapClaims (m : gmap string json).

(** [type Token struct]; [TokenClaims] is its field [Claims]. *)
Record Token := {
  Raw : string;
  Method : SigningMethod;
  Header : gmap string json;
  TokenClaims : Claims;
  Signature : string;
  Valid : bool
}.

(** What [ParseWithClaims] decodes the claims segment into. *)
Inductive ClaimsKind := IntoCustomClaims | IntoMapClaims.

(** A [jwt.Keyfunc]: the verification key, or an error. *)
Definition Keyfunc := Token -> list byte * option error.

Section Parser.

(** Decoding, claim validation and signature verification belong to
    the library and its collaborators (encoding/base64, encoding/json,
    crypto/hmac, the clock); they are parameters of the parser. *)
Variable DecodeSegment : string -> list byte * option error.
Variable json_Unmarshal : list byte -> gmap string json * option error.
Variable json_Decode_custom : list byte -> jwtCustomClaim * option error.
Variable Claims_Valid : Claims -> option error.
Variable Method_Verify : SigningMethod -> string -> string -> list byte -> option error.

Definition decode_claims (k : ClaimsKind) (b : list byte) : Claims * option error :=
  match k with
  | IntoCustomClaims => let '(c, e) := json_Decode_custom b in (CustomClaims c, e)
  | IntoMapClaims => let '(m, e) := json_Unmarshal b in (MapClaims m, e)
  end.

(** [Parser.ParseUnverified]: the token with its method looked up
    and the three segments, or the error ([inr]); callers in package
    service discard the partial token that accompanies an error. *)
Definition ParseUnverified (tokenString : string) (k : ClaimsKind)
  : (Token * list string) + error :=
  let parts := strings.Split tokenString "." in
  match parts with
  | [p0; p1; p2] =>
      match DecodeSegment p0 with
      | (_, Some err) =>
          if strings.HasPrefix (strings.ToLower tokenString) "bearer "
          then inr (errors_New "tokenstring should not contain 'bearer '")
          else inr err
      | (headerBytes, None) =>
          match json_Unmarshal headerBytes with
          | (_, Some err) => inr err
          | (header, None) =>
              match DecodeSegment p1 with
              | (_, Some err) => inr err
              | (claimBytes, None) =>
                  match decode_claims k claimBytes with
                  | (_, Some err) => inr err
                  | (claims, None) =>
                      match header !! "alg" with
                      | Some (JString method) =>
                          match GetSigningMethod method with
                          | None =>
                              inr (errors_New "signing method (alg) is unavailable.")
                          | Some m =>
                              inl ({| Raw := tokenString; Method := m;
                                      Header := header; TokenClaims := claims;
                                      Signature := ""; Valid := false |}, parts)
                          end
                      | _ => inr (errors_New "signing method (alg) is unspecified.")
                      end
                  end
              end
          end
      end
  | _ => inr (errors_New "token contains an invalid number of segments")
  end.

(** [jwt.ParseWithClaims(tokenString, claims, keyFunc)]: the key is
    looked up, the signature verified, the claims validated; only then
    is the token marked valid. *)
Definition ParseWithClaims (tokenString : string) (k : ClaimsKind) (keyFunc : Keyfunc)
  : Token + error :=
  match ParseUnverified tokenString k with
  | inr err => inr err
  | inl (token, parts) =>
      match keyFunc token with
      | (_, Some err) => inr err
      | (key, None) =>
          let signature := default "" (parts !! 2%nat) in
          let token := {| Raw := Raw token; Method := Method token;
                          Header := Header token; TokenClaims := TokenClaims token;
                          Signature := signature; Valid := false |} in
          match Method_Verify (Method token) (strings.Join (take 2 parts) ".") signature key with
          | Some err => inr err
          | None =>
              match Claims_Valid (TokenClaims token) with
              | Some err => inr err
              | None =>
                  inl {| Raw := Raw token; Method := Method token;
                         Header := Header token; TokenClaims := TokenClaims token;
                         Signature := signature; Valid := true |}
              end
          end
      end
  end.

(** [jwt.Parse(tokenString, keyFunc)]: claims are decoded into a
    [MapClaims]. *)
Definition Parse (tokenString : string) (keyFunc : Keyfunc) : Token + error :=
  ParseWithClaims tokenString IntoMapClaims keyFunc.

End Parser.

End jwt.

(* ===================================================================== *)
(** * Session token issuer (package service, jwt_service.go)              *)
(* ===================================================================== *)

(** The first document of src/service/jwt_service.go (lines 1-144): the
    issuer with access and refresh expiries. *)
Module jwtService.

Record t := {
  secretKey : string;
  issuer : string;
  accessExpiry : Duration;
  refreshExpiry : Duration
}.

(** [getSecretKey]: the environment variable JWT_SECRET, or the default. *)
Definition getSecretKey (JWT_SECRET : string) : string :=
  if String.eqb JWT_SECRET "" then "Template" else JWT_SECRET.

Definition NewJWTService (JWT_SECRET : string) : t :=
  {| secretKey := getSecretKey JWT_SECRET;
     issuer := "Template";
     accessExpiry := Minute * 15;
     refreshExpiry := Hour * 24 * 7 |}.

Section Methods.

Variable DecodeSegment : string -> list byte * option error.
Variable json_Unmarshal : list byte -> gmap string jwt.json * option error.
Variable json_Decode_custom : list byte -> jwt.jwtCustomClaim * option error.
Variable Claims_Valid : jwt.Claims -> option error.
Variable Method_Verify : jwt.SigningMethod -> string -> string -> list byte -> option error.
Variable j : t.

(** [func (j *jwtService) parseToken(t_ *jwt.Token) (any, error)] *)
Definition parseToken (t_ : jwt.Token) : list byte * option error :=
  if negb (jwt.is_SigningMethodHMAC (jwt.Method t_))
  then ([], Some (errors_New ("unexpected signing method "
                               ++ jwt.Sprintf_v (jwt.Header t_ !! "alg"))))
  else (list_byte_of_string (secretKey j), None).

(** The function literal handed to [jwt.ParseWithClaims] by
    [ValidateToken]: the method must be the value [jwt.SigningMethodHS256]. *)
Definition keyFunc (token : jwt.Token) : list byte * option error :=
  if negb (bool_decide (jwt.Method token = jwt.HS256))
  then ([], Some (errors_New ("unexpected signing method "
                               ++ jwt.Sprintf_v (jwt.Header token !! "alg"))))
  else (list_byte_of_string (secretKey j), None).

(** [func (j *jwtService) ValidateToken(token string)] returning [*jwt.Token, error];
    [None] is the nil token. *)
Definition ValidateToken (token : string) : option jwt.Token * option error :=
  if String.eqb token "" then (None, Some (errors_New "token is empty"))
  else
    let parts := strings.Split token "." in
    if negb (length parts =? 3)%nat
    then (None, Some (errors_New "token contains an invalid number of segments"))
    else
      match jwt.ParseWithClaims DecodeSegment json_Unmarshal json_Decode_custom
              Claims_Valid Method_Verify token jwt.IntoCustomClaims keyFunc with
      | inr err => (None, Some (errors_New ("invalid token: " ++ err)))
      | inl parsedToken =>
          if negb (jwt.Valid parsedToken)
          then (None, Some (errors_New "invalid token"))
          else (Some parsedToken, None)
      end.

(** [func (j *jwtService) GetUserIDByToken(token string) (string, error)] *)
Definition GetUserIDByToken (token : string) : outcome (string * option error) :=
  match ValidateToken token with
  | (_, Some err) => Return ("", Some err)
  | (None, None) => Panic "runtime error: invalid memory address or nil pointer dereference"
  | (Some tToken, None) =>
      match jwt.TokenClaims tToken with
      | jwt.CustomClaims claims => Return (jwt.UserID claims, None)
      | _ => Return ("", Some (errors_New "invalid token claims"))
      end
  end.

End Methods.

End jwtService.

(** The second document of src/service/jwt_service.go (lines 145-260):
    the issuer with [GenerateToken], [GetRoleByToken] and the three-valued
    [GenerateAccessToken] that [authService] calls. *)
Module jwtService2.

Record t := {
  secretKey : string;
  issuer : string
}.

Section Methods.

Variable DecodeSegment : string -> list byte * option error.
Variable json_Unmarshal : list byte -> gmap string jwt.json * option error.
Variable json_Decode_custom : list byte -> jwt.jwtCustomClaim * option error.
Variable Claims_Valid : jwt.Claims -> option error.
Variable Method_Verify : jwt.SigningMethod -> string -> string -> list byte -> option error.
Variable j : t.

(** [func (j *jwtService) parseToken(t_ *jwt.Token) (any, error)] *)
Definition parseToken (t_ : jwt.Token) : list byte * option error :=
  if negb (jwt.is_SigningMethodHMAC (jwt.Method t_))
  then ([], Some (errors_New ("unexpected signing method "
                               ++ jwt.Sprintf_v (jwt.Header t_ !! "alg"))))
  else (list_byte_of_string (secretKey j), None).

(** [func (j *jwtService) ValidateToken(token string)] returning [*jwt.Token, error]:
    [return jwt.Parse(token, j.parseToken)]. *)
Definition ValidateToken (token : string) : jwt.Token + error :=
  jwt.Parse DecodeSegment json_Unmarshal json_Decode_custom
    Claims_Valid Method_Verify token parseToken.

(** [claims := t.Claims.(jwt.MapClaims)], without the comma-ok form. *)
Definition assert_MapClaims (c : jwt.Claims) : outcome (gmap string jwt.json) :=
  match c with
  | jwt.MapClaims m => Return m
  | jwt.CustomClaims _ =>
      Panic "interface conversion: jwt.Claims is *service.jwtCustomClaim, not jwt.MapClaims"
  end.

(** [func (j *jwtService) GetUserIDByToken(token string) (string, error)] *)
Definition GetUserIDByToken (token : string) : outcome (string * option error) :=
  match ValidateToken token with
  | inr err => Return ("", Some err)
  | inl t_Token =>
      bind_outcome (assert_MapClaims (jwt.TokenClaims t_Token)) (fun claims =>
      let id := jwt.Sprintf_v (claims !! "user_id") in
      Return (id, None))
  end.

(** [func (j *jwtService) GetRoleByToken(token string) (string, error)] *)
Definition GetRoleByToken (token : string) : outcome (string * option error) :=
  match ValidateToken token with
  | inr err => Return ("", Some err)
  | inl t_ =>
      bind_outcome (assert_MapClaims (jwt.TokenClaims t_)) (fun claims =>
      bind_outcome (jwt.assert_string (claims !! "role")) (fun role =>
      Return (role, None)))
  end.

End Methods.

End jwtService2.

(* ===================================================================== *)
(** * Package time: the layout "2006-01-02 15:04:05"                      *)
(* ===================================================================== *)

Module time.

Definition layout : string := "2006-01-02 15:04:05".

(** Days since 1970-01-01 of a date of the proleptic Gregorian calendar. *)
Definition days_from_civil (y m d : Z) : Z :=
  let y' := if m <=? 2 then y - 1 else y in
  let era := y' / 400 in
  let yoe := y' - era * 400 in
  let mp := (m + 9) mod 12 in
  let doy := (153 * mp + 2) / 5 + d - 1 in
  let doe := yoe * 365 + yoe / 4 - yoe / 100 + doy in
  era * 146097 + doe - 719468.

Definition civil_from_days (z : Z) : Z * Z * Z :=
  let z := z + 719468 in
  let era := z / 146097 in
  let doe := z - era * 146097 in
  let yoe := (doe - doe / 1460 + doe / 36524 - doe / 146096) / 365 in
  let doy := doe - (365 * yoe + yoe / 4 - yoe / 100) in
  let mp := (5 * doy + 2) / 153 in
  let d := doy - (153 * mp + 2) / 5 + 1 in
  let m := if mp <? 10 then mp + 3 else mp - 9 in
  let y := yoe + era * 400 in
  (if m <=? 2 then y + 1 else y, m, d).

Definition isLeap (year : Z) : bool :=
  (year mod 4 =? 0) && (negb (year mod 100 =? 0) || (year mod 400 =? 0)).

Definition daysIn (month year : Z) : Z :=
  if month =? 2 then (if isLeap year then 29 else 28)
  else if (month =? 4) || (month =? 6) || (month =? 9) || (month =? 11) then 30
  else 31.

(** [time.Date(year, month, day, hour, min, sec, nsec, time.UTC)] for
    fields within their ranges. *)
Definition Date (year month day hour min sec nsec : Z) : Time :=
  (((days_from_civil year month day * 24 + hour) * 60 + min) * 60 + sec) * Second + nsec.

Definition digit_char (n : Z) : ascii := ascii_of_N (48 + Z.to_N (n mod 10)).

Fixpoint digits (fuel : nat) (n : Z) (acc : string) : string :=
  match fuel with
  | O => acc
  | S fuel' =>
      let acc' := String (digit_char n) acc in
      if n / 10 =? 0 then acc' else digits fuel' (n / 10) acc'
  end.

Fixpoint zeros (k : nat) : string :=
  match k with
  | O => EmptyString
  | S k' => String "0" (zeros k')
  end.

(** [appendInt(b, x, width)]: decimal, zero-padded to [width]. *)
Definition appendInt (x : Z) (width : nat) : string :=
  let u := digits 20 (Z.abs x) EmptyString in
  (if x <? 0 then "-" else "") ++ zeros (width - String.length u) ++ u.

(** [t.Format("2006-01-02 15:04:05")] in a zone [offset] seconds east of
    UTC ([time.Now()] carries the local zone). *)
Definition Format (offset : Z) (t : Time) : string :=
  let secs := t / Second + offset in
  let '(year, month, day) := civil_from_days (secs / 86400) in
  let sod := secs mod 86400 in
  appendInt year 4 ++ "-" ++ appendInt month 2 ++ "-" ++ appendInt day 2 ++ " "
  ++ appendInt (sod / 3600) 2 ++ ":" ++ appendInt (sod / 60 mod 60) 2 ++ ":"
  ++ appendInt (sod mod 60) 2.

Definition digit_val (c : ascii) : option Z :=
  let n := N_of_ascii c in
  if ((48 <=? n) && (n <=? 57))%N then Some (Z.of_N n - 48) else None.

(** [getnum(s, fixed)]: one or two leading digits; [fixed] demands two. *)
Definition getnum (s : string) (fixed : bool) : option (Z * string) :=
  match s with
  | EmptyString => None
  | String c0 rest =>
      match digit_val c0 with
      | None => None
      | Some d0 =>
          match rest with
          | String c1 rest' =>
              match digit_val c1 with
              | Some d1 => Some (d0 * 10 + d1, rest')
              | None => if fixed then None else Some (d0, rest)
              end
          | EmptyString => if fixed then None else Some (d0, rest)
          end
      end
  end.

(** The chunk "2006": exactly four digits. *)
Definition getyear (s : string) : option (Z * string) :=
  match s with
  | String c0 (String c1 (String c2 (String c3 rest))) =>
      match digit_val c0, digit_val c1, digit_val c2, digit_val c3 with
      | Some d0, Some d1, Some d2, Some d3 =>
          Some (((d0 * 10 + d1) * 10 + d2) * 10 + d3, rest)
      | _, _, _, _ => None
      end
  | _ => None
  end.

Fixpoint cutspace (s : string) : string :=
  match s with
  | String c rest => if Ascii.eqb c " " then cutspace rest else s
  | EmptyString => s
  end.

(** [skip(value, prefix)] for a one-byte literal of the layout; a space
    of the layout matches a run of spaces, and the end of the value. *)
Definition skip (value : string) (prefix : ascii) : option string :=
  if Ascii.eqb prefix " " then
    match value with
    | String c _ => if Ascii.eqb c " " then Some (cutspace value) else None
    | EmptyString => Some value
    end
  else
    match value with
    | String c rest => if Ascii.eqb c prefix then Some rest else None
    | EmptyString => None
    end.

Fixpoint span_digits (s : string) : list Z * string :=
  match s with
  | String c rest =>
      match digit_val c with
      | Some d => let '(ds, r) := span_digits rest in (d :: ds, r)
      | None => ([], s)
      end
  | EmptyString => ([], s)
  end.

Definition commaOrPeriod (c : ascii) : bool := Ascii.eqb c "." || Ascii.eqb c ",".

(** A fractional second after the seconds field is accepted although the
    layout has none ([parseNanoseconds] reads at most nine digits). *)
Definition fractional (value : string) : Z * string :=
  match value with
  | String c (String d rest) =>
      if commaOrPeriod c && bool_decide (is_Some (digit_val d)) then
        let '(ds, r) := span_digits (String d rest) in
        let ds9 := take 9 ds in
        (fold_left (fun acc x => acc * 10 + x) ds9 0 * 10 ^ Z.of_nat (9 - length ds9), r)
      else (0, value)
  | _ => (0, value)
  end.

Definition errBad : error := "parsing time: cannot parse value as layout".
Definition errRange : error := "parsing time: field out of range".
Definition errExtra : error := "parsing time: extra text".

(** The fields of a value in the layout, and the unparsed rest. *)
Definition parse_fields (value : string) : option (Z * Z * Z * Z * Z * Z * string) :=
  '(year, value) ← getyear value;
  value ← skip value "-";
  '(month, value) ← getnum value true;
  value ← skip value "-";
  '(day, value) ← getnum value true;
  value ← skip value " ";
  '(hour, value) ← getnum value false;
  value ← skip value ":";
  '(min, value) ← getnum value true;
  value ← skip value ":";
  '(sec, value) ← getnum value true;
  Some (year, month, day, hour, min, sec, value).

(** [time.Parse("2006-01-02 15:04:05", value)]: the instant in UTC. *)
Definition Parse (value : string) : Time * option error :=
  match parse_fields value with
  | None => (0, Some errBad)
  | Some (year, month, day, hour, min, sec, value) =>
      if (month <=? 0) || (12 <? month) || (24 <=? hour) || (60 <=? min) || (60 <=? sec)
      then (0, Some errRange)
      else
        let '(nsec, value) := fractional value in
        if negb (String.eqb value "") then (0, Some errExtra)
        else if (day <? 1) || (daysIn month year <? day) then (0, Some errRange)
        else (Date year month day hour min sec nsec, None)
  end.

(** [t.Sub(u) < 0] *)
Definition Sub_negative (t u : Time) : bool := t - u <? 0.

End time.

(* ===================================================================== *)
(** * Entities, requests and responses                                    *)
(* ===================================================================== *)

Module entity.

(** [type User struct]; a [uuid.UUID] is shown by its text.  The
    time stamps, which no flow below reads, are left out. *)
Record User := {
  ID : string;
  Name : string;
  Email : string;
  TelpNumber : string;
  Password : string;
  Role : string;
  ImageUrl : string;
  IsVerified : bool
}.

(** The zero value [entity.User{}]. *)
Definition User_zero : User :=
  {| ID := ""; Name := ""; Email := ""; TelpNumber := ""; Password := "";
     Role := ""; ImageUrl := ""; IsVerified := false |}.

(** [type RefreshToken struct]: the columns the flows write and read.
    The primary key and the time stamps are assigned by the database. *)
Record RefreshToken := {
  UserID : string;
  Token : string;
  ExpiresAt : Time
}.

Definition RefreshToken_zero : RefreshToken :=
  {| UserID := ""; Token := ""; ExpiresAt := 0 |}.

#[global] Instance RefreshToken_eq_dec : EqDecision RefreshToken.
Proof. solve_decision. Defined.

End entity.

(** user_dto.go and the second document of auth_dto.go: what
    [userService] exchanges. *)
Module dto.

Definition MESSAGE_FAILED_INVALID_REFRESH_TOKEN : string := "Invalid refresh token".
Definition MESSAGE_FAILED_EXPIRED_REFRESH_TOKEN : string := "Refresh token has expired".

Definition ErrUserNotFound : error := errors_New "user not found".
Definition ErrEmailNotFound : error := errors_New "email not found".
Definition ErrUpdateUser : error := errors_New "failed to update user".
Definition ErrDeleteUser : error := errors_New "failed to delete user".
Definition ErrTokenInvalid : error := errors_New "token invalid".
Definition ErrTokenExpired : error := errors_New "token expired".
Definition ErrAccountAlreadyVerified : error := errors_New "account already verified".

Record UserLoginRequest := { Email : string; Password : string }.
(** The field [RefreshToken] of the request. *)
Record RefreshTokenRequest := { RefreshToken_ : string }.
Record VerifyEmailRequest := { Token : string }.

Record TokenResponse := {
  AccessToken : string;
  RefreshToken : string;
  Role : string
}.
Definition TokenResponse_zero : TokenResponse :=
  {| AccessToken := ""; RefreshToken := ""; Role := "" |}.

(** The fields [Email] and [IsVerified] of the response. *)
Record VerifyEmailResponse := {
  VEmail : string;
  VIsVerified : bool
}.
Definition VerifyEmailResponse_zero : VerifyEmailResponse :=
  {| VEmail := ""; VIsVerified := false |}.

End dto.

(** The first document of auth_dto.go: what [authService] exchanges. *)
Module dto_auth.

Definition ErrInvalidRefreshToken : error := errors_New "invalid refresh token".
Definition ErrExpiredRefreshToken : error := errors_New "refresh token has expired".

Record TokenResponse := {
  AccessToken : string;
  RefreshToken : string;
  ExpiresIn : Z;
  TokenType : string
}.
Definition TokenResponse_zero : TokenResponse :=
  {| AccessToken := ""; RefreshToken := ""; ExpiresIn := 0; TokenType := "" |}.

End dto_auth.

(** config/config.go *)
Module config.

Record JWTConfig := {
  SecretKey : string;
  Issuer : string;
  RefreshTokenExpiry : Z;
  RotateRefreshToken : bool
}.

Record Config := { JWT : JWTConfig }.

End config.

(* ===================================================================== *)
(** * Credential hasher (package helpers)                                 *)
(* ===================================================================== *)

Module helpers.

Section Hasher.

(** [bcrypt.CompareHashAndPassword(hash, password)]: nil on a match. *)
Variable bcrypt_CompareHashAndPassword : list byte -> list byte -> option error.

(** [func CheckPassword(hashPassword string, plainPassword []byte) (bool, error)] *)
Definition CheckPassword (hashPassword : string) (plainPassword : list byte)
  : bool * option error :=
  let hashPW := list_byte_of_string hashPassword in
  match bcrypt_CompareHashAndPassword hashPW plainPassword with
  | Some err => (false, Some err)
  | None => (true, None)
  end.

End Hasher.

End helpers.

(* ===================================================================== *)
(** * Credential and token store (package repository, gorm)               *)
(* ===================================================================== *)

Module repository.

(** The two tables.  Every method below runs its statement on the handle
    chosen by [if tx == nil { tx = r.db }]: it is given the data that
    handle sees (the view of the transaction, or the committed data) and
    yields the data after the statement.  [fault] is the error, if any,
    that the driver raises on the statement; a failed statement changes
    nothing. *)
Record DB := {
  users : list entity.User;
  refresh_tokens : list entity.RefreshToken
}.

Definition ErrRecordNotFound : error := errors_New "record not found".

(** The error of the PostgreSQL driver ([pgconn.PgError], SQLSTATE 23505)
    for a row that the unique index refuses; gorm names the index of the
    column [token] of the table [refresh_tokens] after them, and hands
    the error of the driver on as it is. *)
Definition ErrUniqueViolation : error :=
  "ERROR: duplicate key value violates unique constraint "
  ++ String (ascii_of_nat 34) "idx_refresh_tokens_token"
  ++ String (ascii_of_nat 34) " (SQLSTATE 23505)".

(** What the driver raises on the statements of one call. *)
Record Faults := {
  on_GetUser : option error;
  on_FindToken : option error;
  on_Delete : option error;
  on_Create : option error;
  on_Update : option error;
  on_Commit : option error
}.

Definition no_faults : Faults :=
  {| on_GetUser := None; on_FindToken := None; on_Delete := None;
     on_Create := None; on_Update := None; on_Commit := None |}.

(** [Where(cond).Take(&user)] *)
Definition take_user (cond : entity.User -> bool) (fault : option error) (db : DB)
  : entity.User * option error :=
  match fault with
  | Some err => (entity.User_zero, Some err)
  | None =>
      match List.find cond (users db) with
      | Some user => (user, None)
      | None => (entity.User_zero, Some ErrRecordNotFound)
      end
  end.

(** [func (r *userRepository) GetUserById] *)
Definition GetUserById (fault : option error) (db : DB) (userId : string) :=
  take_user (fun u => String.eqb (entity.ID u) userId) fault db.

(** [func (r *userRepository) GetUserByEmail] *)
Definition GetUserByEmail (fault : option error) (db : DB) (email : string) :=
  take_user (fun u => String.eqb (entity.Email u) email) fault db.

(** [func (r *userRepository) CheckEmail] *)
Definition CheckEmail (fault : option error) (db : DB) (email : string)
  : entity.User * bool * option error :=
  match take_user (fun u => String.eqb (entity.Email u) email) fault db with
  | (_, Some err) => (entity.User_zero, false, Some err)
  | (user, None) => (user, true, None)
  end.

Definition nonzero (new old : string) : string :=
  if String.eqb new "" then old else new.

(** [Updates(&user)]: the non-zero fields of [user] are written to the
    row with its primary key. *)
Definition updates (user row : entity.User) : entity.User :=
  if String.eqb (entity.ID row) (entity.ID user) then
    {| entity.ID := entity.ID row;
       entity.Name := nonzero (entity.Name user) (entity.Name row);
       entity.Email := nonzero (entity.Email user) (entity.Email row);
       entity.TelpNumber := nonzero (entity.TelpNumber user) (entity.TelpNumber row);
       entity.Password := nonzero (entity.Password user) (entity.Password row);
       entity.Role := nonzero (entity.Role user) (entity.Role row);
       entity.ImageUrl := nonzero (entity.ImageUrl user) (entity.ImageUrl row);
       entity.IsVerified := entity.IsVerified user || entity.IsVerified row |}
  else row.

(** [func (r *userRepository) Update] *)
Definition Update (fault : option error) (db : DB) (user : entity.User)
  : (entity.User * option error) * DB :=
  match fault with
  | Some err => ((entity.User_zero, Some err), db)
  | None =>
      ((user, None),
       {| users := List.map (updates user) (users db);
          refresh_tokens := refresh_tokens db |})
  end.

(** [func (r *userRepository) Delete]: the entity carries a
    [gorm.DeletedAt], so the statement stamps the row and no query on
    users sees it any more; [users] holds the rows the queries see. *)
Definition Delete (fault : option error) (db : DB) (userId : string)
  : option error * DB :=
  match fault with
  | Some err => (Some err, db)
  | None =>
      (None,
       {| users := List.filter (fun u => negb (String.eqb (entity.ID u) userId)) (users db);
          refresh_tokens := refresh_tokens db |})
  end.

Definition has_token (token : string) (db : DB) : bool :=
  existsb (fun r => String.eqb (entity.Token r) token) (refresh_tokens db).

(** [func (r *refreshTokenRepository) Create]: the error of the statement
    is returned as it is, with the zero token.  The column [token]
    carries a unique index, which the stored rows decide; what else the
    database refuses (a user id that the foreign key does not find, a
    token longer than the 255 characters of its column) is, like a lost
    connection, an error of the driver and part of [fault]. *)
Definition Create (fault : option error) (db : DB) (token : entity.RefreshToken)
  : (entity.RefreshToken * option error) * DB :=
  match fault with
  | Some err => ((entity.RefreshToken_zero, Some err), db)
  | None =>
      if has_token (entity.Token token) db
      then ((entity.RefreshToken_zero, Some ErrUniqueViolation), db)
      else ((token, None),
            {| users := users db;
               refresh_tokens := (refresh_tokens db ++ [token])%list |})
  end.

(** [func (r *refreshTokenRepository) FindByToken] *)
Definition FindByToken (fault : option error) (db : DB) (token : string)
  : entity.RefreshToken * option error :=
  match fault with
  | Some err => (entity.RefreshToken_zero, Some err)
  | None =>
      match List.find (fun r => String.eqb (entity.Token r) token) (refresh_tokens db) with
      | Some refreshToken => (refreshToken, None)
      | None => (entity.RefreshToken_zero, Some ErrRecordNotFound)
      end
  end.

(** [Where(cond).Delete(&entity.RefreshToken{})]: no matching row is not
    an error. *)
Definition delete_tokens (cond : entity.RefreshToken -> bool) (fault : option error) (db : DB)
  : option error * DB :=
  match fault with
  | Some err => (Some err, db)
  | None =>
      (None,
       {| users := users db;
          refresh_tokens := List.filter (fun r => negb (cond r)) (refresh_tokens db) |})
  end.

(** [func (r *refreshTokenRepository) DeleteByUserID] *)
Definition DeleteByUserID (fault : option error) (db : DB) (userID : string) :=
  delete_tokens (fun r => String.eqb (entity.UserID r) userID) fault db.

(** [func (r *refreshTokenRepository) DeleteByToken] *)
Definition DeleteByToken (fault : option error) (db : DB) (token : string) :=
  delete_tokens (fun r => String.eqb (entity.Token r) token) fault db.

(** [func (r *refreshTokenRepository) DeleteExpired] *)
Definition DeleteExpired (now : Time) (fault : option error) (db : DB) :=
  delete_tokens (fun r => entity.ExpiresAt r <? now) fault db.

(** token_repository.go: the repository [authService] is built on. *)
Definition CreateRefreshToken := Create.
Definition GetRefreshToken := FindByToken.
Definition DeleteRefreshToken := DeleteByToken.
Definition DeleteRefreshTokensByUserID := DeleteByUserID.
Definition DeleteExpiredTokens := DeleteExpired.

(** [s.db.Begin()]: the view of a fresh transaction is the committed data
    (requests are taken one at a time). *)
Definition Begin (committed : DB) : DB := committed.

(** [tx.Rollback()]: the view is dropped. *)
Definition Rollback (committed tx : DB) : DB := committed.

(** [tx.Commit().Error]: the view becomes the committed data, or the
    commit fails as a whole. *)
Definition Commit (fault : option error) (committed tx : DB) : option error * DB :=
  match fault with
  | Some err => (Some err, committed)
  | None => (None, tx)
  end.

(** The unique index on the column [token]: no two rows share a token. *)
Definition unique_tokens (db : DB) : Prop :=
  NoDup (List.map entity.Token (refresh_tokens db)).

(** The refresh tokens stored for a user. *)
Definition tokens_of_user (userID : string) (db : DB) : list entity.RefreshToken :=
  List.filter (fun r => String.eqb (entity.UserID r) userID) (refresh_tokens db).

(** The stored rows that [FindByToken] can return for a token. *)
Definition findable (token : string) (db : DB) : bool := has_token token db.

End repository.

(* ===================================================================== *)
(** * Orchestrator [userService] (package service, user_service.go)       *)
(* ===================================================================== *)

Module userService.

(** The methods of the interface [JWTService] (first document of
    jwt_service.go) that the flows call; their results depend on the
    clock and on the random source of the call. *)
Record JWTService := {
  GenerateAccessToken : string -> string -> string;
  GenerateRefreshToken : string * Time
}.

Definition LOCAL_URL : string := "http://localhost:3000".
Definition VERIFY_EMAIL_ROUTE : string := "register/verify_email".

Section Flows.

Variable bcrypt_CompareHashAndPassword : list byte -> list byte -> option error.
Variable gcm_Seal : list byte -> list byte -> list byte -> list byte.
Variable gcm_Open : list byte -> list byte -> list byte -> outcome (option (list byte)).
Variable jwtService : JWTService.
(** [time.Now()], the offset of the local zone, the bytes of [rand.Reader]. *)
Variable now : Time.
Variable Local : Z.
Variable random : list byte.
(** Reading and executing the mail template for an address and a link. *)
Variable render_template : string -> string -> string * option error.
Variable f : repository.Faults.

(** The local [plainText] of [makeVerificationEmail]. *)
Definition verification_plainText (receiverEmail : string) : string :=
  let expired := time.Format Local (Time_Add now (Hour * 24)) in
  receiverEmail ++ "_" ++ expired.

(** The local [token, err] of [makeVerificationEmail]. *)
Definition verification_token (receiverEmail : string) : string * option error :=
  utils.AESEncrypt gcm_Seal random (verification_plainText receiverEmail).

(** [func makeVerificationEmail(receiverEmail string) (map[string]string, error)] *)
Definition makeVerificationEmail (receiverEmail : string)
  : gmap string string * option error :=
  match verification_token receiverEmail with
  | (_, Some err) => (∅, Some err)
  | (token, None) =>
      let verifyLink := LOCAL_URL ++ "/" ++ VERIFY_EMAIL_ROUTE ++ "?token=" ++ token in
      match render_template receiverEmail verifyLink with
      | (_, Some err) => (∅, Some err)
      | (body, None) =>
          (<["subject" := "Cakno - Go Gin Template"]> (<["body" := body]> ∅), None)
      end
  end.

(** [func (s *userService) VerifyEmail]: the response, the error and the
    stored data after the call. *)
Definition VerifyEmail (db : repository.DB) (req : dto.VerifyEmailRequest)
  : outcome ((dto.VerifyEmailResponse * option error) * repository.DB) :=
  bind_outcome (utils.AESDecrypt gcm_Open (dto.Token req)) (fun '(decryptedToken, err) =>
  if bool_decide (is_Some err)
  then Return ((dto.VerifyEmailResponse_zero, Some dto.ErrTokenInvalid), db)
  else if negb (strings.Contains decryptedToken "_")
  then Return ((dto.VerifyEmailResponse_zero, Some dto.ErrTokenInvalid), db)
  else
    let decryptedTokenSplit := strings.Split decryptedToken "_" in
    bind_outcome (strings.index decryptedTokenSplit 0) (fun email =>
    bind_outcome (strings.index decryptedTokenSplit 1) (fun expired =>
    match time.Parse expired with
    | (_, Some _) => Return ((dto.VerifyEmailResponse_zero, Some dto.ErrTokenInvalid), db)
    | (expiredTime, None) =>
        if time.Sub_negative expiredTime now
        then Return (({| dto.VEmail := email; dto.VIsVerified := false |},
                      Some dto.ErrTokenExpired), db)
        else
          match repository.GetUserByEmail (repository.on_GetUser f) db email with
          | (_, Some _) =>
              Return ((dto.VerifyEmailResponse_zero, Some dto.ErrUserNotFound), db)
          | (user, None) =>
              if entity.IsVerified user
              then Return ((dto.VerifyEmailResponse_zero,
                            Some dto.ErrAccountAlreadyVerified), db)
              else
                match repository.Update (repository.on_Update f) db
                        {| entity.ID := entity.ID user; entity.Name := "";
                           entity.Email := ""; entity.TelpNumber := "";
                           entity.Password := ""; entity.Role := "";
                           entity.ImageUrl := ""; entity.IsVerified := true |} with
                | ((_, Some _), db') =>
                    Return ((dto.VerifyEmailResponse_zero, Some dto.ErrUpdateUser), db')
                | ((updatedUser, None), db') =>
                    Return (({| dto.VEmail := email;
                                dto.VIsVerified := entity.IsVerified updatedUser |},
                             None), db')
                end
          end
    end))).

(** [func (s *userService) Verify]: login.  The result carries the
    committed data after the call. *)
Definition Verify (db : repository.DB) (req : dto.UserLoginRequest)
  : (dto.TokenResponse * option error) * repository.DB :=
  let tx := repository.Begin db in
  match repository.GetUserByEmail (repository.on_GetUser f) tx (dto.Email req) with
  | (_, Some _) =>
      ((dto.TokenResponse_zero, Some (errors_New "invalid email or password")),
       repository.Rollback db tx)
  | (user, None) =>
      let '(checkPassword, err) :=
        helpers.CheckPassword bcrypt_CompareHashAndPassword (entity.Password user)
          (list_byte_of_string (dto.Password req)) in
      if bool_decide (is_Some err) || negb checkPassword
      then ((dto.TokenResponse_zero, Some (errors_New "invalid email or password")),
            repository.Rollback db tx)
      else
        let accessToken := GenerateAccessToken jwtService (entity.ID user) (entity.Role user) in
        let '(refreshTokenString, expiresAt) := GenerateRefreshToken jwtService in
        match repository.DeleteByUserID (repository.on_Delete f) tx (entity.ID user) with
        | (Some err, _) => ((dto.TokenResponse_zero, Some err), repository.Rollback db tx)
        | (None, tx) =>
            let refreshToken :=
              {| entity.UserID := entity.ID user;
                 entity.Token := refreshTokenString;
                 entity.ExpiresAt := expiresAt |} in
            match repository.Create (repository.on_Create f) tx refreshToken with
            | ((_, Some err), _) =>
                ((dto.TokenResponse_zero, Some err), repository.Rollback db tx)
            | ((_, None), tx) =>
                match repository.Commit (repository.on_Commit f) db tx with
                | (Some err, db') => ((dto.TokenResponse_zero, Some err), db')
                | (None, db') =>
                    (({| dto.AccessToken := accessToken;
                         dto.RefreshToken := refreshTokenString;
                         dto.Role := entity.Role user |}, None), db')
                end
            end
        end
  end.

(** [func (s *userService) RefreshToken] *)
Definition RefreshToken (db : repository.DB) (req : dto.RefreshTokenRequest)
  : (dto.TokenResponse * option error) * repository.DB :=
  let tx := repository.Begin db in
  match repository.FindByToken (repository.on_FindToken f) tx (dto.RefreshToken_ req) with
  | (_, Some _) =>
      ((dto.TokenResponse_zero, Some (errors_New dto.MESSAGE_FAILED_INVALID_REFRESH_TOKEN)),
       repository.Rollback db tx)
  | (dbToken, None) =>
      if Time_After now (entity.ExpiresAt dbToken)
      then ((dto.TokenResponse_zero,
             Some (errors_New dto.MESSAGE_FAILED_EXPIRED_REFRESH_TOKEN)),
            repository.Rollback db tx)
      else
        match repository.GetUserById (repository.on_GetUser f) tx (entity.UserID dbToken) with
        | (_, Some _) =>
            ((dto.TokenResponse_zero, Some dto.ErrUserNotFound), repository.Rollback db tx)
        | (user, None) =>
            let accessToken :=
              GenerateAccessToken jwtService (entity.ID user) (entity.Role user) in
            let '(refreshTokenString, expiresAt) := GenerateRefreshToken jwtService in
            match repository.DeleteByUserID (repository.on_Delete f) tx (entity.ID user) with
            | (Some err, _) => ((dto.TokenResponse_zero, Some err), repository.Rollback db tx)
            | (None, tx) =>
                let refreshToken :=
                  {| entity.UserID := entity.ID user;
                     entity.Token := refreshTokenString;
                     entity.ExpiresAt := expiresAt |} in
                match repository.Create (repository.on_Create f) tx refreshToken with
                | ((_, Some err), _) =>
                    ((dto.TokenResponse_zero, Some err), repository.Rollback db tx)
                | ((_, None), tx) =>
                    match repository.Commit (repository.on_Commit f) db tx with
                    | (Some err, db') => ((dto.TokenResponse_zero, Some err), db')
                    | (None, db') =>
                        (({| dto.AccessToken := accessToken;
                             dto.RefreshToken := refreshTokenString;
                             dto.Role := entity.Role user |}, None), db')
                    end
                end
            end
        end
  end.

(** What the driver raises on the statement that deletes the user. *)
Variable on_DeleteUser : option error.

(** [func (s *userService) Delete]: the error and the committed data
    after the call. *)
Definition Delete (db : repository.DB) (userId : string) : option error * repository.DB :=
  let tx := repository.Begin db in
  match repository.GetUserById (repository.on_GetUser f) tx userId with
  | (_, Some _) => (Some dto.ErrUserNotFound, repository.Rollback db tx)
  | (user, None) =>
      match repository.DeleteByUserID (repository.on_Delete f) tx (entity.ID user) with
      | (Some err, _) =>
          (Some (errors_New ("failed to delete refresh tokens: " ++ err)),
           repository.Rollback db tx)
      | (None, tx) =>
          match repository.Delete on_DeleteUser tx (entity.ID user) with
          | (Some _, _) => (Some dto.ErrDeleteUser, repository.Rollback db tx)
          | (None, tx) => repository.Commit (repository.on_Commit f) db tx
          end
      end
  end.

(** [func (s *userService) RevokeRefreshToken] *)
Definition RevokeRefreshToken (db : repository.DB) (userID : string)
  : option error * repository.DB :=
  let tx := repository.Begin db in
  match repository.GetUserById (repository.on_GetUser f) tx userID with
  | (_, Some _) => (Some dto.ErrUserNotFound, repository.Rollback db tx)
  | (_, None) =>
      match repository.DeleteByUserID (repository.on_Delete f) tx userID with
      | (Some err, _) => (Some err, repository.Rollback db tx)
      | (None, tx) =>
          match repository.Commit (repository.on_Commit f) db tx with
          | (Some err, db') => (Some err, db')
          | (None, db') => (None, db')
          end
      end
  end.

End Flows.

End userService.

(* ===================================================================== *)
(** * Orchestrator [authService] (service/auth_service.go)                *)
(* ===================================================================== *)

Module authService.

(** The method of the interface [JWTService] (second document of
    jwt_service.go) that the flows call. *)
Record JWTService := {
  GenerateAccessToken : string -> string -> string * Z * option error
}.

Section Flows.

Variable bcrypt_CompareHashAndPassword : list byte -> list byte -> option error.
Variable jwtService : JWTService.
Variable cfg : config.Config.
(** [time.Now()] at the expiry check and when a refresh token is issued;
    the text of [uuid.New()]. *)
Variable now : Time.
Variable now_issue : Time.
Variable uuid_New : string.
(** [dto.ErrAccountNotVerified] and [dto.ErrPasswordNotMatch]: their
    declarations are not among the sources. *)
Variable ErrAccountNotVerified : error.
Variable ErrPasswordNotMatch : error.
Variable f : repository.Faults.

(** [time.Now().Add(time.Hour * time.Duration(s.config.JWT.RefreshTokenExpiry))] *)
Definition refreshTokenExpiry : Time :=
  Time_Add now_issue (wrap64 (Hour * config.RefreshTokenExpiry (config.JWT cfg))).

(** [func (s *authService) Login]: every statement runs on the nil
    transaction, that is on the committed data. *)
Definition Login (db : repository.DB) (req : dto.UserLoginRequest)
  : (dto_auth.TokenResponse * option error) * repository.DB :=
  let '(user, flag, err) := repository.CheckEmail (repository.on_GetUser f) db (dto.Email req) in
  if bool_decide (is_Some err) || negb flag
  then ((dto_auth.TokenResponse_zero, Some dto.ErrEmailNotFound), db)
  else if negb (entity.IsVerified user)
  then ((dto_auth.TokenResponse_zero, Some ErrAccountNotVerified), db)
  else
    let '(checkPassword, err) :=
      helpers.CheckPassword bcrypt_CompareHashAndPassword (entity.Password user)
        (list_byte_of_string (dto.Password req)) in
    if bool_decide (is_Some err) || negb checkPassword
    then ((dto_auth.TokenResponse_zero, Some ErrPasswordNotMatch), db)
    else
      match GenerateAccessToken jwtService (entity.ID user) (entity.Role user) with
      | (_, _, Some err) => ((dto_auth.TokenResponse_zero, Some err), db)
      | (accessToken, expiresIn, None) =>
          let refreshToken := uuid_New in
          let refreshTokenEntity :=
            {| entity.UserID := entity.ID user;
               entity.Token := refreshToken;
               entity.ExpiresAt := refreshTokenExpiry |} in
          let '(_, db) :=
            repository.DeleteRefreshTokensByUserID (repository.on_Delete f) db (entity.ID user) in
          match repository.CreateRefreshToken (repository.on_Create f) db refreshTokenEntity with
          | ((_, Some err), db) => ((dto_auth.TokenResponse_zero, Some err), db)
          | ((_, None), db) =>
              (({| dto_auth.AccessToken := accessToken;
                   dto_auth.RefreshToken := refreshToken;
                   dto_auth.ExpiresIn := expiresIn;
                   dto_auth.TokenType := "Bearer" |}, None), db)
          end
      end.

(** [func (s *authService) RefreshToken] *)
Definition RefreshToken (db : repository.DB) (req : dto.RefreshTokenRequest)
  : (dto_auth.TokenResponse * option error) * repository.DB :=
  match repository.GetRefreshToken (repository.on_FindToken f) db (dto.RefreshToken_ req) with
  | (_, Some _) => ((dto_auth.TokenResponse_zero, Some dto_auth.ErrInvalidRefreshToken), db)
  | (storedToken, None) =>
      if Time_After now (entity.ExpiresAt storedToken)
      then
        let '(_, db) :=
          repository.DeleteRefreshToken (repository.on_Delete f) db (dto.RefreshToken_ req) in
        ((dto_auth.TokenResponse_zero, Some dto_auth.ErrExpiredRefreshToken), db)
      else
        match repository.GetUserById (repository.on_GetUser f) db (entity.UserID storedToken) with
        | (_, Some _) => ((dto_auth.TokenResponse_zero, Some dto.ErrUserNotFound), db)
        | (user, None) =>
            match GenerateAccessToken jwtService (entity.ID user) (entity.Role user) with
            | (_, _, Some err) => ((dto_auth.TokenResponse_zero, Some err), db)
            | (accessToken, expiresIn, None) =>
                if config.RotateRefreshToken (config.JWT cfg)
                then
                  let '(_, db) :=
                    repository.DeleteRefreshToken (repository.on_Delete f) db
                      (dto.RefreshToken_ req) in
                  let newRefreshToken := uuid_New in
                  let newRefreshTokenEntity :=
                    {| entity.UserID := entity.ID user;
                       entity.Token := newRefreshToken;
                       entity.ExpiresAt := refreshTokenExpiry |} in
                  match repository.CreateRefreshToken (repository.on_Create f) db
                          newRefreshTokenEntity with
                  | ((_, Some err), db) => ((dto_auth.TokenResponse_zero, Some err), db)
                  | ((_, None), db) =>
                      (({| dto_auth.AccessToken := accessToken;
                           dto_auth.RefreshToken := newRefreshToken;
                           dto_auth.ExpiresIn := expiresIn;
                           dto_auth.TokenType := "Bearer" |}, None), db)
                  end
                else
                  (({| dto_auth.AccessToken := accessToken;
                       dto_auth.RefreshToken := dto.RefreshToken_ req;
                       dto_auth.ExpiresIn := expiresIn;
                       dto_auth.TokenType := "Bearer" |}, None), db)
            end
        end
  end.

(** [func (s *authService) Logout] *)
Definition Logout (db : repository.DB) (token : string) : option error * repository.DB :=
  repository.DeleteRefreshToken (repository.on_Delete f) db token.

End Flows.

End authService.

(* ===================================================================== *)
(** * File names (package utils, file.go)                                 *)
(* ===================================================================== *)

Module file.

(** [func GetExtensions(filename string) string]: the last of the pieces
    between the dots. *)
Definition GetExtensions (filename : string) : outcome string :=
  let parts := strings.Split filename "." in
  strings.index parts (length parts - 1).

End file.

(* ===================================================================== *)
(** * Paginated listing (dto/pagination.go, package repository)           *)
(* ===================================================================== *)

Module dto_pagination.

(** [type PaginationRequest struct]; an [int] has 64 bits on the targets
    considered. *)
Record PaginationRequest := {
  Search : string;
  Page : Z;
  PerPage : Z
}.

(** [type PaginationResponse struct] *)
Record PaginationResponse := {
  RPage : Z;
  RPerPage : Z;
  MaxPage : Z;
  Count : Z
}.

Definition PaginationResponse_zero : PaginationResponse :=
  {| RPage := 0; RPerPage := 0; MaxPage := 0; Count := 0 |}.

(** [func (p *PaginationRequest) GetOffset() int] *)
Definition GetOffset (p : PaginationRequest) : Z :=
  wrap64 (wrap64 (Page p - 1) * PerPage p).

(** [func (p *PaginationRequest) GetLimit() int] *)
Definition GetLimit (p : PaginationRequest) : Z := PerPage p.

(** [func (p *PaginationRequest) GetPage() int] *)
Definition GetPage (p : PaginationRequest) : Z := Page p.

(** [func (p *PaginationRequest) Default()]: the request after the call. *)
Definition Default (p : PaginationRequest) : PaginationRequest :=
  let p := if Page p =? 0
           then {| Search := Search p; Page := 1; PerPage := PerPage p |} else p in
  if PerPage p =? 0
  then {| Search := Search p; Page := Page p; PerPage := 10 |} else p.

End dto_pagination.

Module user_repository.

(** The query that a method builds: the pattern of its [name LIKE ?]
    condition, if any, and the offset and limit set on it, if any. *)
Record Query := {
  like : option string;
  window : option (Z * Z)
}.

(** [func Paginate(req dto.PaginationRequest)]: the scope sets the offset
    and the limit of the query. *)
Definition Paginate (req : dto_pagination.PaginationRequest) (q : Query) : Query :=
  let offset := wrap64 (wrap64 (dto_pagination.Page req - 1) * dto_pagination.PerPage req) in
  {| like := like q; window := Some (offset, dto_pagination.PerPage req) |}.

Section Listing.

Variable a : Pagination.GOARCH.
(** What the database answers to [Count] and to [Find] on a query. *)
Variable Count : Query -> Z * option error.
Variable Find : Query -> list entity.User * option error.

(** [func (r *userRepository) GetAllUserWithPagination]: the users, the
    pagination of the response, the error. *)
Definition GetAllUserWithPagination (req : dto_pagination.PaginationRequest)
  : (list entity.User * dto_pagination.PaginationResponse) * option error :=
  let req := dto_pagination.Default req in
  let query := {| like := None; window := None |} in
  let query :=
    if negb (String.eqb (dto_pagination.Search req) "")
    then {| like := Some ("%" ++ dto_pagination.Search req ++ "%"); window := window query |}
    else query in
  match Count query with
  | (_, Some err) => (([], dto_pagination.PaginationResponse_zero), Some err)
  | (count, None) =>
      match Find (Paginate req query) with
      | (_, Some err) => (([], dto_pagination.PaginationResponse_zero), Some err)
      | (users, None) =>
          let totalPage := Pagination.TotalPage a count (dto_pagination.PerPage req) in
          ((users,
            {| dto_pagination.RPage := dto_pagination.Page req;
               dto_pagination.RPerPage := dto_pagination.PerPage req;
               dto_pagination.MaxPage := totalPage;
               dto_pagination.Count := count |}), None)
      end
  end.

End Listing.

End user_repository.

(* ===================================================================== *)
(** * Checks over a range of integers                                     *)
(* ===================================================================== *)

Module bounded.

(** [P] holds on the [len] integers from [lo] on, by bisection. *)
Fixpoint check_range (fuel : nat) (P : Z -> bool) (lo len : Z) : bool :=
  match fuel with
  | O => len <=? 0
  | S fuel' =>
      if len <=? 0 then true
      else if len =? 1 then P lo
      else
        let h := len / 2 in
        if check_range fuel' P lo h then check_range fuel' P (lo + h) (len - h) else false
  end.

(** The day [doe] of the 400-year era that starts on 0000-03-01 is a
    date of the calendar, and the day of that date. *)
Definition era_day_ok (doe : Z) : bool :=
  let '(y, m, d) := time.civil_from_days (doe - 719468) in
  (1 <=? m) && (m <=? 12) && (1 <=? d) && (d <=? time.daysIn m y)
  && (time.days_from_civil y m d =? doe - 719468).

(** A field of two digits is read back, and holds no underscore. *)
Definition two_digits_ok (n : Z) : bool :=
  bool_decide (time.getnum (time.appendInt n 2) true = Some (n, ""))
  && negb (strings.Contains (time.appendInt n 2) "_").

Definition four_digits_ok (n : Z) : bool :=
  bool_decide (time.getyear (time.appendInt n 4) = Some (n, ""))
  && negb (strings.Contains (time.appendInt n 4) "_").

End bounded.

(* ===================================================================== *)
(** * Issuing session tokens (jwt_service.go, both documents)             *)
(* ===================================================================== *)

(** The signing side of github.com/golang-jwt/jwt/v4. *)
Module jwt_signing.

(** [jwt.NewNumericDate(t)]: the instant cut to the second. *)
Definition NewNumericDate (t : Time) : option Time := Some (t - t mod Second).

(** [jwt.NewWithClaims(method, claims)] *)
Definition NewWithClaims (method : jwt.SigningMethod) (claims : jwt.Claims) : jwt.Token :=
  {| jwt.Raw := "";
     jwt.Method := method;
     jwt.Header := <["typ" := jwt.JString "JWT"]> {["alg" := jwt.JString (jwt.Alg method)]};
     jwt.TokenClaims := claims;
     jwt.Signature := "";
     jwt.Valid := false |}.

Section Signer.

(** Encoding and signing belong to the library's collaborators
    (encoding/base64, encoding/json, crypto/hmac). *)
Variable EncodeSegment : list byte -> string.
Variable json_Marshal_header : gmap string jwt.json -> list byte * option error.
Variable json_Marshal_claims : jwt.Claims -> list byte * option error.
Variable Method_Sign : jwt.SigningMethod -> string -> list byte -> string * option error.

(** [func (t *Token) SigningString() (string, error)] *)
Definition SigningString (t : jwt.Token) : string * option error :=
  match json_Marshal_header (jwt.Header t) with
  | (_, Some err) => ("", Some err)
  | (jsonValue, None) =>
      let header := EncodeSegment jsonValue in
      match json_Marshal_claims (jwt.TokenClaims t) with
      | (_, Some err) => ("", Some err)
      | (jsonValue, None) =>
          let claim := EncodeSegment jsonValue in
          (strings.Join [header; claim] ".", None)
      end
  end.

(** [func (t *Token) SignedString(key interface{}) (string, error)] *)
Definition SignedString (t : jwt.Token) (key : list byte) : string * option error :=
  match SigningString t with
  | (_, Some err) => ("", Some err)
  | (sstr, None) =>
      match Method_Sign (jwt.Method t) sstr key with
      | (_, Some err) => ("", Some err)
      | (sig, None) => (strings.Join [sstr; sig] ".", None)
      end
  end.

End Signer.

End jwt_signing.

(** The first document of jwt_service.go. *)
Module jwtService_gen.

Section Methods.

Variable EncodeSegment : list byte -> string.
Variable json_Marshal_header : gmap string jwt.json -> list byte * option error.
Variable json_Marshal_claims : jwt.Claims -> list byte * option error.
Variable Method_Sign : jwt.SigningMethod -> string -> list byte -> string * option error.
Variable j : jwtService.t.
(** The two readings of [time.Now()]. *)
Variable now_exp : Time.
Variable now_iat : Time.

(** The claims that [GenerateAccessToken] signs. *)
Definition access_claims (userId role : string) : jwt.jwtCustomClaim :=
  {| jwt.UserID := userId;
     jwt.Role := role;
     jwt.Registered :=
       {| jwt.Issuer := jwtService.issuer j;
          jwt.ExpiresAt :=
            jwt_signing.NewNumericDate (Time_Add now_exp (jwtService.accessExpiry j));
          jwt.IssuedAt := jwt_signing.NewNumericDate now_iat |} |}.

(** [func (j *jwtService) GenerateAccessToken(userId string, role string) string]:
    an error of the signature is logged, and the empty text returned. *)
Definition GenerateAccessToken (userId role : string) : string :=
  let claims := access_claims userId role in
  let token := jwt_signing.NewWithClaims jwt.HS256 (jwt.CustomClaims claims) in
  let '(tx, err) :=
    jwt_signing.SignedString EncodeSegment json_Marshal_header json_Marshal_claims
      Method_Sign token (list_byte_of_string (jwtService.secretKey j)) in
  tx.

End Methods.

End jwtService_gen.

(** The second document of jwt_service.go. *)
Module jwtService2_gen.

(** [t.Sub(u)]: the difference, kept within the range of a [Duration]. *)
Definition Time_Sub (t u : Time) : Duration :=
  let d := t - u in
  if d <? Pagination.MinInt64 then Pagination.MinInt64
  else if Pagination.MaxInt64 <? d then Pagination.MaxInt64
  else d.

(** [func (d Duration) Seconds() float64] *)
Definition Seconds (d : Duration) : Pagination.float64 :=
  let sec := Z.quot d Second in
  let nsec := Z.rem d Second in
  SFadd Pagination.prec Pagination.emax
    (Pagination.float64_of_int64 sec)
    (Pagination.float64_div (Pagination.float64_of_int64 nsec)
       (Pagination.float64_of_int64 1000000000)).

Section Methods.

Variable a : Pagination.GOARCH.
Variable EncodeSegment : list byte -> string.
Variable json_Marshal_header : gmap string jwt.json -> list byte * option error.
Variable json_Marshal_claims : jwt.Claims -> list byte * option error.
Variable Method_Sign : jwt.SigningMethod -> string -> list byte -> string * option error.
Variable j : jwtService2.t.
(** The readings of [time.Now()], in the order of the calls. *)
Variable now_1 : Time.
Variable now_2 : Time.
Variable now_3 : Time.

(** [func (j *jwtService) GenerateToken(userId string, role string) string] *)
Definition GenerateToken (userId role : string) : string :=
  let claims :=
    {| jwt.UserID := userId;
       jwt.Role := role;
       jwt.Registered :=
         {| jwt.Issuer := jwtService2.issuer j;
            jwt.ExpiresAt := jwt_signing.NewNumericDate (Time_Add now_1 (Minute * 120));
            jwt.IssuedAt := jwt_signing.NewNumericDate now_2 |} |} in
  let token := jwt_signing.NewWithClaims jwt.HS256 (jwt.CustomClaims claims) in
  let '(tx, err) :=
    jwt_signing.SignedString EncodeSegment json_Marshal_header json_Marshal_claims
      Method_Sign token (list_byte_of_string (jwtService2.secretKey j)) in
  tx.

(** [func (j *jwtService) GenerateAccessToken(userID string, role string) (string, int64, error)] *)
Definition GenerateAccessToken (userID role : string) : string * Z * option error :=
  let expirationTime := Time_Add now_1 (Minute * 15) in
  let expiresIn := Pagination.int64_of_float64 a (Seconds (Time_Sub expirationTime now_2)) in
  let claims :=
    {| jwt.UserID := userID;
       jwt.Role := role;
       jwt.Registered :=
         {| jwt.Issuer := jwtService2.issuer j;
            jwt.ExpiresAt := jwt_signing.NewNumericDate expirationTime;
            jwt.IssuedAt := jwt_signing.NewNumericDate now_3 |} |} in
  let token := jwt_signing.NewWithClaims jwt.HS256 (jwt.CustomClaims claims) in
  match jwt_signing.SignedString EncodeSegment json_Marshal_header json_Marshal_claims
          Method_Sign token (list_byte_of_string (jwtService2.secretKey j)) with
  | (_, Some err) => ("", 0, Some err)
  | (t, None) => (t, expiresIn, None)
  end.

End Methods.

End jwtService2_gen.

(* ===================================================================== *)
(** * Reading and updating a user (user_service.go)                       *)
(* ===================================================================== *)

Module userService_profile.

Definition ErrGetUserById : error := errors_New "failed to get user by id".

(** [dto.UserUpdateRequest] *)
Record UserUpdateRequest := {
  Name : string;
  PhoneNumber : string;
  Email : string
}.

(** [dto.UserResponse] *)
Record UserResponse := {
  RID : string;
  RName : string;
  REmail : string;
  RPhoneNumber : string;
  RRole : string;
  RImageUrl : string;
  RIsVerified : bool
}.

Definition UserResponse_zero : UserResponse :=
  {| RID := ""; RName := ""; REmail := ""; RPhoneNumber := ""; RRole := "";
     RImageUrl := ""; RIsVerified := false |}.

(** [dto.UserUpdateResponse] *)
Record UserUpdateResponse := {
  UID : string;
  UName : string;
  UPhoneNumber : string;
  URole : string;
  UEmail : string;
  UIsVerified : bool
}.

Definition UserUpdateResponse_zero : UserUpdateResponse :=
  {| UID := ""; UName := ""; UPhoneNumber := ""; URole := ""; UEmail := "";
     UIsVerified := false |}.

Section Flows.

Variable f : repository.Faults.

(** [func (s *userService) GetUserById]: the statement runs on the
    committed data.  The phone column is the field [TelpNumber] of
    entity/user.go, which the service names [PhoneNumber]. *)
Definition GetUserById (db : repository.DB) (userId : string) : UserResponse * option error :=
  match repository.GetUserById (repository.on_GetUser f) db userId with
  | (_, Some _) => (UserResponse_zero, Some ErrGetUserById)
  | (user, None) =>
      ({| RID := entity.ID user; RName := entity.Name user;
          REmail := entity.Email user; RPhoneNumber := entity.TelpNumber user;
          RRole := entity.Role user; RImageUrl := entity.ImageUrl user;
          RIsVerified := entity.IsVerified user |}, None)
  end.

(** [func (s *userService) Update]: the response, the error and the
    committed data after the call.  The hook [BeforeUpdate] hashes a
    password that is not empty; the data written here carry none. *)
Definition Update (db : repository.DB) (req : UserUpdateRequest) (userId : string)
  : (UserUpdateResponse * option error) * repository.DB :=
  match repository.GetUserById (repository.on_GetUser f) db userId with
  | (_, Some _) => ((UserUpdateResponse_zero, Some dto.ErrUserNotFound), db)
  | (user, None) =>
      let data :=
        {| entity.ID := entity.ID user;
           entity.Name := Name req;
           entity.Email := Email req;
           entity.TelpNumber := PhoneNumber req;
           entity.Password := "";
           entity.Role := entity.Role user;
           entity.ImageUrl := "";
           entity.IsVerified := false |} in
      match repository.Update (repository.on_Update f) db data with
      | ((_, Some _), db') => ((UserUpdateResponse_zero, Some dto.ErrUpdateUser), db')
      | ((userUpdate, None), db') =>
          (({| UID := entity.ID userUpdate;
               UName := entity.Name userUpdate;
               UPhoneNumber := entity.TelpNumber userUpdate;
               URole := entity.Role userUpdate;
               UEmail := entity.Email userUpdate;
               UIsVerified := entity.IsVerified user |}, None), db')
      end
  end.

End Flows.

End userService_profile.

(* ===================================================================== *)
(** * Log pages (routes/log_route.go)                                     *)
(* ===================================================================== *)

Module routes.

(** The loop of [ReverseSlice] from the element of index [i] on:
    [reversed[length-1-i] = v]; an index out of range panics. *)
Fixpoint ReverseSlice_loop (length i : Z) (input reversed : list string)
  : outcome (list string) :=
  match input with
  | [] => Return reversed
  | v :: rest =>
      let idx := length - 1 - i in
      if (0 <=? idx) && (idx <? Z.of_nat (List.length reversed))
      then ReverseSlice_loop length (i + 1) rest (<[Z.to_nat idx := v]> reversed)
      else Panic "runtime error: index out of range"
  end.

(** [func ReverseSlice(input []string) []string] *)
Definition ReverseSlice (input : list string) : outcome (list string) :=
  let length := Z.of_nat (List.length input) in
  let reversed := replicate (Z.to_nat length) "" in
  ReverseSlice_loop length 0 input reversed.

End routes.

(* ===================================================================== *)
(** * Sending the verification mail (config/email.go, utils/email.go,
      user_service.go)                                                    *)
(* ===================================================================== *)

Module config_email.

(** [type EmailConfig struct] *)
Record EmailConfig := {
  Host : string;
  Port : Z;
  SenderName : string;
  AuthEmail : string;
  AuthPassword : string
}.

(** [func getEnv(key, defaultValue string) string]: a variable that is
    set, even to the empty text, hides the default. *)
Definition getEnv (env : gmap string string) (key defaultValue : string) : string :=
  match env !! key with
  | Some value => value
  | None => defaultValue
  end.

Section Env.

Variable strconv_Atoi : string -> Z * option error.
Variable env : gmap string string.

(** [var NewEmailConfig], a function that returns a pointer to an
    [EmailConfig] and an error: [None] is the nil pointer. *)
Definition NewEmailConfig : option EmailConfig * option error :=
  match strconv_Atoi (getEnv env "SMTP_PORT" "587") with
  | (_, Some err) => (None, Some err)
  | (port, None) =>
      let config :=
        {| Host := getEnv env "SMTP_HOST" "";
           Port := port;
           SenderName := getEnv env "SMTP_SENDER_NAME" "";
           AuthEmail := getEnv env "SMTP_AUTH_EMAIL" "";
           AuthPassword := getEnv env "SMTP_AUTH_PASSWORD" "" |} in
      if String.eqb (Host config) "" || String.eqb (AuthEmail config) ""
         || String.eqb (AuthPassword config) ""
      then (None, Some (errors_New "email configuration is incomplete"))
      else (Some config, None)
  end.

End Env.

End config_email.

Module mail.

(** A message as [SendMail] composes it. *)
Record Message := {
  From : string;
  To : string;
  Subject : string;
  Body : string
}.

(** What was handed to a dialer, and delivered: host, port, user,
    password and the message. *)
Record Delivery := {
  DHost : string;
  DPort : Z;
  DUsername : string;
  DPassword : string;
  DMessage : Message
}.

Section Sending.

Variable strconv_Atoi : string -> Z * option error.
Variable env : gmap string string.
(** The error, if any, of [dialer.DialAndSend]. *)
Variable on_DialAndSend : option error.

(** [func SendMail(toEmail string, subject string, body string) error]:
    the error and the deliveries made. *)
Definition SendMail (toEmail subject body : string)
  : outcome (option error * list Delivery) :=
  match config_email.NewEmailConfig strconv_Atoi env with
  | (_, Some err) => Return (Some err, [])
  | (None, None) =>
      Panic "runtime error: invalid memory address or nil pointer dereference"
  | (Some emailConfig, None) =>
      let mailer :=
        {| From := config_email.AuthEmail emailConfig; To := toEmail;
           Subject := subject; Body := body |} in
      match on_DialAndSend with
      | Some err => Return (Some err, [])
      | None =>
          Return (None,
                  [{| DHost := config_email.Host emailConfig;
                      DPort := config_email.Port emailConfig;
                      DUsername := config_email.AuthEmail emailConfig;
                      DPassword := config_email.AuthPassword emailConfig;
                      DMessage := mailer |}])
      end
  end.

Variable gcm_Seal : list byte -> list byte -> list byte -> list byte.
Variable now : Time.
Variable Local : Z.
Variable random : list byte.
Variable render_template : string -> string -> string * option error.
Variable f : repository.Faults.

(** [draftEmail[key]]: the empty text for an absent key. *)
Definition draft_get (draft : gmap string string) (key : string) : string :=
  default "" (draft !! key).

(** [func (s *userService) SendVerificationEmail]: the request carries
    the email. *)
Definition SendVerificationEmail (db : repository.DB) (email : string)
  : outcome (option error * list Delivery) :=
  match repository.GetUserByEmail (repository.on_GetUser f) db email with
  | (_, Some _) => Return (Some dto.ErrEmailNotFound, [])
  | (user, None) =>
      match userService.makeVerificationEmail gcm_Seal now Local random render_template
              (entity.Email user) with
      | (_, Some err) => Return (Some err, [])
      | (draftEmail, None) =>
          SendMail (entity.Email user) (draft_get draftEmail "subject")
            (draft_get draftEmail "body")
      end
  end.

End Sending.

End mail.

(* ===================================================================== *)
(** * Stand-ins for the collaborators                                     *)
(* ===================================================================== *)

(** Small executable stand-ins for the libraries the code is linked
    with, in the manner of the mocks of the test suites; they instantiate
    the parameters of the sections above on concrete runs. *)
Module mock.

(** An authenticated cipher with a 16-byte tag that depends on the key
    length, the nonce and the length of the plaintext. *)
Definition tag (key nonce plaintext : list byte) : list byte :=
  take 16 (nonce ++ replicate 16 (hex.mkbyte 0 (N.of_nat (length plaintext + length key) mod 16)))%list.

Definition Seal (key nonce plaintext : list byte) : list byte :=
  (plaintext ++ tag key nonce plaintext)%list.

Definition bytes_eqb (a b : list byte) : bool := bool_decide (a = b).

Definition Open (key nonce ciphertext : list byte) : outcome (option (list byte)) :=
  if negb (length nonce =? 12)%nat
  then Panic "crypto/cipher: incorrect nonce length given to GCM"
  else if (length ciphertext <? 16)%nat then Return None
  else
    let n := (length ciphertext - 16)%nat in
    let plaintext := take n ciphertext in
    if bytes_eqb (drop n ciphertext) (tag key nonce plaintext)
    then Return (Some plaintext)
    else Return None.

(** A password "hash" that is the password behind a fixed prefix. *)
Definition CompareHashAndPassword (hash password : list byte) : option error :=
  if bytes_eqb hash (list_byte_of_string "$2a$04$" ++ password)%list then None
  else Some (errors_New "crypto/bcrypt: hashedPassword is not the hash of the given password").

(** Segments are taken as they are; a few JSON texts are known. *)
Definition DecodeSegment (seg : string) : list byte * option error :=
  (list_byte_of_string seg, None).

Definition json_Unmarshal (b : list byte) : gmap string jwt.json * option error :=
  let s := string_of_list_byte b in
  if String.eqb s "{alg:HS256}" then ({["alg" := jwt.JString "HS256"]}, None)
  else if String.eqb s "{alg:HS512}" then ({["alg" := jwt.JString "HS512"]}, None)
  else if String.eqb s "{alg:none}" then ({["alg" := jwt.JString "none"]}, None)
  else if String.eqb s "{user_id:u1}" then ({["user_id" := jwt.JString "u1"]}, None)
  else if String.eqb s "{user_id:u1,role:7}"
  then (<["role" := jwt.JNumber 7]> {["user_id" := jwt.JString "u1"]}, None)
  else if String.eqb s "{user_id:u1,role:admin}"
  then (<["role" := jwt.JString "admin"]> {["user_id" := jwt.JString "u1"]}, None)
  else (∅, Some (errors_New "invalid character"))%string.

Definition json_Decode_custom (b : list byte) : jwt.jwtCustomClaim * option error :=
  let zero := {| jwt.UserID := ""; jwt.Role := "";
                 jwt.Registered := {| jwt.Issuer := ""; jwt.ExpiresAt := None;
                                      jwt.IssuedAt := None |} |} in
  let s := string_of_list_byte b in
  if String.eqb s "{user_id:u1,role:admin}"
  then ({| jwt.UserID := "u1"; jwt.Role := "admin";
           jwt.Registered := jwt.Registered zero |}, None)
  else if String.eqb s "{user_id:u1}"
  then ({| jwt.UserID := "u1"; jwt.Role := "";
           jwt.Registered := jwt.Registered zero |}, None)
  else (zero, Some (errors_New "invalid character")).

Definition Claims_Valid (c : jwt.Claims) : option error := None.

(** Only the HMAC methods verify, and only the signature ["sig"]. *)
Definition Method_Verify (m : jwt.SigningMethod) (signingString signature : string)
  (key : list byte) : option error :=
  if jwt.is_SigningMethodHMAC m && String.eqb signature "sig" then None
  else Some (errors_New "signature is invalid").

Definition jwtService_j : jwtService.t := jwtService.NewJWTService "".
Definition jwtService2_j : jwtService2.t :=
  {| jwtService2.secretKey := "Template"; jwtService2.issuer := "Template" |}.

Definition userJWT : userService.JWTService :=
  {| userService.GenerateAccessToken := fun userId role => "access-" ++ userId;
     userService.GenerateRefreshToken := ("fresh-token", 2000) |}.

Definition authJWT : authService.JWTService :=
  {| authService.GenerateAccessToken := fun userId role => ("access-" ++ userId, 900, None) |}.

Definition cfg (rotate : bool) : config.Config :=
  {| config.JWT := {| config.SecretKey := "Template"; config.Issuer := "Template";
                      config.RefreshTokenExpiry := 168;
                      config.RotateRefreshToken := rotate |} |}.

Definition alice : entity.User :=
  {| entity.ID := "u1"; entity.Name := "Alice"; entity.Email := "alice@example.com";
     entity.TelpNumber := ""; entity.Password := "$2a$04$password123";
     entity.Role := "user"; entity.ImageUrl := ""; entity.IsVerified := true |}.

Definition token_of (user token : string) (expiresAt : Time) : entity.RefreshToken :=
  {| entity.UserID := user; entity.Token := token; entity.ExpiresAt := expiresAt |}.

(** Alice with two stored refresh tokens, both valid until instant 1000. *)
Definition db_two : repository.DB :=
  {| repository.users := [alice];
     repository.refresh_tokens := [token_of "u1" "t1" 1000; token_of "u1" "t2" 1000] |}.

(** Alice with one stored refresh token. *)
Definition db_one : repository.DB :=
  {| repository.users := [alice];
     repository.refresh_tokens := [token_of "u1" "t1" 1000] |}.

Definition login (email password : string) : dto.UserLoginRequest :=
  {| dto.Email := email; dto.Password := password |}.

Definition refresh (token : string) : dto.RefreshTokenRequest :=
  {| dto.RefreshToken_ := token |}.

Definition create_fails : repository.Faults :=
  {| repository.on_GetUser := None; repository.on_FindToken := None;
     repository.on_Delete := None;
     repository.on_Create := Some (errors_New "connection reset");
     repository.on_Update := None; repository.on_Commit := None |}.

(** 2026-10-30 18:00:00 UTC. *)
Definition now_2026 : Time := 1793383200 * Second.

Definition nonce_bytes : list byte := list_byte_of_string "0123456789ab".

Definition john : entity.User :=
  {| entity.ID := "u2"; entity.Name := "John"; entity.Email := "john_doe@example.com";
     entity.TelpNumber := ""; entity.Password := "$2a$04$password123";
     entity.Role := "user"; entity.ImageUrl := ""; entity.IsVerified := false |}.

(** An address with a quoted local part, which may hold spaces. *)
Definition quote : string := String (ascii_of_nat 34) EmptyString.
Definition quoted_email : string :=
  quote ++ "a_2030-01-01 00:00:00_b" ++ quote ++ "@x.io".

Definition quentin : entity.User :=
  {| entity.ID := "u3"; entity.Name := "Quentin"; entity.Email := quoted_email;
     entity.TelpNumber := ""; entity.Password := "$2a$04$password123";
     entity.Role := "user"; entity.ImageUrl := ""; entity.IsVerified := false |}.

Definition db_unverified : repository.DB :=
  {| repository.users := [alice; john; quentin]; repository.refresh_tokens := [] |}.

Definition verify (token : string) : dto.VerifyEmailRequest := {| dto.Token := token |}.

Definition delete_fails : repository.Faults :=
  {| repository.on_GetUser := None; repository.on_FindToken := None;
     repository.on_Delete := Some (errors_New "connection reset");
     repository.on_Create := None;
     repository.on_Update := None; repository.on_Commit := None |}.

Definition bob : entity.User :=
  {| entity.ID := "u4"; entity.Name := "Bob"; entity.Email := "bob@example.com";
     entity.TelpNumber := ""; entity.Password := "$2a$04$password123";
     entity.Role := "user"; entity.ImageUrl := ""; entity.IsVerified := false |}.

(** Alice with two refresh tokens and Bob, not yet verified, with one. *)
Definition db_pair : repository.DB :=
  {| repository.users := [alice; bob];
     repository.refresh_tokens :=
       [token_of "u1" "t1" 1000; token_of "u4" "t3" 1000; token_of "u1" "t2" 1000] |}.

(** The zone seven hours east of UTC, in seconds. *)
Definition UTC_plus_7 : Z := 25200.

(** Segments in hexadecimal, so that no segment holds a dot. *)
Definition EncodeSegment_hex (b : list byte) : string := hex.Sprintf_x b.
Definition DecodeSegment_hex (seg : string) : list byte * option error :=
  hex.DecodeString seg.

(** The header as the text that [json_Unmarshal] knows; other values are
    refused. *)
Definition json_Marshal_header (h : gmap string jwt.json) : list byte * option error :=
  match h !! "alg" with
  | Some (jwt.JString alg) =>
      if String.eqb alg "HS256" then (list_byte_of_string "{alg:HS256}", None)
      else if String.eqb alg "HS512" then (list_byte_of_string "{alg:HS512}", None)
      else ([], Some (errors_New "json: unsupported value"))
  | _ => ([], Some (errors_New "json: unsupported value"))
  end.

(** The claims of the administrator u1 issued by "Template" at
    [now_2026] for a quarter of an hour, as a text; the times are in
    seconds. *)
Definition issued_text : string :=
  "{user_id:u1,role:admin,iss:Template,exp:1793384100,iat:1793383200}".

Definition issued_claims : jwt.jwtCustomClaim :=
  {| jwt.UserID := "u1"; jwt.Role := "admin";
     jwt.Registered := {| jwt.Issuer := "Template";
                          jwt.ExpiresAt := Some (1793384100 * Second);
                          jwt.IssuedAt := Some (1793383200 * Second) |} |}.

(** Only these claims are marshalled; other values are refused. *)
Definition json_Marshal_claims (c : jwt.Claims) : list byte * option error :=
  match c with
  | jwt.CustomClaims c =>
      if bool_decide (jwt.UserID c = "u1") && bool_decide (jwt.Role c = "admin")
         && bool_decide (jwt.Issuer (jwt.Registered c) = "Template")
         && bool_decide (jwt.ExpiresAt (jwt.Registered c) = Some (1793384100 * Second))
         && bool_decide (jwt.IssuedAt (jwt.Registered c) = Some (1793383200 * Second))
      then (list_byte_of_string issued_text, None)
      else ([], Some (errors_New "json: unsupported value"))
  | jwt.MapClaims _ => ([], Some (errors_New "json: unsupported value"))
  end.

(** The decoders that also know the text of the issued claims. *)
Definition json_Decode_issued (b : list byte) : jwt.jwtCustomClaim * option error :=
  if String.eqb (string_of_list_byte b) issued_text then (issued_claims, None)
  else json_Decode_custom b.

Definition json_Unmarshal_issued (b : list byte) : gmap string jwt.json * option error :=
  if String.eqb (string_of_list_byte b) issued_text
  then (<["iat" := jwt.JNumber 1793383200]>
          (<["exp" := jwt.JNumber 1793384100]>
             (<["iss" := jwt.JString "Template"]>
                (<["role" := jwt.JString "admin"]> {["user_id" := jwt.JString "u1"]}))), None)
  else json_Unmarshal b.

(** A validator with a clock, in the manner of the library's: claims
    are refused from their expiry on, and before they were issued; a
    time that is absent is not checked. *)
Definition valid_between (now : Time) (exp iat : option Time) : option error :=
  if match exp with Some e => negb (now <? e) | None => false end
  then Some (errors_New "token is expired")
  else if match iat with Some i => now <? i | None => false end
  then Some (errors_New "token used before issued")
  else None.

Definition seconds_of (v : option jwt.json) : option Time :=
  match v with
  | Some (jwt.JNumber n) => Some (n * Second)
  | _ => None
  end.

Definition Claims_Valid_at (now : Time) (c : jwt.Claims) : option error :=
  match c with
  | jwt.CustomClaims c =>
      valid_between now (jwt.ExpiresAt (jwt.Registered c)) (jwt.IssuedAt (jwt.Registered c))
  | jwt.MapClaims m => valid_between now (seconds_of (m !! "exp")) (seconds_of (m !! "iat"))
  end.

(** Five minutes and twenty minutes after [now_2026]. *)
Definition five_past : Time := now_2026 + 5 * Minute.
Definition twenty_past : Time := now_2026 + 20 * Minute.

(** The HMAC methods sign, with the signature ["sig"]. *)
Definition Method_Sign (m : jwt.SigningMethod) (signingString : string) (key : list byte)
  : string * option error :=
  if jwt.is_SigningMethodHMAC m then ("sig", None)
  else ("", Some (errors_New "key is of invalid type")).

(** An administrator, verified. *)
Definition root : entity.User :=
  {| entity.ID := "u1"; entity.Name := "Root"; entity.Email := "root@example.com";
     entity.TelpNumber := ""; entity.Password := "$2a$04$password123";
     entity.Role := "admin"; entity.ImageUrl := ""; entity.IsVerified := true |}.

Definition db_root : repository.DB :=
  {| repository.users := [root]; repository.refresh_tokens := [] |}.

End mock.

(* ===================================================================== *)
(** * Properties                                                          *)
(* ===================================================================== *)

(** ** Pagination *)

Example TotalPage_20_10 : forall a, Pagination.TotalPage a 20 10 = 2.
Proof. intros []; vm_compute; reflexivity. Qed.

Example TotalPage_21_10 : forall a, Pagination.TotalPage a 21 10 = 3.
Proof. intros []; vm_compute; reflexivity. Qed.

Example TotalPage_0_10 : forall a, Pagination.TotalPage a 0 10 = 0.
Proof. intros []; vm_compute; reflexivity. Qed.

Example TotalPage_5_10 : forall a, Pagination.TotalPage a 5 10 = 1.
Proof. intros []; vm_compute; reflexivity. Qed.

(** The quotient by zero is +Inf (NaN for 0/0). *)
Example float64_div_by_zero :
  Pagination.float64_div (Pagination.float64_of_int64 5) (Pagination.float64_of_int64 0)
  = S754_infinity false
  /\ Pagination.float64_div (Pagination.float64_of_int64 0) (Pagination.float64_of_int64 0)
     = S754_nan.
Proof. split; vm_compute; reflexivity. Qed.

(** Above 2^53 the conversion to [float64] rounds the count. *)
Example TotalPage_large_count :
  forall a, Pagination.TotalPage a (2 ^ 53 + 1) 1 = 2 ^ 53
            /\ Pagination.ceil_div (2 ^ 53 + 1) 1 = 2 ^ 53 + 1.
Proof. intros []; split; vm_compute; reflexivity. Qed.

(** On small arguments the function is the ceiling of the quotient. *)
Example TotalPage_small_range :
  forall a,
    forallb (fun count =>
      forallb (fun perPage =>
        Pagination.TotalPage a count perPage =? Pagination.ceil_div count perPage)
        (List.map Z.of_nat (seq 1 24)))
      (List.map Z.of_nat (seq 0 120)) = true.
Proof. intros []; vm_compute; reflexivity. Qed.

(** C5.  [TotalPage] has no guard for [perPage = 0]: the quotient is
    +Inf, and its conversion to [int64] is the out-of-range value of the
    target, [MinInt64] on amd64 and [MaxInt64] on arm64, where 0 is
    expected and where the copy of the integration tests yields 0.  On
    the inputs (20,10), (21,10), (0,10) and (5,10) the function yields
    the ceiling. *)
Theorem TotalPage_zero_perPage :
  Pagination.TotalPage Pagination.amd64 5 0 = Pagination.MinInt64
  /\ Pagination.TotalPage Pagination.arm64 5 0 = Pagination.MaxInt64
  /\ Pagination.TotalPage_integration 5 0 = 0
  /\ (forall a, Pagination.TotalPage a 20 10 = 2 /\ Pagination.TotalPage a 21 10 = 3
                /\ Pagination.TotalPage a 0 10 = 0 /\ Pagination.TotalPage a 5 10 = 1).
Proof.
  split; [vm_compute; reflexivity|].
  split; [vm_compute; reflexivity|].
  split; [reflexivity|].
  intros a.
  pose proof (TotalPage_20_10 a). pose proof (TotalPage_21_10 a).
  pose proof (TotalPage_0_10 a). pose proof (TotalPage_5_10 a).
  tauto.
Qed.

(** ** Hexadecimal text *)

Lemma hex_digits_of_byte (b : byte) :
  hex.fromHexChar (hex.hextable (Byte.to_N b / 16)) = Some (Byte.to_N b / 16)%N
  /\ hex.fromHexChar (hex.hextable (Byte.to_N b mod 16)) = Some (Byte.to_N b mod 16)%N
  /\ hex.mkbyte (Byte.to_N b / 16) (Byte.to_N b mod 16) = b.
Proof. destruct b; vm_compute; repeat split. Qed.

Lemma DecodeString_Sprintf_x (bs : list byte) :
  hex.DecodeString (hex.Sprintf_x bs) = (bs, None).
Proof.
  induction bs as [|b bs IH]; [reflexivity|].
  destruct (hex_digits_of_byte b) as (Hhi & Hlo & Hb).
  cbn [hex.Sprintf_x hex.DecodeString].
  rewrite Hhi, Hlo, IH, Hb. reflexivity.
Qed.

Lemma KEY_decodes :
  exists key, hex.DecodeString utils.KEY = (key, None)
              /\ utils.aes_NewCipher key = (key, None).
Proof. eexists. split; vm_compute; reflexivity. Qed.

(** ** Symmetric token codec *)

Section CodecProperties.

Variable gcm_Seal : list byte -> list byte -> list byte -> list byte.
Variable gcm_Open : list byte -> list byte -> list byte -> outcome (option (list byte)).

(** C8.  [AESDecrypt] returns on every input, whatever the cipher does
    (the deferred function turns a panic into an error), and the result
    is the empty string with an error when the input is not hexadecimal,
    when it decodes to fewer bytes than one nonce, and when the
    authentication of the ciphertext fails. *)
Theorem AESDecrypt_recoverable (encryptedString : string) :
  exists decryptedString err,
    utils.AESDecrypt gcm_Open encryptedString = Return (decryptedString, err)
    /\ (forall enc e, hex.DecodeString encryptedString = (enc, Some e) ->
          decryptedString = ""
          /\ err = Some (errors_New "error in decoding encrypted string"))
    /\ (forall enc, hex.DecodeString encryptedString = (enc, None) ->
          (length enc < utils.NonceSize)%nat ->
          decryptedString = "" /\ err = Some (errors_New "ciphertext too short"))
    /\ (forall enc key, hex.DecodeString encryptedString = (enc, None) ->
          hex.DecodeString utils.KEY = (key, None) ->
          (utils.NonceSize <= length enc)%nat ->
          gcm_Open key (take utils.NonceSize enc) (drop utils.NonceSize enc) = Return None ->
          decryptedString = "" /\ err = Some (errors_New "error decrypting"))
    /\ (forall enc key v, hex.DecodeString encryptedString = (enc, None) ->
          hex.DecodeString utils.KEY = (key, None) ->
          (utils.NonceSize <= length enc)%nat ->
          gcm_Open key (take utils.NonceSize enc) (drop utils.NonceSize enc) = Panic v ->
          decryptedString = "" /\ err = Some (errors_New "ciphertext too short")).
Proof.
  destruct KEY_decodes as (key & Hkey & Hcipher).
  unfold utils.AESDecrypt, utils.AESDecrypt_body.
  rewrite Hkey, Hcipher.
  destruct (hex.DecodeString encryptedString) as [enc [e|]] eqn:Henc.
  - do 2 eexists. split; [reflexivity|].
    repeat split; intros; congruence.
  - destruct (length enc <? utils.NonceSize)%nat eqn:Hlen.
    + apply Nat.ltb_lt in Hlen.
      do 2 eexists. split; [reflexivity|].
      repeat split; intros; simplify_eq; solve [done | lia].
    + apply Nat.ltb_ge in Hlen.
      destruct (gcm_Open key (take utils.NonceSize enc) (drop utils.NonceSize enc))
        as [[plaintext|]|v] eqn:Hopen; cbn [bind_outcome];
        do 2 eexists; (split; [reflexivity|]);
        repeat split; intros; simplify_eq; solve [done | lia | congruence].
Qed.

(** The cipher opens what it sealed under the same key and nonce. *)
Hypothesis Open_Seal : forall key nonce plaintext,
  length nonce = utils.NonceSize ->
  gcm_Open key nonce (gcm_Seal key nonce plaintext) = Return (Some plaintext).

(** Decryption undoes encryption, for any nonce source. *)
Lemma decrypt_after_encrypt (random : list byte) (s c : string) :
  utils.AESEncrypt gcm_Seal random s = (c, None) ->
  utils.AESDecrypt gcm_Open c = Return (s, None).
Proof.
  destruct KEY_decodes as (key & Hkey & Hcipher).
  unfold utils.AESEncrypt, utils.AESDecrypt, utils.AESDecrypt_body.
  rewrite Hkey, Hcipher. unfold utils.io_ReadFull.
  destruct (utils.NonceSize <=? length random)%nat eqn:Hrand;
    [|destruct (length random =? 0)%nat; discriminate].
  apply Nat.leb_le in Hrand.
  intros [= <-].
  rewrite DecodeString_Sprintf_x.
  assert (Hnonce : length (take utils.NonceSize random) = utils.NonceSize)
    by (rewrite length_take; lia).
  set (nonce := take utils.NonceSize random) in *.
  assert (Hlen : (length (nonce ++ gcm_Seal key nonce (list_byte_of_string s))
                  <? utils.NonceSize)%nat = false)
    by (apply Nat.ltb_ge; rewrite length_app; lia).
  rewrite Hlen.
  rewrite take_app_length' by (symmetry; exact Hnonce).
  rewrite drop_app_length' by (symmetry; exact Hnonce).
  rewrite Open_Seal by exact Hnonce.
  cbn [bind_outcome]. rewrite string_of_list_byte_of_string. reflexivity.
Qed.


(** C9.  What [AESEncrypt] produced, [AESDecrypt] maps back to the
    plaintext. *)
Theorem AESDecrypt_AESEncrypt (random : list byte) (s c : string) :
  utils.AESEncrypt gcm_Seal random s = (c, None) ->
  utils.AESDecrypt gcm_Open c = Return (s, None).
Proof. apply decrypt_after_encrypt. Qed.

End CodecProperties.

Lemma mock_tag_length key nonce plaintext :
  length nonce = 12%nat -> length (mock.tag key nonce plaintext) = 16%nat.
Proof.
  intros H. unfold mock.tag.
  rewrite length_take, length_app, length_replicate. lia.
Qed.

Lemma mock_Open_Seal key nonce plaintext :
  length nonce = utils.NonceSize ->
  mock.Open key nonce (mock.Seal key nonce plaintext) = Return (Some plaintext).
Proof.
  intros Hn. unfold utils.NonceSize in Hn.
  pose proof (mock_tag_length key nonce plaintext Hn) as Ht.
  unfold mock.Open, mock.Seal.
  rewrite Hn, Nat.eqb_refl. cbn [negb].
  rewrite length_app, Ht.
  replace (length plaintext + 16 <? 16)%nat with false
    by (symmetry; apply Nat.ltb_ge; lia).
  replace (length plaintext + 16 - 16)%nat with (length plaintext) by lia.
  rewrite take_app_length, drop_app_length.
  unfold mock.bytes_eqb. rewrite bool_decide_eq_true_2 by reflexivity.
  reflexivity.
Qed.

(** A run of C8 on a text that is not hexadecimal. *)
Lemma AESDecrypt_recoverable_witness :
  exists decryptedString err,
    utils.AESDecrypt mock.Open "zz" = Return (decryptedString, err)
    /\ decryptedString = ""
    /\ err = Some (errors_New "error in decoding encrypted string").
Proof.
  destruct (AESDecrypt_recoverable mock.Open "zz") as (d & e & Hrun & Hhex & _).
  exists d, e. split; [exact Hrun|].
  apply (Hhex [] (hex.InvalidByteError "z")). reflexivity.
Defined.

(** A run of C9: a verification payload sealed with twelve nonce bytes. *)
Lemma AESDecrypt_AESEncrypt_witness :
  utils.AESEncrypt mock.Seal (list_byte_of_string "0123456789ab") "a@b.io_2026-10-31 18:00:00"
  = ("3031323334353637383961626140622e696f5f323032362d31302d33312031383a30303a3030"
     ++ "30313233343536373839616202020202", None)
  /\ utils.AESDecrypt mock.Open
       ("3031323334353637383961626140622e696f5f323032362d31302d33312031383a30303a3030"
        ++ "30313233343536373839616202020202")
     = Return ("a@b.io_2026-10-31 18:00:00", None).
Proof.
  assert (Henc : utils.AESEncrypt mock.Seal (list_byte_of_string "0123456789ab")
                   "a@b.io_2026-10-31 18:00:00"
                 = ("3031323334353637383961626140622e696f5f323032362d31302d33312031383a30303a3030"
                    ++ "30313233343536373839616202020202", None))
    by (vm_compute; reflexivity).
  split; [exact Henc|].
  exact (AESDecrypt_AESEncrypt mock.Seal mock.Open mock_Open_Seal _ _ _ Henc).
Defined.

(** ** Session token issuer *)

Lemma GetSigningMethod_Alg (alg : string) (m : jwt.SigningMethod) :
  jwt.GetSigningMethod alg = Some m -> jwt.Alg m = alg.
Proof.
  unfold jwt.GetSigningMethod. intros H.
  apply List.find_some in H as [_ H]. apply String.eqb_eq in H. exact H.
Qed.

Lemma Split_empty (sep : ascii) : strings.Split "" sep = [""].
Proof. reflexivity. Qed.

Lemma invalid_token_message_distinct (alg : string) :
  errors_New ("invalid token: unexpected signing method " ++ alg)
    <> errors_New "token is empty"
  /\ errors_New ("invalid token: unexpected signing method " ++ alg)
       <> errors_New "token contains an invalid number of segments".
Proof. split; discriminate. Qed.

Section IssuerProperties.

Variable DecodeSegment : string -> list byte * option error.
Variable json_Unmarshal : list byte -> gmap string jwt.json * option error.
Variable json_Decode_custom : list byte -> jwt.jwtCustomClaim * option error.
Variable Claims_Valid : jwt.Claims -> option error.
Variable Method_Verify : jwt.SigningMethod -> string -> string -> list byte -> option error.

#[local] Abbreviation ParseUnverified :=
  (jwt.ParseUnverified DecodeSegment json_Unmarshal json_Decode_custom).
#[local] Abbreviation ParseWithClaims :=
  (jwt.ParseWithClaims DecodeSegment json_Unmarshal json_Decode_custom
     Claims_Valid Method_Verify).
#[local] Abbreviation ValidateToken :=
  (jwtService.ValidateToken DecodeSegment json_Unmarshal json_Decode_custom
     Claims_Valid Method_Verify).
#[local] Abbreviation GetUserIDByToken :=
  (jwtService.GetUserIDByToken DecodeSegment json_Unmarshal json_Decode_custom
     Claims_Valid Method_Verify).
#[local] Abbreviation ValidateToken2 :=
  (jwtService2.ValidateToken DecodeSegment json_Unmarshal json_Decode_custom
     Claims_Valid Method_Verify).
#[local] Abbreviation GetRoleByToken :=
  (jwtService2.GetRoleByToken DecodeSegment json_Unmarshal json_Decode_custom
     Claims_Valid Method_Verify).

(** A token that [ParseUnverified] hands on has three segments and its
    header names the method that was looked up. *)
Lemma ParseUnverified_inl token k tok parts :
  ParseUnverified token k = inl (tok, parts) ->
  parts = strings.Split token "." /\ length parts = 3%nat
  /\ jwt.Header tok !! "alg" = Some (jwt.JString (jwt.Alg (jwt.Method tok)))
  /\ jwt.Valid tok = false.
Proof.
  unfold jwt.ParseUnverified.
  destruct (strings.Split token ".") as [|p0 [|p1 [|p2 [|p3 rest]]]]; try discriminate.
  repeat (case_match; try discriminate).
  intros [= <- <-]. cbn.
  repeat split; try reflexivity.
  match goal with H : jwt.GetSigningMethod _ = Some _ |- _ =>
    apply GetSigningMethod_Alg in H; rewrite H end.
  assumption.
Qed.

(** What [ParseWithClaims] accepts passed the key function, and is marked
    valid. *)
Lemma ParseWithClaims_inl token k keyFunc tok :
  ParseWithClaims token k keyFunc = inl tok ->
  exists tok0 parts key,
    ParseUnverified token k = inl (tok0, parts)
    /\ keyFunc tok0 = (key, None)
    /\ jwt.Method tok = jwt.Method tok0
    /\ jwt.TokenClaims tok = jwt.TokenClaims tok0
    /\ jwt.Valid tok = true.
Proof.
  unfold jwt.ParseWithClaims.
  destruct (ParseUnverified token k) as [[tok0 parts]|e] eqn:Hu; [|discriminate].
  destruct (keyFunc tok0) as [key [e|]] eqn:Hk; [discriminate|].
  repeat (case_match; try discriminate).
  intros [= <-]. exists tok0, parts, key. cbn. auto.
Qed.

(** The key function of [ValidateToken] rejects every method but HS256. *)
Lemma keyFunc_HS256 (j : jwtService.t) tok :
  jwtService.keyFunc j tok
  = if bool_decide (jwt.Method tok = jwt.HS256)
    then (list_byte_of_string (jwtService.secretKey j), None)
    else ([], Some (errors_New ("unexpected signing method "
                                 ++ jwt.Sprintf_v (jwt.Header tok !! "alg")))).
Proof. unfold jwtService.keyFunc. destruct (bool_decide _); reflexivity. Qed.

(** [ValidateToken] never returns a nil token without an error. *)
Lemma ValidateToken_not_nil_nil (j : jwtService.t) token :
  ValidateToken j token <> (None, None).
Proof.
  unfold jwtService.ValidateToken.
  repeat (case_match; try discriminate).
Qed.

(** C7, as amended.  [jwtService.ValidateToken] (first document) rejects
    the empty string, every string that has not three dot-separated
    segments, and every token whose header names another method than
    HS256 (HS384, HS512 and "none" among them), with three different
    messages; what it accepts was signed with HS256.
    [jwtService2.ValidateToken] (second document, [jwt.Parse] with
    [parseToken]) rejects every method that is not an HMAC, "none"
    included, and accepts HS256, HS384 and HS512 alike. *)
Theorem ValidateToken_rejects (j : jwtService.t) (j2 : jwtService2.t) (token : string) :
  (token = "" -> ValidateToken j token = (None, Some (errors_New "token is empty")))
  /\ (token <> "" -> length (strings.Split token ".") <> 3%nat ->
      ValidateToken j token
      = (None, Some (errors_New "token contains an invalid number of segments")))
  /\ (forall tok parts,
        ParseUnverified token jwt.IntoCustomClaims = inl (tok, parts) ->
        jwt.Method tok <> jwt.HS256 ->
        ValidateToken j token
        = (None, Some (errors_New ("invalid token: unexpected signing method "
                                    ++ jwt.Alg (jwt.Method tok))))
        /\ errors_New ("invalid token: unexpected signing method "
                       ++ jwt.Alg (jwt.Method tok)) <> errors_New "token is empty"
        /\ errors_New ("invalid token: unexpected signing method "
                       ++ jwt.Alg (jwt.Method tok))
           <> errors_New "token contains an invalid number of segments")
  /\ errors_New "token is empty"
     <> errors_New "token contains an invalid number of segments"
  /\ (forall tok, ValidateToken j token = (Some tok, None) ->
        jwt.Method tok = jwt.HS256 /\ jwt.Valid tok = true)
  /\ (forall tok parts,
        ParseUnverified token jwt.IntoMapClaims = inl (tok, parts) ->
        jwt.is_SigningMethodHMAC (jwt.Method tok) = false ->
        ValidateToken2 j2 token
        = inr (errors_New ("unexpected signing method " ++ jwt.Alg (jwt.Method tok))))
  /\ (forall tok, ValidateToken2 j2 token = inl tok ->
        jwt.is_SigningMethodHMAC (jwt.Method tok) = true /\ jwt.Valid tok = true).
Proof.
  repeat apply conj.
  - intros ->. reflexivity.
  - intros Hne Hlen. unfold jwtService.ValidateToken.
    destruct (String.eqb token "") eqn:He; [apply String.eqb_eq in He; contradiction|].
    destruct (length (strings.Split token ".") =? 3)%nat eqn:Hl;
      [apply Nat.eqb_eq in Hl; contradiction|].
    reflexivity.
  - intros tok parts Hu Hm.
    destruct (ParseUnverified_inl _ _ _ _ Hu) as (Hparts & Hlen & Halg & _).
    split; [|apply invalid_token_message_distinct].
    unfold jwtService.ValidateToken.
    destruct (String.eqb token "") eqn:He.
    { apply String.eqb_eq in He. subst token. rewrite Split_empty in Hparts.
      subst parts. discriminate. }
    rewrite <- Hparts, Hlen. cbn [Nat.eqb negb].
    unfold jwt.ParseWithClaims. rewrite Hu, keyFunc_HS256.
    rewrite bool_decide_eq_false_2 by exact Hm.
    rewrite Halg. reflexivity.
  - discriminate.
  - intros tok. unfold jwtService.ValidateToken.
    destruct (String.eqb token ""); [discriminate|].
    destruct (negb _); [discriminate|].
    destruct (ParseWithClaims token jwt.IntoCustomClaims (jwtService.keyFunc j))
      as [parsed|e] eqn:Hp; [|discriminate].
    destruct (jwt.Valid parsed) eqn:Hv; cbn [negb]; [|discriminate].
    intros [= <-]. split; [|exact Hv].
    destruct (ParseWithClaims_inl _ _ _ _ Hp) as (tok0 & parts & key & _ & Hk & Hm & _).
    rewrite keyFunc_HS256 in Hk. rewrite Hm.
    destruct (bool_decide (jwt.Method tok0 = jwt.HS256)) eqn:Hd; [|discriminate].
    apply bool_decide_eq_true_1 in Hd. exact Hd.
  - intros tok parts Hu Hm.
    destruct (ParseUnverified_inl _ _ _ _ Hu) as (_ & _ & Halg & _).
    unfold jwtService2.ValidateToken, jwt.Parse, jwt.ParseWithClaims.
    rewrite Hu. unfold jwtService2.parseToken. rewrite Hm, Halg. reflexivity.
  - intros tok Hp. unfold jwtService2.ValidateToken, jwt.Parse in Hp.
    destruct (ParseWithClaims_inl _ _ _ _ Hp) as (tok0 & parts & key & _ & Hk & Hm & _ & Hv).
    split; [|exact Hv]. rewrite Hm.
    unfold jwtService2.parseToken in Hk.
    destruct (jwt.is_SigningMethodHMAC (jwt.Method tok0)); [reflexivity|discriminate].
Qed.

(** C6.  [jwtService.GetUserIDByToken] returns on every input: its type
    assertion is checked.  [jwtService2.GetRoleByToken] asserts
    [claims["role"].(string)] unchecked: on a token that validates and
    whose claims hold no string under "role" it panics. *)
Theorem GetRoleByToken_panics (j : jwtService.t) (j2 : jwtService2.t) (token : string) :
  (exists r, GetUserIDByToken j token = Return r)
  /\ (forall tok m,
        ValidateToken2 j2 token = inl tok ->
        jwt.TokenClaims tok = jwt.MapClaims m ->
        (forall s, m !! "role" <> Some (jwt.JString s)) ->
        GetRoleByToken j2 token
        = Panic ("interface conversion: interface {} is "
                 ++ jwt.type_name (m !! "role") ++ ", not string")).
Proof.
  split.
  - unfold jwtService.GetUserIDByToken.
    pose proof (ValidateToken_not_nil_nil j token) as Hnn.
    destruct (ValidateToken j token) as [[tok|] [e|]]; try (eexists; reflexivity).
    + destruct (jwt.TokenClaims tok); eexists; reflexivity.
    + contradiction.
  - intros tok m Hv Hc Hrole.
    unfold jwtService2.GetRoleByToken. rewrite Hv, Hc. cbn [jwtService2.assert_MapClaims bind_outcome].
    unfold jwt.assert_string.
    destruct (m !! "role") as [[| | |s| |]|] eqn:Hr; cbn [bind_outcome]; try reflexivity.
    exfalso. exact (Hrole s eq_refl).
Qed.

End IssuerProperties.

(** C7: [jwtService2.ValidateToken] accepts a token whose header names
    HS512, and answers the empty string as it answers any other string
    without three segments. *)
Lemma ValidateToken2_accepts_HS512 :
  (exists tok,
     jwtService2.ValidateToken mock.DecodeSegment mock.json_Unmarshal
       mock.json_Decode_custom mock.Claims_Valid mock.Method_Verify mock.jwtService2_j
       "{alg:HS512}.{user_id:u1,role:admin}.sig" = inl tok
     /\ jwt.Method tok = jwt.HS512 /\ jwt.Valid tok = true)
  /\ jwtService2.ValidateToken mock.DecodeSegment mock.json_Unmarshal
       mock.json_Decode_custom mock.Claims_Valid mock.Method_Verify mock.jwtService2_j ""
     = inr (errors_New "token contains an invalid number of segments")
  /\ jwtService2.ValidateToken mock.DecodeSegment mock.json_Unmarshal
       mock.json_Decode_custom mock.Claims_Valid mock.Method_Verify mock.jwtService2_j "a.b"
     = inr (errors_New "token contains an invalid number of segments").
Proof.
  split; [|split; reflexivity].
  eexists. split; [reflexivity|]. split; reflexivity.
Qed.

(** A run of C7: the same HS512 token is refused by
    [jwtService.ValidateToken]. *)
Lemma ValidateToken_rejects_witness :
  jwtService.ValidateToken mock.DecodeSegment mock.json_Unmarshal
    mock.json_Decode_custom mock.Claims_Valid mock.Method_Verify mock.jwtService_j
    "{alg:HS512}.{user_id:u1,role:admin}.sig"
  = (None, Some (errors_New "invalid token: unexpected signing method HS512")).
Proof.
  pose proof (ValidateToken_rejects mock.DecodeSegment mock.json_Unmarshal
                mock.json_Decode_custom mock.Claims_Valid mock.Method_Verify
                mock.jwtService_j mock.jwtService2_j
                "{alg:HS512}.{user_id:u1,role:admin}.sig") as (_ & _ & H & _).
  edestruct H as [Hr _]; [reflexivity | discriminate | exact Hr].
Defined.

(** A run of C6: a validated token without "role". *)
Lemma GetRoleByToken_panics_witness :
  jwtService2.GetRoleByToken mock.DecodeSegment mock.json_Unmarshal
    mock.json_Decode_custom mock.Claims_Valid mock.Method_Verify mock.jwtService2_j
    "{alg:HS256}.{user_id:u1}.sig"
  = Panic "interface conversion: interface {} is nil, not string".
Proof.
  pose proof (proj2 (GetRoleByToken_panics mock.DecodeSegment mock.json_Unmarshal
                       mock.json_Decode_custom mock.Claims_Valid mock.Method_Verify
                       mock.jwtService_j mock.jwtService2_j
                       "{alg:HS256}.{user_id:u1}.sig")) as H.
  eapply eq_trans;
    [ eapply (H _ {["user_id" := jwt.JString "u1"]});
      [reflexivity | reflexivity | intros s; vm_compute; discriminate]
    | vm_compute; reflexivity ].
Defined.

(** ** Credential and token store *)

Lemma take_user_found cond fault db user :
  repository.take_user cond fault db = (user, None) ->
  fault = None /\ cond user = true /\ In user (repository.users db).
Proof.
  unfold repository.take_user. destruct fault; [discriminate|].
  destruct (List.find cond (repository.users db)) eqn:Hf; [|discriminate].
  intros [= <-]. apply List.find_some in Hf as [Hin Hc]. auto.
Qed.

Lemma GetUserById_found fault db userId user :
  repository.GetUserById fault db userId = (user, None) -> entity.ID user = userId.
Proof.
  intros H. apply take_user_found in H as (_ & H & _).
  apply String.eqb_eq in H. exact H.
Qed.

Lemma FindByToken_found fault db token stored :
  repository.FindByToken fault db token = (stored, None) ->
  fault = None /\ entity.Token stored = token
  /\ In stored (repository.refresh_tokens db)
  /\ repository.findable token db = true.
Proof.
  unfold repository.FindByToken. destruct fault; [discriminate|].
  destruct (List.find _ (repository.refresh_tokens db)) eqn:Hf; [|discriminate].
  intros [= <-]. apply List.find_some in Hf as [Hin Hc].
  repeat split; auto.
  - apply String.eqb_eq in Hc. exact Hc.
  - unfold repository.findable, repository.has_token.
    apply existsb_exists. eauto.
Qed.

(** A statement either fails and changes nothing, or deletes the rows
    that match. *)
Lemma delete_tokens_spec cond fault db :
  repository.delete_tokens cond fault db
  = match fault with
    | Some err => (Some err, db)
    | None =>
        (None, {| repository.users := repository.users db;
                  repository.refresh_tokens :=
                    List.filter (fun r => negb (cond r)) (repository.refresh_tokens db) |})
    end.
Proof. reflexivity. Qed.

Lemma has_token_filter_out token rows :
  existsb (fun r => String.eqb (entity.Token r) token)
    (List.filter (fun r => negb (String.eqb (entity.Token r) token)) rows) = false.
Proof.
  induction rows as [|r rows IH]; [reflexivity|].
  cbn [List.filter]. destruct (String.eqb (entity.Token r) token) eqn:He; cbn [negb].
  - exact IH.
  - cbn [existsb]. rewrite He, IH. reflexivity.
Qed.

Lemma has_token_app token rows new :
  existsb (fun r => String.eqb (entity.Token r) token) (rows ++ [new])
  = existsb (fun r => String.eqb (entity.Token r) token) rows
    || String.eqb (entity.Token new) token.
Proof. rewrite existsb_app. cbn [existsb]. rewrite orb_false_r. reflexivity. Qed.

(** After [DeleteByToken] has run, the token cannot be found. *)
Lemma DeleteByToken_not_findable db token :
  repository.findable token (snd (repository.DeleteByToken None db token)) = false.
Proof.
  unfold repository.findable, repository.has_token, repository.DeleteByToken.
  cbn. apply has_token_filter_out.
Qed.

(** A failed [Create] stores nothing; a successful one appends the row. *)
Lemma Create_spec fault db token :
  (forall out e db', repository.Create fault db token = ((out, Some e), db') -> db' = db)
  /\ (forall out db', repository.Create fault db token = ((out, None), db') ->
        out = token
        /\ db' = {| repository.users := repository.users db;
                    repository.refresh_tokens :=
                      (repository.refresh_tokens db ++ [token])%list |}).
Proof.
  unfold repository.Create. split; intros *;
    destruct fault; [| destruct (repository.has_token _ _) | | destruct (repository.has_token _ _)];
    intros [=]; subst; auto.
Qed.

(** ** Orchestrators: login *)

Section LoginProperties.

Variable bcrypt_CompareHashAndPassword : list byte -> list byte -> option error.
Variable userJWT : userService.JWTService.
Variable authJWT : authService.JWTService.
Variable cfg : config.Config.
Variable now_issue : Time.
Variable uuid_New : string.
Variable ErrAccountNotVerified : error.
Variable ErrPasswordNotMatch : error.
Variable f : repository.Faults.

#[local] Abbreviation Verify :=
  (userService.Verify bcrypt_CompareHashAndPassword userJWT f).
#[local] Abbreviation Login :=
  (authService.Login bcrypt_CompareHashAndPassword authJWT cfg now_issue uuid_New
     ErrAccountNotVerified ErrPasswordNotMatch f).
#[local] Abbreviation CheckPassword :=
  (helpers.CheckPassword bcrypt_CompareHashAndPassword).

Lemma CheckPassword_cases hash password :
  (exists e, CheckPassword hash password = (false, Some e))
  \/ CheckPassword hash password = (true, None).
Proof.
  unfold helpers.CheckPassword.
  destruct (bcrypt_CompareHashAndPassword _ _); eauto.
Qed.

Lemma CheckEmail_GetUserByEmail fault db email :
  repository.CheckEmail fault db email
  = match repository.GetUserByEmail fault db email with
    | (_, Some err) => (entity.User_zero, false, Some err)
    | (user, None) => (user, true, None)
    end.
Proof. reflexivity. Qed.

(** C1, as amended.  [userService.Verify] answers an unknown email (any
    failure of the lookup) and a password that does not match with the
    same result: the zero response, the error "invalid email or
    password", the store untouched.  [authService.Login] answers the
    failed lookup with [dto.ErrEmailNotFound] ("email not found"), an
    unverified account with [dto.ErrAccountNotVerified], whatever the
    password, and a password that does not match the one of a verified
    account with [dto.ErrPasswordNotMatch]. *)
Theorem login_failure_errors (db : repository.DB) (req : dto.UserLoginRequest) :
  (forall u e,
      repository.GetUserByEmail (repository.on_GetUser f) db (dto.Email req) = (u, Some e) ->
      Verify db req
      = ((dto.TokenResponse_zero, Some (errors_New "invalid email or password")), db)
      /\ Login db req = ((dto_auth.TokenResponse_zero, Some dto.ErrEmailNotFound), db))
  /\ (forall user e,
        repository.GetUserByEmail (repository.on_GetUser f) db (dto.Email req) = (user, None) ->
        CheckPassword (entity.Password user) (list_byte_of_string (dto.Password req))
        = (false, Some e) ->
        Verify db req
        = ((dto.TokenResponse_zero, Some (errors_New "invalid email or password")), db))
  /\ (forall user,
        repository.GetUserByEmail (repository.on_GetUser f) db (dto.Email req) = (user, None) ->
        entity.IsVerified user = false ->
        Login db req = ((dto_auth.TokenResponse_zero, Some ErrAccountNotVerified), db))
  /\ (forall user e,
        repository.GetUserByEmail (repository.on_GetUser f) db (dto.Email req) = (user, None) ->
        entity.IsVerified user = true ->
        CheckPassword (entity.Password user) (list_byte_of_string (dto.Password req))
        = (false, Some e) ->
        Login db req = ((dto_auth.TokenResponse_zero, Some ErrPasswordNotMatch), db))
  /\ dto.ErrEmailNotFound = errors_New "email not found".
Proof.
  repeat apply conj; [| | | |reflexivity].
  - intros u e Hget.
    unfold userService.Verify, authService.Login, repository.Begin, repository.Rollback.
    rewrite CheckEmail_GetUserByEmail, Hget. split; reflexivity.
  - intros user e Hget Hpw.
    unfold userService.Verify, repository.Begin, repository.Rollback.
    rewrite Hget, Hpw. reflexivity.
  - intros user Hget Hver.
    unfold authService.Login.
    rewrite CheckEmail_GetUserByEmail, Hget, Hver. reflexivity.
  - intros user e Hget Hver Hpw.
    unfold authService.Login.
    rewrite CheckEmail_GetUserByEmail, Hget, Hver, Hpw. reflexivity.
Qed.

(** C4, as amended.  [userService.Verify] deletes and inserts in one
    transaction: whenever it returns an error (from the lookup, the
    password check, the delete, the insert or the commit) the committed
    data are those before the call, and on success the user's former
    refresh tokens are replaced by the issued one; issuing the tokens
    cannot fail there.  [authService.Login] runs on no transaction: a
    failed issue of the access token leaves the data untouched, but when
    the insert fails the delete that preceded it stays. *)
Theorem login_store_effects (db : repository.DB) (req : dto.UserLoginRequest) :
  (forall resp e db', Verify db req = ((resp, Some e), db') -> db' = db)
  /\ (forall resp db', Verify db req = ((resp, None), db') ->
        exists user,
          repository.GetUserByEmail (repository.on_GetUser f) db (dto.Email req) = (user, None)
          /\ repository.users db' = repository.users db
          /\ repository.refresh_tokens db'
             = (List.filter (fun r => negb (String.eqb (entity.UserID r) (entity.ID user)))
                  (repository.refresh_tokens db)
                ++ [{| entity.UserID := entity.ID user;
                       entity.Token := fst (userService.GenerateRefreshToken userJWT);
                       entity.ExpiresAt := snd (userService.GenerateRefreshToken userJWT) |}])%list
          /\ dto.RefreshToken resp = fst (userService.GenerateRefreshToken userJWT))
  /\ (forall user a x e,
        repository.GetUserByEmail (repository.on_GetUser f) db (dto.Email req) = (user, None) ->
        entity.IsVerified user = true ->
        CheckPassword (entity.Password user) (list_byte_of_string (dto.Password req))
        = (true, None) ->
        authService.GenerateAccessToken authJWT (entity.ID user) (entity.Role user)
        = (a, x, Some e) ->
        Login db req = ((dto_auth.TokenResponse_zero, Some e), db))
  /\ (forall user a x out e db1,
        repository.GetUserByEmail (repository.on_GetUser f) db (dto.Email req) = (user, None) ->
        entity.IsVerified user = true ->
        CheckPassword (entity.Password user) (list_byte_of_string (dto.Password req))
        = (true, None) ->
        authService.GenerateAccessToken authJWT (entity.ID user) (entity.Role user)
        = (a, x, None) ->
        db1 = snd (repository.DeleteRefreshTokensByUserID (repository.on_Delete f) db
                     (entity.ID user)) ->
        repository.CreateRefreshToken (repository.on_Create f) db1
          {| entity.UserID := entity.ID user; entity.Token := uuid_New;
             entity.ExpiresAt := authService.refreshTokenExpiry cfg now_issue |}
        = ((out, Some e), db1) ->
        Login db req = ((dto_auth.TokenResponse_zero, Some e), db1)).
Proof.
  repeat apply conj.
  - intros resp e db'.
    unfold userService.Verify, repository.Begin, repository.Rollback, repository.Commit.
    repeat (case_match; try discriminate); intros; simplify_eq; reflexivity.
  - intros resp db'.
    unfold userService.Verify, repository.Begin, repository.Rollback, repository.Commit.
    destruct (repository.GetUserByEmail _ db _) as [user [e|]] eqn:Hget; [discriminate|].
    destruct (CheckPassword _ _) as [ok err].
    destruct (bool_decide (is_Some err) || negb ok); [discriminate|].
    destruct (userService.GenerateRefreshToken userJWT) as [tok exp].
    unfold repository.DeleteByUserID. rewrite delete_tokens_spec.
    destruct (repository.on_Delete f); [discriminate|].
    match goal with |- context [repository.Create ?a ?b ?c] =>
      destruct (Create_spec a b c) as [_ Hok];
      destruct (repository.Create a b c) as [[out [e|]] tx] eqn:Hc; [discriminate|];
      destruct (Hok _ _ eq_refl) as [_ ->]
    end.
    destruct (repository.on_Commit f); [discriminate|].
    intros [= <- <-]. exists user. cbn. auto.
  - intros user a x e Hget Hver Hpw Hgen.
    unfold authService.Login.
    rewrite CheckEmail_GetUserByEmail, Hget, Hver, Hpw, Hgen. reflexivity.
  - intros user a x out e db1 Hget Hver Hpw Hgen -> Hcreate.
    unfold authService.Login.
    rewrite CheckEmail_GetUserByEmail, Hget, Hver, Hpw, Hgen. cbn.
    destruct (repository.DeleteRefreshTokensByUserID _ db _) as [de db1] eqn:Hdel.
    cbn in Hcreate. rewrite Hcreate. reflexivity.
Qed.

End LoginProperties.

(** C1: [authService.Login] answers an unknown email with "email not
    found" and not with the generic text, even when the two errors whose
    declarations are missing are given the generic text. *)
Lemma Login_distinguishes_failures :
  authService.Login mock.CompareHashAndPassword mock.authJWT (mock.cfg true) 0 "new-uuid"
    (errors_New "invalid email or password") (errors_New "invalid email or password")
    repository.no_faults mock.db_one (mock.login "nobody@example.com" "password123")
  = ((dto_auth.TokenResponse_zero, Some (errors_New "email not found")), mock.db_one)
  /\ authService.Login mock.CompareHashAndPassword mock.authJWT (mock.cfg true) 0 "new-uuid"
       (errors_New "invalid email or password") (errors_New "invalid email or password")
       repository.no_faults mock.db_one (mock.login "alice@example.com" "wrong-password")
     = ((dto_auth.TokenResponse_zero, Some (errors_New "invalid email or password")),
        mock.db_one)
  /\ String.eqb "email not found" "invalid email or password" = false.
Proof. repeat split. Qed.

(** A run of C1: [userService.Verify] on an unknown email and on a wrong
    password, and [authService.Login] of Bob, who is not verified, with
    his password. *)
Lemma login_failure_errors_witness :
  userService.Verify mock.CompareHashAndPassword mock.userJWT repository.no_faults
    mock.db_pair (mock.login "nobody@example.com" "password123")
  = ((dto.TokenResponse_zero, Some (errors_New "invalid email or password")), mock.db_pair)
  /\ userService.Verify mock.CompareHashAndPassword mock.userJWT repository.no_faults
       mock.db_pair (mock.login "alice@example.com" "wrong-password")
     = ((dto.TokenResponse_zero, Some (errors_New "invalid email or password")), mock.db_pair)
  /\ authService.Login mock.CompareHashAndPassword mock.authJWT (mock.cfg true) 0 "new-uuid"
       (errors_New "account not verified") (errors_New "password not match")
       repository.no_faults mock.db_pair (mock.login "bob@example.com" "password123")
     = ((dto_auth.TokenResponse_zero, Some (errors_New "account not verified")), mock.db_pair).
Proof.
  split; [|split].
  - edestruct (proj1 (login_failure_errors mock.CompareHashAndPassword mock.userJWT
                        mock.authJWT (mock.cfg true) 0 "new-uuid" "e1" "e2"
                        repository.no_faults mock.db_pair
                        (mock.login "nobody@example.com" "password123"))) as [H _];
      [reflexivity | exact H].
  - eapply (proj1 (proj2 (login_failure_errors mock.CompareHashAndPassword mock.userJWT
                        mock.authJWT (mock.cfg true) 0 "new-uuid" "e1" "e2"
                        repository.no_faults mock.db_pair
                        (mock.login "alice@example.com" "wrong-password"))));
      reflexivity.
  - eapply (proj1 (proj2 (proj2 (login_failure_errors mock.CompareHashAndPassword
                        mock.userJWT mock.authJWT (mock.cfg true) 0 "new-uuid"
                        (errors_New "account not verified") (errors_New "password not match")
                        repository.no_faults mock.db_pair
                        (mock.login "bob@example.com" "password123")))));
      reflexivity.
Defined.

(** C4: when the insert of [authService.Login] fails, the refresh token
    that was stored before the call is gone and none has replaced it. *)
Lemma Login_partial_state :
  authService.Login mock.CompareHashAndPassword mock.authJWT (mock.cfg true) 0 "new-uuid"
    (errors_New "account not verified") (errors_New "password not match")
    mock.create_fails mock.db_one (mock.login "alice@example.com" "password123")
  = ((dto_auth.TokenResponse_zero, Some (errors_New "connection reset")),
     {| repository.users := [mock.alice]; repository.refresh_tokens := [] |})
  /\ repository.refresh_tokens mock.db_one = [mock.token_of "u1" "t1" 1000].
Proof. repeat split. Qed.

(** A run of C4: the same failure inside [userService.Verify] leaves the
    stored token in place. *)
Lemma login_store_effects_witness :
  userService.Verify mock.CompareHashAndPassword mock.userJWT mock.create_fails
    mock.db_one (mock.login "alice@example.com" "password123")
  = ((dto.TokenResponse_zero, Some (errors_New "connection reset")), mock.db_one).
Proof.
  pose proof (proj1 (login_store_effects mock.CompareHashAndPassword mock.userJWT
                       mock.authJWT (mock.cfg true) 0 "new-uuid" "e1" "e2"
                       mock.create_fails mock.db_one
                       (mock.login "alice@example.com" "password123"))) as H.
  destruct (userService.Verify mock.CompareHashAndPassword mock.userJWT mock.create_fails
              mock.db_one (mock.login "alice@example.com" "password123"))
    as [[resp err] db'] eqn:Hrun.
  assert (Hshape : resp = dto.TokenResponse_zero
                   /\ err = Some (errors_New "connection reset"))
    by (vm_compute in Hrun; injection Hrun as <- <- _; split; reflexivity).
  destruct Hshape as [-> ->].
  rewrite (H _ _ _ eq_refl). reflexivity.
Defined.

(** ** Orchestrators: refresh *)

Section RefreshProperties.

Variable userJWT : userService.JWTService.
Variable authJWT : authService.JWTService.
Variable cfg : config.Config.
Variable now : Time.
Variable now_issue : Time.
Variable uuid_New : string.
Variable f : repository.Faults.

#[local] Abbreviation userRefresh := (userService.RefreshToken userJWT now f).
#[local] Abbreviation authRefresh :=
  (authService.RefreshToken authJWT cfg now now_issue uuid_New f).

(** C3, as amended.  For a stored refresh token whose expiry is past,
    [authService.RefreshToken] issues the delete of its row and returns
    [ErrExpiredRefreshToken]; the row is gone unless the delete statement
    itself failed, whose error is discarded.  [userService.RefreshToken]
    rolls back and returns the error "Refresh token has expired": the
    expired row remains stored. *)
Theorem RefreshToken_expired (db : repository.DB) (req : dto.RefreshTokenRequest)
  (stored : entity.RefreshToken) :
  repository.FindByToken (repository.on_FindToken f) db (dto.RefreshToken_ req)
  = (stored, None) ->
  Time_After now (entity.ExpiresAt stored) = true ->
  authRefresh db req
  = ((dto_auth.TokenResponse_zero, Some dto_auth.ErrExpiredRefreshToken),
     snd (repository.DeleteRefreshToken (repository.on_Delete f) db (dto.RefreshToken_ req)))
  /\ (repository.on_Delete f = None ->
      repository.findable (dto.RefreshToken_ req) (snd (authRefresh db req)) = false)
  /\ userRefresh db req
     = ((dto.TokenResponse_zero,
         Some (errors_New dto.MESSAGE_FAILED_EXPIRED_REFRESH_TOKEN)), db)
  /\ repository.findable (dto.RefreshToken_ req) (snd (userRefresh db req)) = true.
Proof.
  intros Hfind Hexp.
  assert (Hauth : authRefresh db req
                  = ((dto_auth.TokenResponse_zero, Some dto_auth.ErrExpiredRefreshToken),
                     snd (repository.DeleteRefreshToken (repository.on_Delete f) db
                            (dto.RefreshToken_ req)))).
  { unfold authService.RefreshToken, repository.GetRefreshToken.
    rewrite Hfind, Hexp.
    destruct (repository.DeleteRefreshToken _ db _); reflexivity. }
  assert (Huser : userRefresh db req
                  = ((dto.TokenResponse_zero,
                      Some (errors_New dto.MESSAGE_FAILED_EXPIRED_REFRESH_TOKEN)), db)).
  { unfold userService.RefreshToken, repository.Begin, repository.Rollback.
    rewrite Hfind, Hexp. reflexivity. }
  repeat apply conj.
  - exact Hauth.
  - intros Hdel. rewrite Hauth, Hdel. cbn [snd].
    apply DeleteByToken_not_findable.
  - exact Huser.
  - rewrite Huser. cbn [snd].
    apply FindByToken_found in Hfind. tauto.
Qed.

(** C2, as amended.  For a stored refresh token that has not expired:
    with the rotation flag off, [authService.RefreshToken] never changes
    the stored data and, when it succeeds, pairs the new access token
    with the same refresh token; with the flag on, a call that succeeds
    and whose delete statement did not fail has removed the rows of that
    token, and no other row, and appended one row for the new token.
    [userService.RefreshToken] reads no flag: a call that succeeds has
    removed every refresh token of the owning user and appended one row
    for the new token. *)
Theorem RefreshToken_rotation (db : repository.DB) (req : dto.RefreshTokenRequest)
  (stored : entity.RefreshToken) :
  repository.FindByToken (repository.on_FindToken f) db (dto.RefreshToken_ req)
  = (stored, None) ->
  Time_After now (entity.ExpiresAt stored) = false ->
  (config.RotateRefreshToken (config.JWT cfg) = false ->
     snd (authRefresh db req) = db
     /\ forall resp db', authRefresh db req = ((resp, None), db') ->
          dto_auth.RefreshToken resp = dto.RefreshToken_ req)
  /\ (config.RotateRefreshToken (config.JWT cfg) = true ->
      repository.on_Delete f = None ->
      forall resp db', authRefresh db req = ((resp, None), db') ->
        repository.users db' = repository.users db
        /\ repository.refresh_tokens db'
           = (List.filter
                (fun r => negb (String.eqb (entity.Token r) (dto.RefreshToken_ req)))
                (repository.refresh_tokens db)
              ++ [{| entity.UserID := entity.UserID stored;
                     entity.Token := uuid_New;
                     entity.ExpiresAt := authService.refreshTokenExpiry cfg now_issue |}])%list
        /\ dto_auth.RefreshToken resp = uuid_New
        /\ repository.findable uuid_New db' = true
        /\ (String.eqb uuid_New (dto.RefreshToken_ req) = false ->
            repository.findable (dto.RefreshToken_ req) db' = false))
  /\ (forall resp db', userRefresh db req = ((resp, None), db') ->
        repository.users db' = repository.users db
        /\ repository.refresh_tokens db'
           = (List.filter
                (fun r => negb (String.eqb (entity.UserID r) (entity.UserID stored)))
                (repository.refresh_tokens db)
              ++ [{| entity.UserID := entity.UserID stored;
                     entity.Token := fst (userService.GenerateRefreshToken userJWT);
                     entity.ExpiresAt := snd (userService.GenerateRefreshToken userJWT) |}])%list
        /\ dto.RefreshToken resp = fst (userService.GenerateRefreshToken userJWT)).
Proof.
  intros Hfind Hexp. repeat apply conj.
  - intros Hrot. unfold authService.RefreshToken, repository.GetRefreshToken.
    rewrite Hfind, Hexp, Hrot.
    destruct (repository.GetUserById _ db _) as [user [e|]]; [split; [reflexivity|discriminate]|].
    destruct (authService.GenerateAccessToken authJWT _ _) as [[a x] [e|]];
      (split; [reflexivity|]); [discriminate|].
    intros resp db' [= <- <-]. reflexivity.
  - intros Hrot Hdel resp db'.
    unfold authService.RefreshToken, repository.GetRefreshToken.
    rewrite Hfind, Hexp, Hrot.
    destruct (repository.GetUserById _ db _) as [user [e|]] eqn:Huser; [discriminate|].
    apply GetUserById_found in Huser.
    destruct (authService.GenerateAccessToken authJWT _ _) as [[a x] [e|]]; [discriminate|].
    unfold repository.DeleteRefreshToken, repository.DeleteByToken,
      repository.CreateRefreshToken.
    rewrite delete_tokens_spec, Hdel.
    match goal with |- context [repository.Create ?a ?b ?c] =>
      destruct (Create_spec a b c) as [_ Hok];
      destruct (repository.Create a b c) as [[out [e|]] db1] eqn:Hc; [discriminate|];
      destruct (Hok _ _ eq_refl) as [_ ->]
    end.
    intros [= <- <-]. cbn. rewrite Huser.
    repeat apply conj; try reflexivity.
    + unfold repository.findable, repository.has_token. cbn.
      rewrite has_token_app. cbn. rewrite String.eqb_refl. apply orb_true_r.
    + intros Hne. unfold repository.findable, repository.has_token. cbn.
      rewrite has_token_app, has_token_filter_out. cbn. exact Hne.
  - intros resp db'.
    unfold userService.RefreshToken, repository.Begin, repository.Rollback, repository.Commit.
    rewrite Hfind, Hexp.
    destruct (repository.GetUserById _ db _) as [user [e|]] eqn:Huser; [discriminate|].
    apply GetUserById_found in Huser.
    destruct (userService.GenerateRefreshToken userJWT) as [tok exp].
    unfold repository.DeleteByUserID. rewrite delete_tokens_spec.
    destruct (repository.on_Delete f); [discriminate|].
    match goal with |- context [repository.Create ?a ?b ?c] =>
      destruct (Create_spec a b c) as [_ Hok];
      destruct (repository.Create a b c) as [[out [e|]] tx] eqn:Hc; [discriminate|];
      destruct (Hok _ _ eq_refl) as [_ ->]
    end.
    destruct (repository.on_Commit f); [discriminate|].
    intros [= <- <-]. cbn. rewrite Huser. auto.
Qed.

End RefreshProperties.

(** C3: [userService.RefreshToken] keeps the expired row. *)
Lemma userService_RefreshToken_keeps_expired :
  userService.RefreshToken mock.userJWT 5000 repository.no_faults mock.db_one
    (mock.refresh "t1")
  = ((dto.TokenResponse_zero, Some (errors_New "Refresh token has expired")), mock.db_one)
  /\ repository.findable "t1" mock.db_one = true
  /\ Time_After 5000 (entity.ExpiresAt (mock.token_of "u1" "t1" 1000)) = true.
Proof. repeat split. Qed.

(** A run of C3 on the same data with both orchestrators. *)
Lemma RefreshToken_expired_witness :
  authService.RefreshToken mock.authJWT (mock.cfg true) 5000 5000 "new-uuid"
    repository.no_faults mock.db_one (mock.refresh "t1")
  = ((dto_auth.TokenResponse_zero, Some (errors_New "refresh token has expired")),
     {| repository.users := [mock.alice]; repository.refresh_tokens := [] |}).
Proof.
  exact (proj1 (RefreshToken_expired mock.userJWT mock.authJWT (mock.cfg true) 5000 5000
                  "new-uuid" repository.no_faults mock.db_one (mock.refresh "t1")
                  (mock.token_of "u1" "t1" 1000) eq_refl eq_refl)).
Defined.

(** C2: [userService.RefreshToken], given "t1", also deletes the other
    refresh token "t2" of the same user; no configuration enters. *)
Lemma userService_RefreshToken_deletes_all :
  userService.RefreshToken mock.userJWT 500 repository.no_faults mock.db_two
    (mock.refresh "t1")
  = (({| dto.AccessToken := "access-u1"; dto.RefreshToken := "fresh-token";
         dto.Role := "user" |}, None),
     {| repository.users := [mock.alice];
        repository.refresh_tokens := [mock.token_of "u1" "fresh-token" 2000] |})
  /\ repository.findable "t2" mock.db_two = true.
Proof. repeat split. Qed.

(** A run of C2: [authService.RefreshToken] with rotation on replaces
    "t1" and keeps "t2". *)
Lemma RefreshToken_rotation_witness :
  repository.refresh_tokens
    (snd (authService.RefreshToken mock.authJWT (mock.cfg true) 500 500 "new-uuid"
            repository.no_faults mock.db_two (mock.refresh "t1")))
  = [mock.token_of "u1" "t2" 1000; mock.token_of "u1" "new-uuid" 604800000000500].
Proof.
  pose proof (RefreshToken_rotation mock.userJWT mock.authJWT (mock.cfg true) 500 500
                "new-uuid" repository.no_faults mock.db_two (mock.refresh "t1")
                (mock.token_of "u1" "t1" 1000) eq_refl eq_refl) as (_ & H & _).
  destruct (authService.RefreshToken mock.authJWT (mock.cfg true) 500 500 "new-uuid"
              repository.no_faults mock.db_two (mock.refresh "t1"))
    as [[resp err] db'] eqn:Hrun.
  assert (Herr : err = None) by (vm_compute in Hrun; injection Hrun as _ <- _; reflexivity).
  subst err.
  destruct (H eq_refl eq_refl resp db' eq_refl) as (_ & Hrows & _).
  cbn [snd]. rewrite Hrows. reflexivity.
Defined.

(** ** Email verification *)

Lemma Split_nonempty s sep : strings.Split s sep <> [].
Proof.
  destruct s as [|c s]; cbn; [discriminate|].
  destruct (Ascii.eqb c sep); [discriminate|].
  destruct (strings.Split s sep); discriminate.
Qed.

Lemma append_nil (s : string) : "" ++ s = s.
Proof. reflexivity. Qed.

Lemma append_cons (c : ascii) (a b : string) : String c a ++ b = String c (a ++ b).
Proof. reflexivity. Qed.

(** Splitting distributes over a separator between two strings. *)
Lemma Split_app_sep a b sep :
  strings.Split (a ++ String sep b) sep
  = (strings.Split a sep ++ strings.Split b sep)%list.
Proof.
  induction a as [|c a IH];
    rewrite ?append_nil, ?append_cons; cbn [strings.Split].
  - rewrite Ascii.eqb_refl. reflexivity.
  - destruct (Ascii.eqb c sep); [rewrite IH; reflexivity|].
    rewrite IH. pose proof (Split_nonempty a sep) as Hne.
    destruct (strings.Split a sep); [contradiction|reflexivity].
Qed.

Lemma Contains_app_sep a b sep : strings.Contains (a ++ String sep b) sep = true.
Proof.
  induction a as [|c a IH];
    rewrite ?append_nil, ?append_cons; cbn [strings.Contains].
  - rewrite Ascii.eqb_refl. reflexivity.
  - rewrite IH. apply orb_true_r.
Qed.

(** A string that contains the separator splits into two pieces at least. *)
Lemma Split_Contains s sep :
  strings.Contains s sep = true ->
  exists p0 p1 rest, strings.Split s sep = p0 :: p1 :: rest.
Proof.
  induction s as [|c s IH]; cbn [strings.Contains strings.Split]; [discriminate|].
  destruct (Ascii.eqb c sep); cbn [orb].
  - intros _. pose proof (Split_nonempty s sep).
    destruct (strings.Split s sep) as [|p1 rest]; [contradiction|]. eauto.
  - intros H. destruct (IH H) as (p0 & p1 & rest & ->). eauto.
Qed.

(** A character absent from a string is absent from its pieces. *)
Lemma Split_pieces_Contains s sep c piece :
  strings.Contains s c = false ->
  In piece (strings.Split s sep) -> strings.Contains piece c = false.
Proof.
  revert piece. induction s as [|a s IH]; intros piece; cbn [strings.Contains strings.Split].
  - intros _ [<-|[]]. reflexivity.
  - intros H. apply orb_false_iff in H as [Ha Hs].
    destruct (Ascii.eqb a sep).
    + intros [<-|Hin]; [reflexivity|]. apply IH; assumption.
    + pose proof (Split_nonempty s sep).
      destruct (strings.Split s sep) as [|p ps] eqn:Hsp; [contradiction|].
      intros [<-|Hin].
      * cbn [strings.Contains]. rewrite Ha. cbn [orb]. apply IH; [assumption|left; reflexivity].
      * apply IH; [assumption|right; assumption].
Qed.

Lemma getyear_rest s y rest c :
  time.getyear s = Some (y, rest) ->
  strings.Contains rest c = true -> strings.Contains s c = true.
Proof.
  unfold time.getyear.
  destruct s as [|c0 [|c1 [|c2 [|c3 r]]]]; try discriminate.
  repeat (case_match; try discriminate). intros [= _ <-] Hrest.
  cbn [strings.Contains]. rewrite Hrest. repeat rewrite orb_true_r. reflexivity.
Qed.

Lemma getnum_rest s fixed n rest c :
  time.getnum s fixed = Some (n, rest) ->
  strings.Contains rest c = true -> strings.Contains s c = true.
Proof.
  unfold time.getnum.
  destruct s as [|c0 r]; [discriminate|].
  destruct (time.digit_val c0); [|discriminate].
  destruct r as [|c1 r'].
  - destruct fixed; [discriminate|]. intros [= _ <-]. discriminate.
  - destruct (time.digit_val c1).
    + intros [= _ <-] H. cbn [strings.Contains]. rewrite H.
      repeat rewrite orb_true_r. reflexivity.
    + destruct fixed; [discriminate|]. intros [= _ <-] H.
      cbn [strings.Contains] in *. rewrite H. apply orb_true_r.
Qed.

Lemma cutspace_rest s c :
  strings.Contains (time.cutspace s) c = true -> strings.Contains s c = true.
Proof.
  induction s as [|a s IH]; cbn [time.cutspace]; [auto|].
  destruct (Ascii.eqb a " "); [|auto].
  intros H. cbn [strings.Contains]. rewrite (IH H). apply orb_true_r.
Qed.

Lemma skip_rest s prefix rest c :
  time.skip s prefix = Some rest ->
  strings.Contains rest c = true -> strings.Contains s c = true.
Proof.
  unfold time.skip. destruct (Ascii.eqb prefix " ").
  - destruct s as [|a s]; [intros [= <-]; auto|].
    destruct (Ascii.eqb a " "); [|discriminate].
    intros [= <-]. exact (cutspace_rest (String a s) c).
  - destruct s as [|a s]; [discriminate|].
    destruct (Ascii.eqb a prefix); [|discriminate].
    intros [= <-] H. cbn [strings.Contains]. rewrite H. apply orb_true_r.
Qed.

(** The space of the layout must be met by a space of the value. *)
Lemma skip_space_getnum s rest n rest' :
  time.skip s " " = Some rest ->
  time.getnum rest false = Some (n, rest') ->
  strings.Contains s " " = true.
Proof.
  unfold time.skip. cbn [Ascii.eqb Bool.eqb].
  destruct s as [|a s]; [intros [= <-]; discriminate|].
  destruct (Ascii.eqb a " ") eqn:Ha; [|discriminate].
  intros _ _. cbn [strings.Contains]. rewrite Ha. reflexivity.
Qed.

(** Without a space, a value is not in the layout. *)
Lemma Parse_needs_space (value : string) :
  strings.Contains value " " = false ->
  time.Parse value = (0, Some time.errBad).
Proof.
  intros Hno. unfold time.Parse.
  destruct (time.parse_fields value) as [fields|] eqn:Hp; [|reflexivity].
  exfalso. unfold time.parse_fields in Hp.
  destruct (time.getyear value) as [[year v1]|] eqn:H1;
    cbn [mbind option_bind] in Hp; [|discriminate].
  destruct (time.skip v1 "-") as [v2|] eqn:H2;
    cbn [mbind option_bind] in Hp; [|discriminate].
  destruct (time.getnum v2 true) as [[month v3]|] eqn:H3;
    cbn [mbind option_bind] in Hp; [|discriminate].
  destruct (time.skip v3 "-") as [v4|] eqn:H4;
    cbn [mbind option_bind] in Hp; [|discriminate].
  destruct (time.getnum v4 true) as [[day v5]|] eqn:H5;
    cbn [mbind option_bind] in Hp; [|discriminate].
  destruct (time.skip v5 " ") as [v6|] eqn:H6;
    cbn [mbind option_bind] in Hp; [|discriminate].
  destruct (time.getnum v6 false) as [[hour v7]|] eqn:H7;
    cbn [mbind option_bind] in Hp; [|discriminate].
  pose proof (skip_space_getnum _ _ _ _ H6 H7) as Hsp.
  apply (getnum_rest _ _ _ _ _ H5) in Hsp.
  apply (skip_rest _ _ _ _ H4) in Hsp.
  apply (getnum_rest _ _ _ _ _ H3) in Hsp.
  apply (skip_rest _ _ _ _ H2) in Hsp.
  apply (getyear_rest _ _ _ _ H1) in Hsp.
  congruence.
Qed.

Section VerifyEmailProperties.

Variable gcm_Seal : list byte -> list byte -> list byte -> list byte.
Variable gcm_Open : list byte -> list byte -> list byte -> outcome (option (list byte)).
Hypothesis Open_Seal : forall key nonce plaintext,
  length nonce = utils.NonceSize ->
  gcm_Open key nonce (gcm_Seal key nonce plaintext) = Return (Some plaintext).

(** The clock when the mail is made and when the link is followed. *)
Variable now : Time.
Variable now_verify : Time.
Variable Local : Z.
Variable random : list byte.
Variable f : repository.Faults.

(** C10, as amended.  For an email that contains an underscore,
    [VerifyEmail] reads as expiry the piece of the email after its first
    underscore.  The token that [makeVerificationEmail] made for the
    email is rejected with [ErrTokenInvalid], whatever the embedded
    expiry, whenever that piece is not itself a time in the layout; it is
    none when the email holds no space. *)
Theorem VerifyEmail_underscore_email (db : repository.DB) (email token : string) :
  userService.verification_token gcm_Seal now Local random email = (token, None) ->
  strings.Contains email "_" = true ->
  exists email0 fragment rest,
    strings.Split email "_" = email0 :: fragment :: rest
    /\ (forall t e, time.Parse fragment = (t, Some e) ->
          userService.VerifyEmail gcm_Open now_verify f db {| dto.Token := token |}
          = Return ((dto.VerifyEmailResponse_zero, Some dto.ErrTokenInvalid), db))
    /\ (strings.Contains email " " = false ->
          userService.VerifyEmail gcm_Open now_verify f db {| dto.Token := token |}
          = Return ((dto.VerifyEmailResponse_zero, Some dto.ErrTokenInvalid), db)).
Proof.
  intros Htoken Hunder.
  destruct (Split_Contains _ _ Hunder) as (email0 & fragment & rest & Hsplit).
  exists email0, fragment, rest. split; [exact Hsplit|].
  assert (Hparse : forall t e, time.Parse fragment = (t, Some e) ->
            userService.VerifyEmail gcm_Open now_verify f db {| dto.Token := token |}
            = Return ((dto.VerifyEmailResponse_zero, Some dto.ErrTokenInvalid), db)).
  { intros t e Hfail.
    unfold userService.verification_token, userService.verification_plainText in Htoken.
    apply (decrypt_after_encrypt gcm_Seal gcm_Open Open_Seal) in Htoken.
    unfold userService.VerifyEmail. cbn [dto.Token]. rewrite Htoken.
    cbn [bind_outcome].
    change ("_" ++ time.Format Local (Time_Add now (Hour * 24)))
      with (String "_" (time.Format Local (Time_Add now (Hour * 24)))).
    rewrite Contains_app_sep, Split_app_sep, Hsplit.
    cbn. rewrite Hfail. reflexivity. }
  split; [exact Hparse|].
  intros Hspace.
  assert (Hfrag : strings.Contains fragment " " = false).
  { apply (Split_pieces_Contains email "_" " " fragment Hspace).
    rewrite Hsplit. right. left. reflexivity. }
  apply (Hparse 0 time.errBad). apply Parse_needs_space. exact Hfrag.
Qed.

End VerifyEmailProperties.

(** C10: the token made for an address whose piece after the first
    underscore is a time is not answered [ErrTokenInvalid]: the piece is
    taken for the expiry and the user is looked up under the piece before
    the underscore. *)
Lemma VerifyEmail_quoted_email :
  exists token,
    userService.verification_token mock.Seal mock.now_2026 0 mock.nonce_bytes
      mock.quoted_email = (token, None)
    /\ userService.VerifyEmail mock.Open mock.now_2026 repository.no_faults
         mock.db_unverified (mock.verify token)
       = Return ((dto.VerifyEmailResponse_zero, Some dto.ErrUserNotFound),
                 mock.db_unverified)
    /\ strings.Contains mock.quoted_email "_" = true
    /\ String.eqb dto.ErrUserNotFound dto.ErrTokenInvalid = false.
Proof.
  eexists. split; [vm_compute; reflexivity|].
  split; [vm_compute; reflexivity|]. split; reflexivity.
Qed.

(** A run of C10 on the address john_doe@example.com. *)
Lemma VerifyEmail_underscore_email_witness :
  exists token,
    userService.verification_token mock.Seal mock.now_2026 0 mock.nonce_bytes
      "john_doe@example.com" = (token, None)
    /\ userService.VerifyEmail mock.Open mock.now_2026 repository.no_faults
         mock.db_unverified (mock.verify token)
       = Return ((dto.VerifyEmailResponse_zero, Some dto.ErrTokenInvalid),
                 mock.db_unverified).
Proof.
  destruct (userService.verification_token mock.Seal mock.now_2026 0 mock.nonce_bytes
              "john_doe@example.com") as [token err] eqn:Htoken.
  assert (Herr : err = None)
    by (vm_compute in Htoken; injection Htoken as _ <-; reflexivity).
  subst err. exists token. split; [reflexivity|].
  destruct (VerifyEmail_underscore_email mock.Seal mock.Open mock_Open_Seal
              mock.now_2026 mock.now_2026 0 mock.nonce_bytes repository.no_faults
              mock.db_unverified "john_doe@example.com" token Htoken eq_refl)
    as (email0 & fragment & rest & _ & _ & H).
  exact (H eq_refl).
Defined.

(* ===================================================================== *)
(** * Further properties of the store                                     *)
(* ===================================================================== *)

Lemma find_app_new {A} (p : A -> bool) (l : list A) (x : A) :
  List.find p (l ++ [x]) = match List.find p l with
                           | Some y => Some y
                           | None => if p x then Some x else None
                           end.
Proof.
  induction l as [|a l IH]; cbn; [destruct (p x); reflexivity|].
  destruct (p a); [reflexivity|exact IH].
Qed.

Lemma find_existsb_false {A} (p : A -> bool) (l : list A) :
  existsb p l = false -> List.find p l = None.
Proof.
  induction l as [|a l IH]; cbn; [reflexivity|].
  destruct (p a); cbn; [discriminate|exact IH].
Qed.

Lemma find_filter_other {A} (p q : A -> bool) (l : list A) :
  (forall x, p x = true -> q x = true) ->
  List.find p (List.filter q l) = List.find p l.
Proof.
  intros Hpq. induction l as [|a l IH]; cbn; [reflexivity|].
  destruct (q a) eqn:Hq; cbn.
  - destruct (p a); [reflexivity|exact IH].
  - destruct (p a) eqn:Hp; [rewrite (Hpq a Hp) in Hq; discriminate|exact IH].
Qed.

Lemma eqb_neq_false (a b : string) : a <> b -> String.eqb a b = false.
Proof. intros H. apply String.eqb_neq. exact H. Qed.

(** X1.  Insert and lookup.  After a [Create] that returned no error,
    whatever the driver was set to do, the token returned is the one
    given, a lookup of its text returns the created row and no older
    one, the lookup of every other text is what it was, and the users
    are untouched. *)
Theorem Create_then_FindByToken (fault : option error) (db db' : repository.DB)
  (token out : entity.RefreshToken) :
  repository.Create fault db token = ((out, None), db') ->
  out = token
  /\ repository.FindByToken None db' (entity.Token token) = (token, None)
  /\ (forall t, t <> entity.Token token ->
        repository.FindByToken None db' t = repository.FindByToken None db t)
  /\ repository.users db' = repository.users db.
Proof.
  unfold repository.Create.
  destruct fault as [e|]; [discriminate|].
  destruct (repository.has_token (entity.Token token) db) eqn:Hhas; [discriminate|].
  intros [= <- <-]. split; [reflexivity|].
  unfold repository.FindByToken. cbn [repository.refresh_tokens repository.users].
  repeat apply conj; [| |reflexivity].
  - rewrite find_app_new, (find_existsb_false _ _ Hhas), String.eqb_refl. reflexivity.
  - intros t Hne. rewrite find_app_new.
    rewrite (eqb_neq_false _ _ (not_eq_sym Hne)).
    destruct (List.find _ (repository.refresh_tokens db)); reflexivity.
Qed.

(** Delete and lookup.  After [DeleteByToken] the token is not found,
    the lookup of every other token is what it was, users are untouched;
    deleting a token that is not stored changes nothing and is no
    error. *)
Lemma DeleteByToken_then_FindByToken (db : repository.DB) (token : string) :
  fst (repository.DeleteByToken None db token) = None
  /\ repository.FindByToken None (snd (repository.DeleteByToken None db token)) token
     = (entity.RefreshToken_zero, Some repository.ErrRecordNotFound)
  /\ (forall t, t <> token ->
        repository.FindByToken None (snd (repository.DeleteByToken None db token)) t
        = repository.FindByToken None db t)
  /\ repository.users (snd (repository.DeleteByToken None db token)) = repository.users db
  /\ (repository.findable token db = false ->
      repository.refresh_tokens (snd (repository.DeleteByToken None db token))
      = repository.refresh_tokens db).
Proof.
  unfold repository.DeleteByToken, repository.delete_tokens, repository.FindByToken,
    repository.findable, repository.has_token.
  cbn [fst snd repository.refresh_tokens repository.users].
  repeat apply conj; try reflexivity.
  - rewrite (find_existsb_false _ _ (has_token_filter_out token _)). reflexivity.
  - intros t Hne. rewrite find_filter_other; [reflexivity|].
    intros x Hx. apply String.eqb_eq in Hx.
    rewrite Hx, (eqb_neq_false _ _ Hne). reflexivity.
  - intros Habs. induction (repository.refresh_tokens db) as [|r rows IH]; [reflexivity|].
    cbn [existsb List.filter] in *. apply orb_false_iff in Habs as [Hr Hrows].
    rewrite Hr. cbn [negb]. rewrite (IH Hrows). reflexivity.
Qed.

(** X2.  The sweep and the expiry test agree.  After [DeleteExpired] at an
    instant, a row is stored exactly when it was stored and the instant
    is not after its expiry, which is the test of both [RefreshToken]s:
    a row whose expiry is the instant itself stays, and is not expired. *)
Theorem DeleteExpired_keeps_unexpired (now : Time) (db : repository.DB)
  (r : entity.RefreshToken) :
  In r (repository.refresh_tokens (snd (repository.DeleteExpired now None db)))
  <-> In r (repository.refresh_tokens db) /\ Time_After now (entity.ExpiresAt r) = false.
Proof.
  unfold repository.DeleteExpired, repository.delete_tokens, Time_After.
  cbn [snd repository.refresh_tokens]. rewrite filter_In.
  destruct (entity.ExpiresAt r <? now); cbn [negb]; intuition congruence.
Qed.

(* ===================================================================== *)
(** * Further properties of the flows                                     *)
(* ===================================================================== *)

Lemma filter_negb_nil {A} (p : A -> bool) (l : list A) :
  List.filter p (List.filter (fun x => negb (p x)) l) = [].
Proof.
  induction l as [|a l IH]; [reflexivity|]. cbn [List.filter].
  destruct (p a) eqn:Hp; cbn [negb List.filter]; [exact IH|]. rewrite Hp. exact IH.
Qed.

Lemma filter_filter_other {A} (p q : A -> bool) (l : list A) :
  (forall x, p x = true -> q x = true) ->
  List.filter p (List.filter q l) = List.filter p l.
Proof.
  intros Hpq. induction l as [|a l IH]; [reflexivity|]. cbn [List.filter].
  destruct (q a) eqn:Hq; cbn [List.filter].
  - destruct (p a); [f_equal|]; exact IH.
  - destruct (p a) eqn:Hp; [rewrite (Hpq a Hp) in Hq; discriminate|exact IH].
Qed.

Lemma find_filter_negb {A} (p : A -> bool) (l : list A) :
  List.find p (List.filter (fun x => negb (p x)) l) = None.
Proof.
  induction l as [|a l IH]; [reflexivity|]. cbn [List.filter].
  destruct (p a) eqn:Hp; cbn [negb List.find]; [exact IH|]. rewrite Hp. exact IH.
Qed.

Lemma unique_tokens_inj db r r' :
  repository.unique_tokens db ->
  In r (repository.refresh_tokens db) -> In r' (repository.refresh_tokens db) ->
  entity.Token r = entity.Token r' -> r = r'.
Proof.
  unfold repository.unique_tokens.
  induction (repository.refresh_tokens db) as [|a l IH]; [intros _ []|].
  cbn [List.map]. intros Hnd Hr Hr' Heq. apply NoDup_cons in Hnd as [Hnotin Hnd].
  assert (Hmem : forall x, In x l -> entity.Token x <> entity.Token a).
  { intros x Hx Hxa. apply Hnotin. apply list_elem_of_In. rewrite <- Hxa.
    apply in_map. exact Hx. }
  destruct Hr as [<-|Hr], Hr' as [<-|Hr']; auto.
  - exfalso. exact (Hmem _ Hr' (eq_sym Heq)).
  - exfalso. exact (Hmem _ Hr Heq).
Qed.

(** Once the rows of a user are deleted, no token that one of those rows
    carried is found. *)
Lemma FindByToken_after_DeleteByUserID fault db userID r :
  repository.unique_tokens db ->
  In r (repository.refresh_tokens db) -> entity.UserID r = userID ->
  exists e,
    repository.FindByToken fault (snd (repository.DeleteByUserID None db userID))
      (entity.Token r)
    = (entity.RefreshToken_zero, Some e).
Proof.
  intros Hu Hin Hid. unfold repository.FindByToken.
  destruct fault as [e|]; [eauto|].
  destruct (List.find _ _) as [r'|] eqn:Hfind; [|eauto].
  exfalso. apply find_some in Hfind as [Hin' Htok].
  cbn in Hin'. apply filter_In in Hin' as [Hin' Hother].
  apply String.eqb_eq in Htok.
  rewrite (unique_tokens_inj db r' r Hu Hin' Hin Htok), Hid, String.eqb_refl in Hother.
  discriminate.
Qed.

Section SessionProperties.

Variable bcrypt_CompareHashAndPassword : list byte -> list byte -> option error.
Variable userJWT : userService.JWTService.
Variable authJWT : authService.JWTService.
Variable cfg : config.Config.
Variable now : Time.
Variable now_issue : Time.
Variable uuid_New : string.
Variable ErrAccountNotVerified : error.
Variable ErrPasswordNotMatch : error.
Variable f : repository.Faults.
Variable on_DeleteUser : option error.

#[local] Abbreviation userVerify :=
  (userService.Verify bcrypt_CompareHashAndPassword userJWT f).
#[local] Abbreviation userRefreshToken := (userService.RefreshToken userJWT now f).
#[local] Abbreviation userRevoke := (userService.RevokeRefreshToken f).
#[local] Abbreviation userDelete := (userService.Delete f on_DeleteUser).
#[local] Abbreviation authLogin :=
  (authService.Login bcrypt_CompareHashAndPassword authJWT cfg now_issue uuid_New
     ErrAccountNotVerified ErrPasswordNotMatch f).
#[local] Abbreviation authRefreshToken :=
  (authService.RefreshToken authJWT cfg now now_issue uuid_New f).

(** X4.  The transactions of [userService] are all or nothing.  When
    [RefreshToken], [RevokeRefreshToken] or [Delete] returns an error,
    whether from a lookup, a statement or the commit, the committed data
    are those before the call; [RefreshToken] then returns the zero
    response. *)
Theorem userService_error_rolls_back (db : repository.DB) :
  (forall req resp e db',
      userRefreshToken db req = ((resp, Some e), db') ->
      db' = db /\ resp = dto.TokenResponse_zero)
  /\ (forall id e db', userRevoke db id = (Some e, db') -> db' = db)
  /\ (forall id e db', userDelete db id = (Some e, db') -> db' = db).
Proof.
  repeat apply conj.
  - intros req resp e db'.
    unfold userService.RefreshToken, repository.Begin, repository.Rollback, repository.Commit.
    repeat (case_match; try discriminate); intros; simplify_eq; split; reflexivity.
  - intros id e db'.
    unfold userService.RevokeRefreshToken, repository.Begin, repository.Rollback,
      repository.Commit.
    repeat (case_match; try discriminate); intros; simplify_eq; reflexivity.
  - intros id e db'.
    unfold userService.Delete, repository.Begin, repository.Rollback, repository.Commit.
    repeat (case_match; try discriminate); intros; simplify_eq; reflexivity.
Qed.

(** X5.  Deleting a user cascades.  After a [Delete] that succeeds the
    queries see no row of the user (it is stamped as deleted) and no
    refresh token of the user, and every other row as before; a second
    [Delete] or a [RevokeRefreshToken] for the same id then fails with
    [dto.ErrUserNotFound]. *)
Theorem Delete_cascade (db db' : repository.DB) (id : string) :
  userDelete db id = (None, db') ->
  repository.users db'
  = List.filter (fun u => negb (String.eqb (entity.ID u) id)) (repository.users db)
  /\ repository.refresh_tokens db'
     = List.filter (fun r => negb (String.eqb (entity.UserID r) id))
         (repository.refresh_tokens db)
  /\ repository.tokens_of_user id db' = []
  /\ userDelete db' id = (Some dto.ErrUserNotFound, db')
  /\ userRevoke db' id = (Some dto.ErrUserNotFound, db').
Proof.
  unfold userService.Delete, userService.RevokeRefreshToken,
    repository.Begin, repository.Rollback, repository.Commit.
  destruct (repository.GetUserById _ db id) as [user [e|]] eqn:Hget; [discriminate|].
  pose proof Hget as Hfault. unfold repository.GetUserById, repository.take_user in Hfault.
  destruct (repository.on_GetUser f) eqn:Hf; [discriminate|]. clear Hfault.
  apply GetUserById_found in Hget. rewrite Hget.
  unfold repository.DeleteByUserID, repository.delete_tokens, repository.Delete.
  destruct (repository.on_Delete f); [discriminate|].
  destruct on_DeleteUser; [discriminate|].
  destruct (repository.on_Commit f); [discriminate|].
  intros [= <-]. cbn [repository.users repository.refresh_tokens].
  unfold repository.tokens_of_user, repository.GetUserById, repository.take_user.
  cbn [repository.users repository.refresh_tokens].
  rewrite filter_negb_nil, find_filter_negb. repeat split; reflexivity.
Qed.

(** X6.  Revocation.  A [RevokeRefreshToken] that succeeds has removed the
    refresh tokens of that user and no other row; when the tokens were
    unique, none of the removed tokens can be refreshed afterwards,
    whatever the clock: the answer is "Invalid refresh token" and
    nothing is stored.  For an unknown user the call fails with
    [dto.ErrUserNotFound]. *)
Theorem RevokeRefreshToken_effect (db db' : repository.DB) (id : string) :
  userRevoke db id = (None, db') ->
  repository.users db' = repository.users db
  /\ repository.tokens_of_user id db' = []
  /\ (forall other, other <> id ->
        repository.tokens_of_user other db' = repository.tokens_of_user other db)
  /\ (repository.unique_tokens db ->
      forall r jwt' now' f',
        In r (repository.refresh_tokens db) -> entity.UserID r = id ->
        userService.RefreshToken jwt' now' f' db' {| dto.RefreshToken_ := entity.Token r |}
        = ((dto.TokenResponse_zero,
            Some (errors_New dto.MESSAGE_FAILED_INVALID_REFRESH_TOKEN)), db')).
Proof.
  unfold userService.RevokeRefreshToken, repository.Begin, repository.Rollback,
    repository.Commit.
  destruct (repository.GetUserById _ db id) as [user [e|]] eqn:Hget; [discriminate|].
  destruct (repository.DeleteByUserID _ db id) as [[e|] tx] eqn:Hdel; [discriminate|].
  destruct (repository.on_Commit f); [discriminate|].
  intros [= <-].
  assert (Htx : tx = snd (repository.DeleteByUserID None db id)).
  { unfold repository.DeleteByUserID, repository.delete_tokens in Hdel |- *.
    destruct (repository.on_Delete f); [discriminate|]. injection Hdel as <-. reflexivity. }
  rewrite Htx. unfold repository.tokens_of_user. cbn.
  repeat apply conj.
  - reflexivity.
  - apply filter_negb_nil.
  - intros other Hne. apply filter_filter_other.
    intros x Hx. apply String.eqb_eq in Hx. rewrite Hx, (eqb_neq_false _ _ Hne). reflexivity.
  - intros Hu r jwt' now' f' Hin Hid.
    destruct (FindByToken_after_DeleteByUserID (repository.on_FindToken f') db id r Hu Hin Hid)
      as [e He].
    unfold userService.RefreshToken, repository.Begin, repository.Rollback.
    cbn [dto.RefreshToken_]. cbn in He. rewrite He. reflexivity.
Qed.

(** X7.  Logout.  When the delete statement does not fail, [Logout] returns
    nil for every token, stored or not; afterwards a refresh with that
    token is answered with [ErrInvalidRefreshToken] and changes nothing,
    a second [Logout] changes nothing, and the users and the lookups of
    all other tokens are what they were. *)
Theorem Logout_then_RefreshToken (db : repository.DB) (token : string) :
  repository.on_Delete f = None ->
  let db' := snd (authService.Logout f db token) in
  authService.Logout f db token = (None, db')
  /\ authRefreshToken db' {| dto.RefreshToken_ := token |}
     = ((dto_auth.TokenResponse_zero, Some dto_auth.ErrInvalidRefreshToken), db')
  /\ authService.Logout f db' token = (None, db')
  /\ repository.users db' = repository.users db
  /\ (forall t, t <> token ->
        repository.FindByToken None db' t = repository.FindByToken None db t).
Proof.
  intros Hdel db'. subst db'.
  unfold authService.Logout, repository.DeleteRefreshToken.
  pose proof (DeleteByToken_then_FindByToken db token) as (Hnone & Hfind & Hother & Husers & Habs).
  assert (Hsame : repository.DeleteByToken (repository.on_Delete f) db token
                  = repository.DeleteByToken None db token) by (rewrite Hdel; reflexivity).
  rewrite Hsame.
  set (db' := snd (repository.DeleteByToken None db token)) in *.
  repeat apply conj.
  - reflexivity.
  - unfold authService.RefreshToken, repository.GetRefreshToken. cbn [dto.RefreshToken_].
    unfold repository.FindByToken in Hfind |- *.
    destruct (repository.on_FindToken f); [reflexivity|].
    destruct (List.find _ _); [discriminate|reflexivity].
  - rewrite Hdel.
    pose proof (DeleteByToken_then_FindByToken db' token) as (_ & _ & _ & _ & Hrows).
    specialize (Hrows (DeleteByToken_not_findable db token)).
    clearbody db'. destruct db' as [us rows].
    unfold repository.DeleteByToken, repository.delete_tokens in Hrows |- *.
    cbn [snd repository.refresh_tokens repository.users] in Hrows |- *.
    rewrite Hrows. reflexivity.
  - exact Husers.
  - exact Hother.
Qed.

(** The two statements that replace the refresh tokens of a user. *)
Lemma replace_tokens_shape (fd fc : option error) (db tx tx' : repository.DB) (id : string)
  (row out : entity.RefreshToken) :
  repository.DeleteByUserID fd db id = (None, tx) ->
  repository.Create fc tx row = ((out, None), tx') ->
  repository.users tx' = repository.users db
  /\ repository.refresh_tokens tx'
     = (List.filter (fun r => negb (String.eqb (entity.UserID r) id))
          (repository.refresh_tokens db) ++ [row])%list
  /\ repository.has_token (entity.Token row) tx = false.
Proof.
  unfold repository.DeleteByUserID, repository.delete_tokens, repository.Create.
  destruct fd; [discriminate|]. intros [= <-].
  destruct fc; [discriminate|].
  destruct (repository.has_token _ _) eqn:Hhas; [discriminate|].
  intros [= _ <-]. auto.
Qed.

Lemma tokens_of_user_replaced (db db' : repository.DB) (id : string)
  (row : entity.RefreshToken) :
  repository.refresh_tokens db'
  = (List.filter (fun r => negb (String.eqb (entity.UserID r) id))
       (repository.refresh_tokens db) ++ [row])%list ->
  entity.UserID row = id ->
  repository.tokens_of_user id db' = [row]
  /\ (forall other, other <> id ->
        repository.tokens_of_user other db' = repository.tokens_of_user other db).
Proof.
  intros Hrows Hid. unfold repository.tokens_of_user. rewrite Hrows. split.
  - rewrite List.filter_app. cbn [List.filter].
    rewrite Hid, filter_negb_nil, String.eqb_refl. reflexivity.
  - intros other Hne. rewrite List.filter_app. cbn [List.filter].
    rewrite Hid, (eqb_neq_false _ _ (not_eq_sym Hne)), app_nil_r.
    apply filter_filter_other.
    intros x Hx. apply String.eqb_eq in Hx. rewrite Hx, (eqb_neq_false _ _ Hne). reflexivity.
Qed.

(** X8.  One session per user.  After a [Verify] or a [RefreshToken] of
    [userService] that succeeds, the user holds exactly one refresh
    token, the one of the response, and the tokens of every other user
    are those before the call. *)
Theorem one_session_per_user (db db' : repository.DB) (resp : dto.TokenResponse) :
  (forall req, userVerify db req = ((resp, None), db') ->
     exists user,
       repository.GetUserByEmail (repository.on_GetUser f) db (dto.Email req) = (user, None)
       /\ repository.tokens_of_user (entity.ID user) db'
          = [{| entity.UserID := entity.ID user;
                entity.Token := dto.RefreshToken resp;
                entity.ExpiresAt := snd (userService.GenerateRefreshToken userJWT) |}]
       /\ (forall other, other <> entity.ID user ->
             repository.tokens_of_user other db' = repository.tokens_of_user other db))
  /\ (forall req, userRefreshToken db req = ((resp, None), db') ->
        exists stored,
          repository.FindByToken (repository.on_FindToken f) db (dto.RefreshToken_ req)
          = (stored, None)
          /\ repository.tokens_of_user (entity.UserID stored) db'
             = [{| entity.UserID := entity.UserID stored;
                   entity.Token := dto.RefreshToken resp;
                   entity.ExpiresAt := snd (userService.GenerateRefreshToken userJWT) |}]
          /\ (forall other, other <> entity.UserID stored ->
                repository.tokens_of_user other db' = repository.tokens_of_user other db)).
Proof.
  split; intros req.
  - unfold userService.Verify, repository.Begin, repository.Rollback, repository.Commit.
    destruct (repository.GetUserByEmail _ db _) as [user [e|]] eqn:Hget; [discriminate|].
    destruct (helpers.CheckPassword _ _ _) as [ok err].
    destruct (bool_decide (is_Some err) || negb ok); [discriminate|].
    destruct (userService.GenerateRefreshToken userJWT) as [tok exp].
    destruct (repository.DeleteByUserID _ db _) as [[e|] tx] eqn:Hdel; [discriminate|].
    destruct (repository.Create _ tx _) as [[out [e|]] tx'] eqn:Hcreate; [discriminate|].
    destruct (repository.on_Commit f); [discriminate|].
    intros [= <- <-]. exists user. split; [reflexivity|].
    destruct (replace_tokens_shape _ _ _ _ _ _ _ _ Hdel Hcreate) as (_ & Hrows & _).
    exact (tokens_of_user_replaced _ _ _ _ Hrows eq_refl).
  - unfold userService.RefreshToken, repository.Begin, repository.Rollback, repository.Commit.
    destruct (repository.FindByToken _ db _) as [stored [e|]] eqn:Hfind; [discriminate|].
    destruct (Time_After now (entity.ExpiresAt stored)); [discriminate|].
    destruct (repository.GetUserById _ db _) as [user [e|]] eqn:Huser; [discriminate|].
    apply GetUserById_found in Huser.
    destruct (userService.GenerateRefreshToken userJWT) as [tok exp].
    destruct (repository.DeleteByUserID _ db _) as [[e|] tx] eqn:Hdel; [discriminate|].
    destruct (repository.Create _ tx _) as [[out [e|]] tx'] eqn:Hcreate; [discriminate|].
    destruct (repository.on_Commit f); [discriminate|].
    intros [= <- <-]. exists stored. split; [reflexivity|].
    destruct (replace_tokens_shape _ _ _ _ _ _ _ _ Hdel Hcreate) as (_ & Hrows & _).
    rewrite <- Huser.
    exact (tokens_of_user_replaced _ _ _ _ Hrows eq_refl).
Qed.

(** X9.  A refresh token of [userService] is good for one refresh.  When the
    stored tokens are unique and a [RefreshToken] succeeds with a token
    other than the one presented, a later refresh with the presented
    token is answered with "Invalid refresh token" and stores nothing,
    while the issued token is found with the owner of the presented
    one. *)
Theorem refresh_token_single_use (db db' : repository.DB) (req : dto.RefreshTokenRequest)
  (resp : dto.TokenResponse) :
  repository.unique_tokens db ->
  userRefreshToken db req = ((resp, None), db') ->
  dto.RefreshToken resp <> dto.RefreshToken_ req ->
  (forall jwt' now' f',
      userService.RefreshToken jwt' now' f' db' req
      = ((dto.TokenResponse_zero,
          Some (errors_New dto.MESSAGE_FAILED_INVALID_REFRESH_TOKEN)), db'))
  /\ exists stored,
       repository.FindByToken (repository.on_FindToken f) db (dto.RefreshToken_ req)
       = (stored, None)
       /\ repository.FindByToken None db' (dto.RefreshToken resp)
          = ({| entity.UserID := entity.UserID stored;
                entity.Token := dto.RefreshToken resp;
                entity.ExpiresAt := snd (userService.GenerateRefreshToken userJWT) |}, None).
Proof.
  intros Hu.
  unfold userService.RefreshToken at 1.
  unfold repository.Begin, repository.Rollback, repository.Commit.
  destruct (repository.FindByToken _ db _) as [stored [e|]] eqn:Hfind; [discriminate|].
  destruct (Time_After now (entity.ExpiresAt stored)); [discriminate|].
  destruct (repository.GetUserById _ db _) as [user [e|]] eqn:Huser; [discriminate|].
  apply GetUserById_found in Huser.
  destruct (userService.GenerateRefreshToken userJWT) as [tok exp].
  destruct (repository.DeleteByUserID _ db _) as [[e|] tx] eqn:Hdel; [discriminate|].
  destruct (repository.Create _ tx _) as [[out [e|]] tx'] eqn:Hcreate; [discriminate|].
  destruct (repository.on_Commit f); [discriminate|].
  intros [= <- <-]. cbn [dto.RefreshToken snd]. intros Hne.
  destruct (replace_tokens_shape _ _ _ _ _ _ _ _ Hdel Hcreate) as (_ & Hrows & Hfresh).
  assert (Htx : tx = snd (repository.DeleteByUserID None db (entity.ID user))).
  { unfold repository.DeleteByUserID, repository.delete_tokens in Hdel |- *.
    destruct (repository.on_Delete f); [discriminate|]. injection Hdel as <-. reflexivity. }
  apply FindByToken_found in Hfind as (_ & Htok & Hin & _).
  split.
  - intros jwt' now' f'.
    unfold userService.RefreshToken, repository.Begin, repository.Rollback,
      repository.FindByToken.
    destruct (repository.on_FindToken f'); [reflexivity|].
    rewrite Hrows, find_app_new. cbn [entity.Token].
    rewrite (eqb_neq_false _ _ Hne).
    destruct (FindByToken_after_DeleteByUserID None db (entity.ID user) stored Hu Hin
                (eq_sym Huser)) as [e He].
    unfold repository.FindByToken in He. cbn in He. rewrite Htok in He.
    destruct (List.find _ _); [discriminate|reflexivity].
  - exists stored. split; [reflexivity|].
    unfold repository.FindByToken. rewrite Hrows, find_app_new.
    cbn [entity.Token]. rewrite String.eqb_refl.
    unfold repository.has_token in Hfresh. rewrite Htx in Hfresh. cbn in Hfresh.
    cbn [entity.Token] in Hfresh.
    rewrite (find_existsb_false _ _ Hfresh), Huser. reflexivity.
Qed.

(** X10.  With the rotation flag on, a refresh token of [authService] is good
    for one refresh: when [RefreshToken] succeeds with a new token and
    its delete statement did not fail, a later refresh with the
    presented token is answered with [ErrInvalidRefreshToken] and
    changes nothing, under any configuration. *)
Theorem rotated_token_single_use (db db' : repository.DB) (req : dto.RefreshTokenRequest)
  (resp : dto_auth.TokenResponse) :
  config.RotateRefreshToken (config.JWT cfg) = true ->
  repository.on_Delete f = None ->
  authRefreshToken db req = ((resp, None), db') ->
  dto_auth.RefreshToken resp <> dto.RefreshToken_ req ->
  forall jwt' cfg' now' now_issue' uuid' f',
    authService.RefreshToken jwt' cfg' now' now_issue' uuid' f' db' req
    = ((dto_auth.TokenResponse_zero, Some dto_auth.ErrInvalidRefreshToken), db').
Proof.
  intros Hrot Hdel.
  unfold authService.RefreshToken at 1. unfold repository.GetRefreshToken.
  destruct (repository.FindByToken _ db _) as [stored [e|]] eqn:Hfind; [discriminate|].
  destruct (Time_After now (entity.ExpiresAt stored)).
  { destruct (repository.DeleteRefreshToken _ db _); discriminate. }
  destruct (repository.GetUserById _ db _) as [user [e|]] eqn:Huser; [discriminate|].
  destruct (authService.GenerateAccessToken authJWT _ _) as [[a x] [e|]]; [discriminate|].
  rewrite Hrot, Hdel.
  unfold repository.DeleteRefreshToken, repository.DeleteByToken, repository.delete_tokens,
    repository.CreateRefreshToken, repository.Create.
  destruct (repository.on_Create f); [discriminate|].
  destruct (repository.has_token _ _); [discriminate|].
  intros [= <- <-]. cbn [dto_auth.RefreshToken]. intros Hne jwt' cfg' now' now_issue' uuid' f'.
  unfold authService.RefreshToken, repository.GetRefreshToken, repository.FindByToken.
  destruct (repository.on_FindToken f'); [reflexivity|].
  cbn [repository.refresh_tokens]. rewrite find_app_new. cbn [entity.Token].
  rewrite (eqb_neq_false _ _ Hne), find_filter_negb. reflexivity.
Qed.

(** X11.  [authService] discards the error of its delete statements.  When
    the driver fails every delete, [Logout] reports the error, but a
    [Login] or a rotating [RefreshToken] that succeeds has only added
    the new row: the former tokens, the presented one among them, stay
    stored. *)
Theorem authService_discards_delete_error (db : repository.DB) (e : error) :
  repository.on_Delete f = Some e ->
  (forall token, authService.Logout f db token = (Some e, db))
  /\ (forall req resp db', authLogin db req = ((resp, None), db') ->
        exists user,
          repository.GetUserByEmail (repository.on_GetUser f) db (dto.Email req) = (user, None)
          /\ repository.refresh_tokens db'
             = (repository.refresh_tokens db
                ++ [{| entity.UserID := entity.ID user; entity.Token := uuid_New;
                       entity.ExpiresAt := authService.refreshTokenExpiry cfg now_issue |}])%list)
  /\ (forall req resp db',
        config.RotateRefreshToken (config.JWT cfg) = true ->
        authRefreshToken db req = ((resp, None), db') ->
        repository.findable (dto.RefreshToken_ req) db' = true
        /\ length (repository.refresh_tokens db')
           = S (length (repository.refresh_tokens db))).
Proof.
  intros Hdel. repeat apply conj.
  - intros token. unfold authService.Logout, repository.DeleteRefreshToken,
      repository.DeleteByToken, repository.delete_tokens. rewrite Hdel. reflexivity.
  - intros req resp db'. unfold authService.Login.
    rewrite CheckEmail_GetUserByEmail.
    destruct (repository.GetUserByEmail _ db _) as [user [e'|]] eqn:Hget; [discriminate|].
    cbn [bool_decide negb orb].
    destruct (entity.IsVerified user); [|discriminate]. cbn [negb].
    destruct (helpers.CheckPassword _ _ _) as [ok err].
    destruct (bool_decide (is_Some err) || negb ok); [discriminate|].
    destruct (authService.GenerateAccessToken authJWT _ _) as [[a x] [e'|]]; [discriminate|].
    unfold repository.DeleteRefreshTokensByUserID, repository.DeleteByUserID,
      repository.delete_tokens, repository.CreateRefreshToken, repository.Create.
    rewrite Hdel.
    destruct (repository.on_Create f); [discriminate|].
    destruct (repository.has_token _ _); [discriminate|].
    intros [= _ <-]. exists user. split; reflexivity.
  - intros req resp db' Hrot.
    unfold authService.RefreshToken, repository.GetRefreshToken.
    destruct (repository.FindByToken _ db _) as [stored [e'|]] eqn:Hfind; [discriminate|].
    destruct (Time_After now (entity.ExpiresAt stored)).
    { destruct (repository.DeleteRefreshToken _ db _); discriminate. }
    destruct (repository.GetUserById _ db _) as [user [e'|]] eqn:Huser; [discriminate|].
    destruct (authService.GenerateAccessToken authJWT _ _) as [[a x] [e'|]]; [discriminate|].
    rewrite Hrot, Hdel.
    unfold repository.DeleteRefreshToken, repository.DeleteByToken, repository.delete_tokens,
      repository.CreateRefreshToken, repository.Create.
    destruct (repository.on_Create f); [discriminate|].
    destruct (repository.has_token _ _); [discriminate|].
    intros [= _ <-]. apply FindByToken_found in Hfind as (_ & _ & _ & Hstored).
    unfold repository.findable, repository.has_token in *. cbn [repository.refresh_tokens].
    rewrite existsb_app, Hstored, length_app. cbn. split; [reflexivity|lia].
Qed.

End SessionProperties.

(* ===================================================================== *)
(** * Further properties of the verification of an email                  *)
(* ===================================================================== *)

Lemma AESDecrypt_returns gcm_Open s :
  exists decrypted err, utils.AESDecrypt gcm_Open s = Return (decrypted, err).
Proof.
  unfold utils.AESDecrypt. destruct (utils.AESDecrypt_body gcm_Open s) as [[d e]|v]; eauto.
Qed.

Lemma find_map_preserved {A} (p : A -> bool) (g : A -> A) (l : list A) :
  (forall x, p (g x) = p x) ->
  List.find p (List.map g l) = option_map g (List.find p l).
Proof.
  intros Hp. induction l as [|a l IH]; [reflexivity|]. cbn [List.map List.find].
  rewrite Hp. destruct (p a); [reflexivity|exact IH].
Qed.

(** The update of [VerifyEmail] writes the flag and no other column. *)
Lemma updates_flag_only (id : string) (row : entity.User) :
  repository.updates
    {| entity.ID := id; entity.Name := ""; entity.Email := ""; entity.TelpNumber := "";
       entity.Password := ""; entity.Role := ""; entity.ImageUrl := "";
       entity.IsVerified := true |} row
  = {| entity.ID := entity.ID row; entity.Name := entity.Name row;
       entity.Email := entity.Email row; entity.TelpNumber := entity.TelpNumber row;
       entity.Password := entity.Password row; entity.Role := entity.Role row;
       entity.ImageUrl := entity.ImageUrl row;
       entity.IsVerified := String.eqb (entity.ID row) id || entity.IsVerified row |}.
Proof.
  unfold repository.updates, repository.nonzero. cbn.
  destruct (String.eqb (entity.ID row) id); [reflexivity|]. destruct row; reflexivity.
Qed.

Ltac verify_error :=
  do 3 eexists; split; [reflexivity|]; split; [reflexivity|];
  split; [|discriminate];
  intros ? [= <-]; split; [reflexivity|];
  split; [cbn; repeat (first [left; reflexivity | right])
         |first [left; reflexivity | right; reflexivity]].

Section VerifyEmailFlow.

Variable gcm_Open : list byte -> list byte -> list byte -> outcome (option (list byte)).
Variable now : Time.
Variable f : repository.Faults.

#[local] Abbreviation VerifyEmail := (userService.VerifyEmail gcm_Open now f).

(** X12.  [VerifyEmail] returns on every request: the pieces it indexes exist
    whenever it reaches them.  It never touches the refresh tokens; with
    an error it stores nothing, and the response is the zero value
    unless the error is [dto.ErrTokenExpired]; without an error the user
    found under the email of the response was not verified, the response
    says verified, and the rows with the id of that user have their flag
    set while every other column of every row is what it was. *)
Theorem VerifyEmail_returns (db : repository.DB) (req : dto.VerifyEmailRequest) :
  exists resp err db',
    VerifyEmail db req = Return ((resp, err), db')
    /\ repository.refresh_tokens db' = repository.refresh_tokens db
    /\ (forall e, err = Some e ->
          db' = db
          /\ In e [dto.ErrTokenInvalid; dto.ErrTokenExpired; dto.ErrUserNotFound;
                   dto.ErrAccountAlreadyVerified; dto.ErrUpdateUser]
          /\ (resp = dto.VerifyEmailResponse_zero \/ e = dto.ErrTokenExpired))
    /\ (err = None ->
          dto.VIsVerified resp = true
          /\ exists user,
               repository.GetUserByEmail (repository.on_GetUser f) db (dto.VEmail resp)
               = (user, None)
               /\ entity.IsVerified user = false
               /\ repository.users db'
                  = List.map
                      (fun row =>
                         {| entity.ID := entity.ID row; entity.Name := entity.Name row;
                            entity.Email := entity.Email row;
                            entity.TelpNumber := entity.TelpNumber row;
                            entity.Password := entity.Password row;
                            entity.Role := entity.Role row;
                            entity.ImageUrl := entity.ImageUrl row;
                            entity.IsVerified :=
                              String.eqb (entity.ID row) (entity.ID user)
                              || entity.IsVerified row |})
                      (repository.users db)).
Proof.
  unfold userService.VerifyEmail.
  destruct (AESDecrypt_returns gcm_Open (dto.Token req)) as (dec & derr & ->).
  cbn [bind_outcome].
  destruct (bool_decide (is_Some derr)).
  { verify_error. }
  destruct (strings.Contains dec "_") eqn:Hc; cbn [negb].
  2:{ verify_error. }
  destruct (Split_Contains _ _ Hc) as (email & expired & rest & ->).
  cbn [strings.index lookup list_lookup bind_outcome].
  destruct (time.Parse expired) as [expiredTime [e|]].
  { verify_error. }
  destruct (time.Sub_negative expiredTime now).
  { verify_error. }
  destruct (repository.GetUserByEmail _ db email) as [user [e|]] eqn:Hget.
  { verify_error. }
  destruct (entity.IsVerified user) eqn:Hver.
  { verify_error. }
  unfold repository.Update.
  destruct (repository.on_Update f).
  { verify_error. }
  do 3 eexists. split; [reflexivity|]. split; [reflexivity|].
  split; [discriminate|]. intros _. split; [reflexivity|].
  exists user. cbn [dto.VEmail repository.users]. repeat split; [exact Hget|exact Hver|].
  apply map_ext. intros row. apply updates_flag_only.
Qed.

(** X13.  A verification link works once.  After a [VerifyEmail] that
    succeeded, the same request stores nothing more at any later or
    earlier instant: with a working lookup it is answered with
    [dto.ErrAccountAlreadyVerified], or with [dto.ErrTokenExpired] once
    the expiry is past; it is [dto.ErrAccountAlreadyVerified] at every
    instant up to that of the first call. *)
Theorem VerifyEmail_once (db db' : repository.DB) (req : dto.VerifyEmailRequest)
  (resp : dto.VerifyEmailResponse) :
  VerifyEmail db req = Return ((resp, None), db') ->
  forall now' f', repository.on_GetUser f' = None ->
    exists resp' e,
      userService.VerifyEmail gcm_Open now' f' db' req = Return ((resp', Some e), db')
      /\ (e = dto.ErrAccountAlreadyVerified \/ e = dto.ErrTokenExpired)
      /\ (now' <= now -> e = dto.ErrAccountAlreadyVerified).
Proof.
  unfold userService.VerifyEmail.
  destruct (utils.AESDecrypt gcm_Open (dto.Token req)) as [[dec derr]|v]; [|discriminate].
  cbn [bind_outcome].
  destruct (bool_decide (is_Some derr)); [discriminate|].
  destruct (strings.Contains dec "_") eqn:Hc; cbn [negb]; [|discriminate].
  destruct (Split_Contains _ _ Hc) as (email & expired & rest & ->).
  cbn [strings.index lookup list_lookup bind_outcome].
  destruct (time.Parse expired) as [expiredTime [e|]]; [discriminate|].
  destruct (time.Sub_negative expiredTime now) eqn:Hexp; [discriminate|].
  destruct (repository.GetUserByEmail _ db email) as [user [e|]] eqn:Hget; [discriminate|].
  destruct (entity.IsVerified user) eqn:Hver; [discriminate|].
  unfold repository.Update.
  destruct (repository.on_Update f); [discriminate|].
  intros [= _ <-] now' f' Hf'.
  assert (Hget' : exists user',
             repository.GetUserByEmail (repository.on_GetUser f')
               {| repository.users :=
                    List.map (repository.updates
                      {| entity.ID := entity.ID user; entity.Name := ""; entity.Email := "";
                         entity.TelpNumber := ""; entity.Password := ""; entity.Role := "";
                         entity.ImageUrl := ""; entity.IsVerified := true |})
                      (repository.users db);
                  repository.refresh_tokens := repository.refresh_tokens db |} email
             = (user', None) /\ entity.IsVerified user' = true).
  { rewrite Hf'. unfold repository.GetUserByEmail, repository.take_user in Hget |- *.
    destruct (repository.on_GetUser f); [discriminate|].
    destruct (List.find _ (repository.users db)) as [found|] eqn:Hfind; [|discriminate].
    injection Hget as ->. cbn [repository.users].
    rewrite find_map_preserved
      by (intros row; rewrite updates_flag_only; reflexivity).
    rewrite Hfind. cbn [option_map]. eexists. split; [reflexivity|].
    rewrite updates_flag_only. cbn [entity.IsVerified].
    rewrite String.eqb_refl. reflexivity. }
  destruct Hget' as (user' & -> & ->).
  destruct (time.Sub_negative expiredTime now') eqn:Hexp'.
  - do 2 eexists. split; [reflexivity|]. split; [auto|].
    intros Hle. unfold time.Sub_negative in *.
    apply Z.ltb_lt in Hexp'. apply Z.ltb_ge in Hexp. lia.
  - do 2 eexists. split; [reflexivity|]. auto.
Qed.

End VerifyEmailFlow.

(* ===================================================================== *)
(** * Further properties of package time                                  *)
(* ===================================================================== *)

Lemma check_range_sound fuel P lo len :
  bounded.check_range fuel P lo len = true ->
  forall z, lo <= z < lo + len -> P z = true.
Proof.
  revert lo len. induction fuel as [|fuel IH]; intros lo len; cbn [bounded.check_range].
  - intros H z Hz. apply Z.leb_le in H. lia.
  - destruct (len <=? 0) eqn:H0; [intros _ z Hz; apply Z.leb_le in H0; lia|].
    destruct (len =? 1) eqn:H1.
    + apply Z.eqb_eq in H1. intros HP z Hz. replace z with lo by lia. exact HP.
    + destruct (bounded.check_range fuel P lo (len / 2)) eqn:Hl; [|discriminate].
      intros Hr z Hz. destruct (Z_lt_ge_dec z (lo + len / 2)).
      * apply (IH _ _ Hl). lia.
      * apply (IH _ _ Hr). lia.
Qed.

Lemma era_days : forall doe, 0 <= doe < 146097 -> bounded.era_day_ok doe = true.
Proof.
  apply (check_range_sound 20 bounded.era_day_ok 0 146097). vm_compute. reflexivity.
Qed.

Lemma two_digits : forall n, 0 <= n < 100 -> bounded.two_digits_ok n = true.
Proof.
  apply (check_range_sound 10 bounded.two_digits_ok 0 100). vm_compute. reflexivity.
Qed.

Lemma four_digits : forall n, 0 <= n < 10000 -> bounded.four_digits_ok n = true.
Proof.
  apply (check_range_sound 16 bounded.four_digits_ok 0 10000). vm_compute. reflexivity.
Qed.

Lemma civil_from_days_era (z : Z) :
  time.civil_from_days z
  = let '(y, m, d) := time.civil_from_days ((z + 719468) mod 146097 - 719468) in
    (y + (z + 719468) / 146097 * 400, m, d).
Proof.
  set (era := (z + 719468) / 146097). set (doe := (z + 719468) mod 146097).
  assert (Hdoe : 0 <= doe < 146097) by (apply Z.mod_pos_bound; lia).
  assert (Hz : z + 719468 - era * 146097 = doe)
    by (unfold doe, era; rewrite Z.mod_eq by lia; lia).
  unfold time.civil_from_days. cbv zeta.
  replace (doe - 719468 + 719468) with doe by lia.
  fold era. rewrite Hz.
  replace (doe / 146097) with 0 by (symmetry; apply Z.div_small; lia).
  replace (doe - 0 * 146097) with doe by lia.
  match goal with |- context [if ?c then _ else _] => destruct c end; f_equal; f_equal; lia.
Qed.

Lemma days_from_civil_era (y m d e : Z) :
  time.days_from_civil (y + e * 400) m d = time.days_from_civil y m d + e * 146097.
Proof.
  unfold time.days_from_civil. cbv zeta.
  destruct (m <=? 2).
  - replace (y + e * 400 - 1) with (y - 1 + e * 400) by lia.
    rewrite Z.div_add by lia.
    replace (y - 1 + e * 400 - ((y - 1) / 400 + e) * 400)
      with (y - 1 - (y - 1) / 400 * 400) by lia.
    lia.
  - rewrite Z.div_add by lia.
    replace (y + e * 400 - (y / 400 + e) * 400) with (y - y / 400 * 400) by lia.
    lia.
Qed.

Lemma daysIn_era (y m e : Z) : time.daysIn m (y + e * 400) = time.daysIn m y.
Proof.
  unfold time.daysIn, time.isLeap.
  replace ((y + e * 400) mod 4) with (y mod 4)
    by (replace (e * 400) with (e * 100 * 4) by lia; rewrite Z_mod_plus_full; reflexivity).
  replace ((y + e * 400) mod 100) with (y mod 100)
    by (replace (e * 400) with (e * 4 * 100) by lia; rewrite Z_mod_plus_full; reflexivity).
  rewrite Z_mod_plus_full. reflexivity.
Qed.

(** Every day is the day of one date of the calendar. *)
Lemma civil_from_days_valid (z year month day : Z) :
  time.civil_from_days z = (year, month, day) ->
  1 <= month <= 12 /\ 1 <= day <= time.daysIn month year
  /\ time.days_from_civil year month day = z.
Proof.
  rewrite civil_from_days_era.
  set (era := (z + 719468) / 146097). set (doe := (z + 719468) mod 146097).
  assert (Hdoe : 0 <= doe < 146097) by (apply Z.mod_pos_bound; lia).
  assert (Hz : z = doe - 719468 + era * 146097)
    by (unfold doe, era; rewrite Z.mod_eq by lia; lia).
  pose proof (era_days doe Hdoe) as Hok. unfold bounded.era_day_ok in Hok.
  destruct (time.civil_from_days (doe - 719468)) as [[y m] d].
  intros [= <- <- <-].
  repeat (apply andb_prop in Hok as [Hok ?]).
  rewrite daysIn_era, days_from_civil_era. lia.
Qed.

Lemma getyear_app s n r rest :
  time.getyear s = Some (n, r) -> time.getyear (s ++ rest) = Some (n, r ++ rest).
Proof.
  unfold time.getyear.
  destruct s as [|c0 [|c1 [|c2 [|c3 s]]]]; try discriminate.
  rewrite !append_cons.
  repeat (case_match; try discriminate). intros [= <- <-]. reflexivity.
Qed.

Lemma getnum_app s n r rest fixed :
  time.getnum s true = Some (n, r) -> time.getnum (s ++ rest) fixed = Some (n, r ++ rest).
Proof.
  unfold time.getnum.
  destruct s as [|c0 [|c1 s]]; try discriminate.
  - rewrite append_cons. destruct (time.digit_val c0); discriminate.
  - rewrite !append_cons.
    destruct (time.digit_val c0); [|discriminate].
    destruct (time.digit_val c1); [|discriminate].
    intros [= <- <-]. reflexivity.
Qed.

Lemma getnum_cutspace s n r :
  time.getnum s true = Some (n, r) -> forall rest, time.cutspace (s ++ rest) = s ++ rest.
Proof.
  unfold time.getnum. destruct s as [|c0 s]; [discriminate|].
  destruct (time.digit_val c0) eqn:Hd; [|discriminate]. intros _ rest.
  rewrite append_cons. cbn [time.cutspace].
  destruct (Ascii.eqb c0 " ") eqn:Hsp; [|reflexivity].
  apply Ascii.eqb_eq in Hsp. subst c0. discriminate.
Qed.

Lemma Contains_app a b c :
  strings.Contains (a ++ b) c = strings.Contains a c || strings.Contains b c.
Proof.
  induction a as [|x a IH]; [reflexivity|].
  rewrite append_cons. cbn [strings.Contains]. rewrite IH, orb_assoc. reflexivity.
Qed.

Lemma skip_literal (c : ascii) (rest : string) :
  Ascii.eqb c " " = false -> time.skip (String c "" ++ rest) c = Some rest.
Proof.
  intros Hc. unfold time.skip. rewrite Hc, append_cons, append_nil, Ascii.eqb_refl.
  reflexivity.
Qed.

Lemma skip_space (rest : string) :
  time.skip (" " ++ rest) " " = Some (time.cutspace rest).
Proof. reflexivity. Qed.

(** A text of six fields in the layout is read back field by field. *)
Lemma parse_fields_layout (Y M D h m s : string) (year month day hour min sec : Z) :
  time.getyear Y = Some (year, "") ->
  time.getnum M true = Some (month, "") ->
  time.getnum D true = Some (day, "") ->
  time.getnum h true = Some (hour, "") ->
  time.getnum m true = Some (min, "") ->
  time.getnum s true = Some (sec, "") ->
  time.parse_fields (Y ++ "-" ++ M ++ "-" ++ D ++ " " ++ h ++ ":" ++ m ++ ":" ++ s)
  = Some (year, month, day, hour, min, sec, "").
Proof.
  intros HY HM HD Hh Hm Hs. unfold time.parse_fields.
  rewrite (getyear_app _ _ _ _ HY). cbn [mbind option_bind]. rewrite append_nil.
  rewrite (skip_literal "-") by reflexivity. cbn [mbind option_bind].
  rewrite (getnum_app _ _ _ _ _ HM). cbn [mbind option_bind]. rewrite append_nil.
  rewrite (skip_literal "-") by reflexivity. cbn [mbind option_bind].
  rewrite (getnum_app _ _ _ _ _ HD). cbn [mbind option_bind]. rewrite append_nil.
  rewrite skip_space, (getnum_cutspace _ _ _ Hh). cbn [mbind option_bind].
  rewrite (getnum_app _ _ _ _ _ Hh). cbn [mbind option_bind]. rewrite append_nil.
  rewrite (skip_literal ":") by reflexivity. cbn [mbind option_bind].
  rewrite (getnum_app _ _ _ _ _ Hm). cbn [mbind option_bind]. rewrite append_nil.
  rewrite (skip_literal ":") by reflexivity. cbn [mbind option_bind].
  rewrite Hs. reflexivity.
Qed.

Lemma two_digits_read (n : Z) :
  0 <= n < 100 ->
  time.getnum (time.appendInt n 2) true = Some (n, "")
  /\ strings.Contains (time.appendInt n 2) "_" = false.
Proof.
  intros Hn. pose proof (two_digits n Hn) as Hok. unfold bounded.two_digits_ok in Hok.
  apply andb_prop in Hok as [Hread Hno].
  apply bool_decide_eq_true_1 in Hread. apply negb_true_iff in Hno. auto.
Qed.

Lemma four_digits_read (n : Z) :
  0 <= n < 10000 ->
  time.getyear (time.appendInt n 4) = Some (n, "")
  /\ strings.Contains (time.appendInt n 4) "_" = false.
Proof.
  intros Hn. pose proof (four_digits n Hn) as Hok. unfold bounded.four_digits_ok in Hok.
  apply andb_prop in Hok as [Hread Hno].
  apply bool_decide_eq_true_1 in Hread. apply negb_true_iff in Hno. auto.
Qed.

Section FormatParse.

Variable offset : Z.
Variable t : Time.
Variables year month day : Z.
Hypothesis Hdate : time.civil_from_days ((t / Second + offset) / 86400) = (year, month, day).
Hypothesis Hyear : 0 <= year <= 9999.

Lemma Format_fields :
  let sod := (t / Second + offset) mod 86400 in
  time.Format offset t
  = time.appendInt year 4 ++ "-" ++ time.appendInt month 2 ++ "-"
    ++ time.appendInt day 2 ++ " " ++ time.appendInt (sod / 3600) 2 ++ ":"
    ++ time.appendInt (sod / 60 mod 60) 2 ++ ":" ++ time.appendInt (sod mod 60) 2.
Proof. unfold time.Format. cbv zeta. rewrite Hdate. reflexivity. Qed.

Lemma daysIn_bound m y : time.daysIn m y <= 31.
Proof. unfold time.daysIn. repeat case_match; lia. Qed.

(** Reading back what [Format] wrote gives the wall clock of the zone,
    taken as an instant of UTC and cut to the second. *)
Lemma Parse_Format_fields :
  time.Parse (time.Format offset t) = ((t / Second + offset) * Second, None)
  /\ strings.Contains (time.Format offset t) "_" = false.
Proof.
  rewrite Format_fields. cbv zeta.
  set (secs := t / Second + offset) in *.
  set (sod := secs mod 86400).
  assert (Hsod : 0 <= sod < 86400) by (apply Z.mod_pos_bound; lia).
  destruct (civil_from_days_valid _ _ _ _ Hdate) as (Hm & Hd & Hdays).
  pose proof (daysIn_bound month year) as Hd31.
  assert (Hh : 0 <= sod / 3600 < 24)
    by (split; [apply Z.div_pos; lia|apply Z.div_lt_upper_bound; lia]).
  assert (Hmi : 0 <= sod / 60 mod 60 < 60) by (apply Z.mod_pos_bound; lia).
  assert (Hs : 0 <= sod mod 60 < 60) by (apply Z.mod_pos_bound; lia).
  destruct (four_digits_read year) as [HY HYc]; [lia|].
  destruct (two_digits_read month) as [HM HMc]; [lia|].
  destruct (two_digits_read day) as [HD HDc]; [lia|].
  destruct (two_digits_read (sod / 3600)) as [Hhr Hhc]; [lia|].
  destruct (two_digits_read (sod / 60 mod 60)) as [Hmr Hmc]; [lia|].
  destruct (two_digits_read (sod mod 60)) as [Hsr Hsc]; [lia|].
  split.
  - unfold time.Parse.
    rewrite (parse_fields_layout _ _ _ _ _ _ _ _ _ _ _ _ HY HM HD Hhr Hmr Hsr).
    replace (month <=? 0) with false by (symmetry; apply Z.leb_gt; lia).
    replace (12 <? month) with false by (symmetry; apply Z.ltb_ge; lia).
    replace (24 <=? sod / 3600) with false by (symmetry; apply Z.leb_gt; lia).
    replace (60 <=? sod / 60 mod 60) with false by (symmetry; apply Z.leb_gt; lia).
    replace (60 <=? sod mod 60) with false by (symmetry; apply Z.leb_gt; lia).
    cbn [orb time.fractional String.eqb negb].
    replace (day <? 1) with false by (symmetry; apply Z.ltb_ge; lia).
    replace (time.daysIn month year <? day) with false by (symmetry; apply Z.ltb_ge; lia).
    cbn [orb]. f_equal. unfold time.Date. rewrite Hdays.
    pose proof (Z.div_mod secs 86400 ltac:(lia)) as Hsecs. fold sod in Hsecs.
    pose proof (Z.div_mod sod 3600 ltac:(lia)) as H1.
    pose proof (Z.div_mod sod 60 ltac:(lia)) as H2.
    pose proof (Z.div_mod (sod / 60) 60 ltac:(lia)) as H3.
    assert (H4 : sod / 60 / 60 = sod / 3600) by (rewrite Z.div_div by lia; reflexivity).
    lia.
  - rewrite !Contains_app, HYc, HMc, HDc, Hhc, Hmc, Hsc. reflexivity.
Qed.

End FormatParse.

Lemma Split_no_sep s sep : strings.Contains s sep = false -> strings.Split s sep = [s].
Proof.
  induction s as [|c s IH]; cbn [strings.Contains strings.Split]; [reflexivity|].
  intros H. apply orb_false_iff in H as [Hc Hs]. rewrite Hc, (IH Hs). reflexivity.
Qed.

Section LinkLifetime.

Variable gcm_Seal : list byte -> list byte -> list byte -> list byte.
Variable gcm_Open : list byte -> list byte -> list byte -> outcome (option (list byte)).
Hypothesis Open_Seal : forall key nonce plaintext,
  length nonce = utils.NonceSize ->
  gcm_Open key nonce (gcm_Seal key nonce plaintext) = Return (Some plaintext).

(** The clock when the mail is made and when the link is followed. *)
Variable now : Time.
Variable now_verify : Time.
Variable Local : Z.
Variable random : list byte.
Variable f : repository.Faults.

(** X14.  The lifetime of a verification link.  For an email without
    underscore, the token that [makeVerificationEmail] made is read back
    by [VerifyEmail] as that email and as the wall clock of the local
    zone one day after the mail was made, taken as an instant of UTC and
    cut to the second.  Past that instant the answer is
    [dto.ErrTokenExpired] with the email in the response; up to it, the
    user is looked up under the email, and an unverified user is
    verified.  The link so lives for 24 hours plus the offset of the
    local zone. *)
Theorem verification_link_lifetime (db : repository.DB) (email token : string)
  (year month day : Z) :
  userService.verification_token gcm_Seal now Local random email = (token, None) ->
  strings.Contains email "_" = false ->
  time.civil_from_days ((Time_Add now (Hour * 24) / Second + Local) / 86400)
  = (year, month, day) ->
  0 <= year <= 9999 ->
  let expiry := (Time_Add now (Hour * 24) / Second + Local) * Second in
  let VerifyEmail := userService.VerifyEmail gcm_Open now_verify f db {| dto.Token := token |} in
  (expiry < now_verify ->
     VerifyEmail
     = Return (({| dto.VEmail := email; dto.VIsVerified := false |},
                Some dto.ErrTokenExpired), db))
  /\ (now_verify <= expiry ->
      (forall u e,
          repository.GetUserByEmail (repository.on_GetUser f) db email = (u, Some e) ->
          VerifyEmail = Return ((dto.VerifyEmailResponse_zero, Some dto.ErrUserNotFound), db))
      /\ (forall user,
            repository.GetUserByEmail (repository.on_GetUser f) db email = (user, None) ->
            entity.IsVerified user = false ->
            repository.on_Update f = None ->
            exists db',
              VerifyEmail
              = Return (({| dto.VEmail := email; dto.VIsVerified := true |}, None), db')
              /\ exists user',
                   repository.GetUserByEmail None db' email = (user', None)
                   /\ entity.IsVerified user' = true)).
Proof.
  intros Htoken Hunder Hdate Hyear expiry VerifyEmail. subst VerifyEmail.
  unfold userService.verification_token, userService.verification_plainText in Htoken.
  apply (decrypt_after_encrypt gcm_Seal gcm_Open Open_Seal) in Htoken.
  destruct (Parse_Format_fields Local (Time_Add now (Hour * 24)) year month day Hdate Hyear)
    as [Hparse Hclean].
  fold expiry in Hparse.
  unfold userService.VerifyEmail. cbn [dto.Token]. rewrite Htoken.
  cbn [bind_outcome bool_decide].
  change ("_" ++ time.Format Local (Time_Add now (Hour * 24)))
    with (String "_" (time.Format Local (Time_Add now (Hour * 24)))).
  rewrite Contains_app_sep, Split_app_sep, (Split_no_sep _ _ Hunder), (Split_no_sep _ _ Hclean).
  cbn [negb app strings.index lookup list_lookup bind_outcome].
  rewrite Hparse. unfold time.Sub_negative.
  split.
  - intros Hlate. replace (expiry - now_verify <? 0) with true
      by (symmetry; apply Z.ltb_lt; lia).
    reflexivity.
  - intros Hearly. replace (expiry - now_verify <? 0) with false
      by (symmetry; apply Z.ltb_ge; lia).
    split.
    + intros u e ->. reflexivity.
    + intros user Hget Hver Hupd. rewrite Hget, Hver.
      unfold repository.Update. rewrite Hupd. eexists. split; [reflexivity|].
      unfold repository.GetUserByEmail, repository.take_user in Hget |- *.
      destruct (repository.on_GetUser f); [discriminate|].
      destruct (List.find _ (repository.users db)) as [found|] eqn:Hfind; [|discriminate].
      injection Hget as ->. cbn [repository.users].
      rewrite find_map_preserved
        by (intros row; rewrite updates_flag_only; reflexivity).
      rewrite Hfind. cbn [option_map]. eexists. split; [reflexivity|].
      rewrite updates_flag_only. cbn [entity.IsVerified].
      rewrite String.eqb_refl. reflexivity.
Qed.

End LinkLifetime.

(* ===================================================================== *)
(** * Further properties of the codec, of file names and of the listing   *)
(* ===================================================================== *)

Lemma fromHexChar_lower (c : ascii) :
  hex.fromHexChar (strings.lower c) = hex.fromHexChar c.
Proof. destruct c as [[] [] [] [] [] [] [] []]; vm_compute; reflexivity. Qed.

Lemma hextable_lower (c : ascii) (n : N) :
  hex.fromHexChar c = Some n -> hex.hextable n = strings.lower c.
Proof.
  destruct c as [[] [] [] [] [] [] [] []]; vm_compute; intros [= <-] || discriminate;
    reflexivity.
Qed.

Lemma mkbyte_to_N (a b : N) :
  (a < 16)%N -> (b < 16)%N ->
  (Byte.to_N (hex.mkbyte a b) / 16 = a)%N /\ (Byte.to_N (hex.mkbyte a b) mod 16 = b)%N.
Proof.
  intros Ha Hb. unfold hex.mkbyte.
  destruct (Byte.of_N (16 * a + b)) as [x|] eqn:Hx.
  - apply Byte.to_of_N in Hx. rewrite Hx. split.
    + rewrite N.mul_comm, N.div_add_l by lia. rewrite N.div_small by lia. lia.
    + rewrite N.add_comm, N.mul_comm, N.Div0.mod_add. apply N.mod_small. lia.
  - apply Byte.of_N_None_iff in Hx. lia.
Qed.

Lemma fromHexChar_bound (c : ascii) (n : N) : hex.fromHexChar c = Some n -> (n < 16)%N.
Proof.
  destruct c as [[] [] [] [] [] [] [] []]; vm_compute; intros [= <-] || discriminate;
    reflexivity.
Qed.

(** Decoding looks at the letters of a text without their case. *)
Lemma DecodeString_ToLower (s : string) :
  fst (hex.DecodeString (strings.ToLower s)) = fst (hex.DecodeString s)
  /\ (snd (hex.DecodeString (strings.ToLower s)) = None
      <-> snd (hex.DecodeString s) = None).
Proof.
  revert s. fix IH 1. intros [|p [|q rest]].
  - split; reflexivity.
  - cbn [strings.ToLower hex.DecodeString]. rewrite fromHexChar_lower.
    destruct (hex.fromHexChar p); split; try reflexivity; split; discriminate.
  - cbn [strings.ToLower hex.DecodeString]. rewrite !fromHexChar_lower.
    destruct (hex.fromHexChar p); [|split; [reflexivity|split; discriminate]].
    destruct (hex.fromHexChar q); [|split; [reflexivity|split; discriminate]].
    destruct (IH rest) as [Hbytes Herr].
    destruct (hex.DecodeString (strings.ToLower rest)) as [bs e].
    destruct (hex.DecodeString rest) as [bs' e'].
    cbn [fst snd] in *. subst bs'. split; [reflexivity|exact Herr].
Qed.

Lemma DecodeString_canonical (s : string) (bs : list byte) :
  hex.DecodeString s = (bs, None) ->
  hex.Sprintf_x bs = strings.ToLower s /\ String.length s = (2 * length bs)%nat.
Proof.
  revert s bs. fix IH 1. intros [|p [|q rest]] bs.
  - intros [= <-]. split; reflexivity.
  - cbn [hex.DecodeString]. destruct (hex.fromHexChar p); discriminate.
  - cbn [hex.DecodeString].
    destruct (hex.fromHexChar p) as [a|] eqn:Hp; [|discriminate].
    destruct (hex.fromHexChar q) as [b|] eqn:Hq; [|discriminate].
    destruct (hex.DecodeString rest) as [bs' e] eqn:Hrest.
    intros [= <- ->]. destruct (IH rest bs' Hrest) as [Hx Hlen].
    destruct (mkbyte_to_N a b (fromHexChar_bound _ _ Hp) (fromHexChar_bound _ _ Hq))
      as [Hhi Hlo].
    cbn [hex.Sprintf_x strings.ToLower String.length length].
    rewrite Hhi, Hlo, Hx, (hextable_lower _ _ Hp), (hextable_lower _ _ Hq), Hlen.
    split; [reflexivity|lia].
Qed.

Section CodecShape.

Variable gcm_Seal : list byte -> list byte -> list byte -> list byte.
Variable gcm_Open : list byte -> list byte -> list byte -> outcome (option (list byte)).

(** X15.  A token is read without the case of its letters.  A text that
    decodes as hexadecimal is, in lower case, the text that
    [fmt.Sprintf("%x")] writes for its bytes, and [AESDecrypt] answers
    the lower-case text as it answers the text itself. *)
Theorem AESDecrypt_ignores_case (s : string) (bs : list byte) :
  hex.DecodeString s = (bs, None) ->
  hex.Sprintf_x bs = strings.ToLower s
  /\ String.length s = (2 * length bs)%nat
  /\ utils.AESDecrypt gcm_Open (strings.ToLower s) = utils.AESDecrypt gcm_Open s.
Proof.
  intros Hs. destruct (DecodeString_canonical s bs Hs) as [Hx Hlen].
  repeat split; [exact Hx|exact Hlen|].
  rewrite <- Hx. unfold utils.AESDecrypt, utils.AESDecrypt_body.
  rewrite DecodeString_Sprintf_x, Hs. reflexivity.
Qed.

Lemma Sprintf_x_length (bs : list byte) :
  String.length (hex.Sprintf_x bs) = (2 * length bs)%nat.
Proof. induction bs as [|b bs IH]; cbn [hex.Sprintf_x String.length length]; lia. Qed.

(** X16.  [AESEncrypt] fails on the random source only.  The key is 24 bytes,
    so neither its decoding nor the cipher can fail; with fewer than
    twelve random bytes the result is the empty text and the error of
    the read, which is "EOF" when the source delivers no byte and
    "unexpected EOF" when it delivers some; otherwise the text is the
    hexadecimal of the nonce, which is the first twelve random bytes,
    followed by what the cipher sealed under that nonce. *)
Theorem AESEncrypt_fails_only_on_random (random : list byte) (s : string) :
  exists key,
    hex.DecodeString utils.KEY = (key, None) /\ length key = 24%nat
    /\ utils.AESEncrypt gcm_Seal random s
       = (if (12 <=? length random)%nat
          then (hex.Sprintf_x
                  (take 12 random
                   ++ gcm_Seal key (take 12 random) (list_byte_of_string s))%list, None)
          else if (length random =? 0)%nat then ("", Some (errors_New "EOF"))
          else ("", Some (errors_New "unexpected EOF")))
    /\ ((12 <= length random)%nat ->
        String.length (fst (utils.AESEncrypt gcm_Seal random s))
        = (24 + 2 * length (gcm_Seal key (take 12 random) (list_byte_of_string s)))%nat).
Proof.
  destruct KEY_decodes as (key & Hkey & Hcipher).
  exists key. split; [exact Hkey|].
  assert (Hlen : length key = 24%nat).
  { vm_compute in Hkey. injection Hkey as <-. reflexivity. }
  split; [exact Hlen|].
  assert (Hrun : utils.AESEncrypt gcm_Seal random s
       = if (12 <=? length random)%nat
         then (hex.Sprintf_x
                 (take 12 random
                  ++ gcm_Seal key (take 12 random) (list_byte_of_string s))%list, None)
         else if (length random =? 0)%nat then ("", Some (errors_New "EOF"))
         else ("", Some (errors_New "unexpected EOF"))).
  { unfold utils.AESEncrypt. rewrite Hkey, Hcipher.
    unfold utils.io_ReadFull, utils.NonceSize.
    destruct (12 <=? length random)%nat; [reflexivity|].
    destruct (length random =? 0)%nat; reflexivity. }
  split; [exact Hrun|].
  intros Hrand. rewrite Hrun.
  replace (12 <=? length random)%nat with true by (symmetry; apply Nat.leb_le; exact Hrand).
  cbn [fst]. rewrite Sprintf_x_length, length_app, length_take. lia.
Qed.

End CodecShape.

(** ** File names *)

Lemma index_last (l : list string) :
  l <> [] -> strings.index l (length l - 1) = Return (List.last l "").
Proof.
  induction l as [|x l IH]; [contradiction|]. intros _.
  destruct l as [|y l]; [reflexivity|].
  assert (Hne : y :: l <> []) by discriminate. specialize (IH Hne).
  unfold strings.index in *. cbn [length] in *.
  replace (S (S (length l)) - 1)%nat with (S (length l)) by lia.
  replace (S (length l) - 1)%nat with (length l) in IH by lia.
  cbn [lookup list_lookup]. change (List.last (x :: y :: l) "") with (List.last (y :: l) "").
  exact IH.
Qed.

Lemma Split_last (s : string) (sep : ascii) :
  strings.Contains (List.last (strings.Split s sep) "") sep = false
  /\ (strings.Contains s sep = false -> List.last (strings.Split s sep) "" = s)
  /\ (strings.Contains s sep = true ->
      exists stem, s = stem ++ String sep (List.last (strings.Split s sep) "")).
Proof.
  induction s as [|c s (IHclean & IHwhole & IHstem)]; cbn [strings.Split strings.Contains].
  - repeat split; [discriminate].
  - pose proof (Split_nonempty s sep) as Hne.
    destruct (Ascii.eqb c sep) eqn:Hc; cbn [orb].
    + apply Ascii.eqb_eq in Hc. subst c.
      destruct (strings.Split s sep) as [|p ps] eqn:Hsp; [contradiction|].
      change (List.last ("" :: p :: ps) "") with (List.last (p :: ps) "").
      repeat split; [exact IHclean|discriminate|]. intros _.
      destruct (strings.Contains s sep) eqn:Hs.
      * destruct (IHstem eq_refl) as [stem Hstem]. exists (String sep stem).
        rewrite append_cons, <- Hstem. reflexivity.
      * exists "". rewrite (IHwhole eq_refl). reflexivity.
    + destruct (strings.Split s sep) as [|p ps] eqn:Hsp; [contradiction|].
      destruct ps as [|p' ps].
      * assert (Hs : strings.Contains s sep = false).
        { destruct (strings.Contains s sep) eqn:Hs; [|reflexivity].
          destruct (Split_Contains _ _ Hs) as (? & ? & ? & Hsplit). congruence. }
        specialize (IHwhole Hs). cbn [List.last] in *. subst p.
        repeat split.
        -- cbn [strings.Contains]. rewrite Hc, Hs. reflexivity.
        -- intros Habs. congruence.
      * change (List.last (String c p :: p' :: ps) "") with (List.last (p :: p' :: ps) "").
        assert (Hs : strings.Contains s sep = true).
        { destruct (strings.Contains s sep) eqn:Hs; [reflexivity|].
          rewrite (Split_no_sep _ _ Hs) in Hsp. discriminate. }
        repeat split; [exact IHclean|intros Habs; congruence|]. intros _.
        destruct (IHstem Hs) as [stem Hstem]. exists (String c stem).
        rewrite append_cons, <- Hstem. reflexivity.
Qed.

(** X17.  [GetExtensions] returns on every name: the result holds no dot, the
    name ends with it, after a dot when the name holds one; a name
    without dot is returned whole. *)
Theorem GetExtensions_last_piece (filename : string) :
  exists ext,
    file.GetExtensions filename = Return ext
    /\ strings.Contains ext "." = false
    /\ (strings.Contains filename "." = false -> ext = filename)
    /\ (strings.Contains filename "." = true ->
        exists stem, filename = stem ++ "." ++ ext).
Proof.
  exists (List.last (strings.Split filename ".") "").
  split; [apply index_last, Split_nonempty|].
  apply Split_last.
Qed.

(** ** Paginated listing *)

Lemma Default_fields (req : dto_pagination.PaginationRequest) :
  dto_pagination.Default req
  = {| dto_pagination.Search := dto_pagination.Search req;
       dto_pagination.Page :=
         if dto_pagination.Page req =? 0 then 1 else dto_pagination.Page req;
       dto_pagination.PerPage :=
         if dto_pagination.PerPage req =? 0 then 10 else dto_pagination.PerPage req |}.
Proof.
  unfold dto_pagination.Default. destruct req as [search page perPage].
  cbn [dto_pagination.Page dto_pagination.PerPage dto_pagination.Search].
  destruct (page =? 0);
    cbn [dto_pagination.Page dto_pagination.PerPage dto_pagination.Search];
    destruct (perPage =? 0); reflexivity.
Qed.

(** X18.  The divisor of the page count is never zero.  [Default] leaves a
    request whose page and page size are not zero and which it does not
    change again; the listing reports that page and page size, and its
    page count is [TotalPage] of the count and of that page size, 10
    when the request gave none. *)
Theorem Default_guards_TotalPage (req : dto_pagination.PaginationRequest) :
  let req' := dto_pagination.Default req in
  dto_pagination.Page req' <> 0 /\ dto_pagination.PerPage req' <> 0
  /\ dto_pagination.Default req' = req'
  /\ (dto_pagination.PerPage req = 0 -> dto_pagination.PerPage req' = 10)
  /\ (dto_pagination.Page req = 0 -> dto_pagination.Page req' = 1)
  /\ (forall a Count Find users meta,
        user_repository.GetAllUserWithPagination a Count Find req = ((users, meta), None) ->
        dto_pagination.RPage meta = dto_pagination.Page req'
        /\ dto_pagination.RPerPage meta = dto_pagination.PerPage req'
        /\ dto_pagination.MaxPage meta
           = Pagination.TotalPage a (dto_pagination.Count meta) (dto_pagination.PerPage req')).
Proof.
  cbv zeta. repeat apply conj.
  - rewrite Default_fields. cbn [dto_pagination.Page].
    destruct (dto_pagination.Page req =? 0) eqn:Hp; [lia|]. apply Z.eqb_neq. exact Hp.
  - rewrite Default_fields. cbn [dto_pagination.PerPage].
    destruct (dto_pagination.PerPage req =? 0) eqn:Hp; [lia|]. apply Z.eqb_neq. exact Hp.
  - rewrite (Default_fields (dto_pagination.Default req)), (Default_fields req).
    cbn [dto_pagination.Page dto_pagination.PerPage dto_pagination.Search].
    destruct (dto_pagination.Page req =? 0) eqn:Hp,
             (dto_pagination.PerPage req =? 0) eqn:Hpp;
      cbn [Z.eqb]; rewrite ?Hp, ?Hpp; reflexivity.
  - intros Hz. rewrite Default_fields. cbn [dto_pagination.PerPage]. rewrite Hz. reflexivity.
  - intros Hz. rewrite Default_fields. cbn [dto_pagination.Page]. rewrite Hz. reflexivity.
  - intros a Count Find users meta. unfold user_repository.GetAllUserWithPagination.
    cbv zeta. repeat (case_match; try discriminate); intros [= <- <-]; cbn; auto.
Qed.

(** X19.  The windows of consecutive pages are adjacent.  For a page and a
    page size that are positive and whose product fits an [int], the
    scope sets the limit to the page size and the offset to that of
    [GetOffset], which is not negative and which the next page exceeds
    by exactly the page size. *)
Theorem Paginate_windows_tile (req : dto_pagination.PaginationRequest)
  (q : user_repository.Query) :
  1 <= dto_pagination.Page req -> 1 <= dto_pagination.PerPage req ->
  dto_pagination.Page req * dto_pagination.PerPage req <= Pagination.MaxInt64 ->
  let next := {| dto_pagination.Search := dto_pagination.Search req;
                 dto_pagination.Page := dto_pagination.Page req + 1;
                 dto_pagination.PerPage := dto_pagination.PerPage req |} in
  user_repository.window (user_repository.Paginate req q)
  = Some (dto_pagination.GetOffset req, dto_pagination.GetLimit req)
  /\ dto_pagination.GetOffset req
     = (dto_pagination.Page req - 1) * dto_pagination.PerPage req
  /\ 0 <= dto_pagination.GetOffset req
  /\ dto_pagination.GetOffset next
     = dto_pagination.GetOffset req + dto_pagination.GetLimit req
  /\ user_repository.like (user_repository.Paginate req q) = user_repository.like q.
Proof.
  intros Hp Hpp Hfit next. subst next.
  unfold user_repository.Paginate, dto_pagination.GetOffset, dto_pagination.GetLimit.
  cbn [user_repository.window user_repository.like dto_pagination.Page
         dto_pagination.PerPage].
  unfold Pagination.MaxInt64 in Hfit.
  assert (Hwrap : forall z, - 2 ^ 63 <= z < 2 ^ 63 -> wrap64 z = z).
  { intros z Hz. unfold wrap64. rewrite Z.mod_small by lia. lia. }
  assert (Hpage : dto_pagination.Page req <= 2 ^ 63 - 1) by nia.
  rewrite (Hwrap (dto_pagination.Page req - 1)) by lia.
  replace (dto_pagination.Page req + 1 - 1) with (dto_pagination.Page req) by lia.
  rewrite (Hwrap (dto_pagination.Page req)) by lia.
  rewrite (Hwrap ((dto_pagination.Page req - 1) * dto_pagination.PerPage req)) by nia.
  rewrite (Hwrap (dto_pagination.Page req * dto_pagination.PerPage req)) by nia.
  repeat split; try reflexivity; nia.
Qed.

(** X20.  The copy of [TotalPage] that the integration tests compute with is
    the ceiling of the quotient: for a count that is not negative and a
    positive page size whose sum fits an [int64], the result is the
    least number of pages that hold the count; for the page size zero it
    is zero. *)
Theorem TotalPage_integration_ceiling (count perPage : Z) :
  0 <= count -> 0 < perPage -> count + perPage <= Pagination.MaxInt64 ->
  let n := Pagination.TotalPage_integration count perPage in
  n = Pagination.ceil_div count perPage
  /\ count <= n * perPage /\ (n - 1) * perPage < count
  /\ Pagination.TotalPage_integration count 0 = 0.
Proof.
  intros Hc Hp Hfit n. subst n. unfold Pagination.MaxInt64 in Hfit.
  unfold Pagination.TotalPage_integration, Pagination.ceil_div.
  replace (perPage =? 0) with false by (symmetry; apply Z.eqb_neq; lia).
  assert (Hwrap : forall z, - 2 ^ 63 <= z < 2 ^ 63 -> wrap64 z = z).
  { intros z Hz. unfold wrap64. rewrite Z.mod_small by lia. lia. }
  rewrite (Hwrap (count + perPage)) by lia.
  rewrite (Hwrap (count + perPage - 1)) by lia.
  rewrite Z.quot_div_nonneg by lia.
  assert (Hq : 0 <= (count + perPage - 1) / perPage <= count + perPage - 1).
  { split; [apply Z.div_pos; lia|]. apply Z.div_le_upper_bound; nia. }
  rewrite (Hwrap ((count + perPage - 1) / perPage)) by lia.
  pose proof (Z.div_mod (count + perPage - 1) perPage ltac:(lia)) as Hdm.
  pose proof (Z.mod_pos_bound (count + perPage - 1) perPage ltac:(lia)) as Hm.
  repeat split; try reflexivity; nia.
Qed.

(* ===================================================================== *)
(** * Further properties of the session token issuer                      *)
(* ===================================================================== *)

Section IssuerReads.

Variable DecodeSegment : string -> list byte * option error.
Variable json_Unmarshal : list byte -> gmap string jwt.json * option error.
Variable json_Decode_custom : list byte -> jwt.jwtCustomClaim * option error.
Variable Claims_Valid : jwt.Claims -> option error.
Variable Method_Verify : jwt.SigningMethod -> string -> string -> list byte -> option error.
Variable j : jwtService.t.
Variable j2 : jwtService2.t.

#[local] Abbreviation Validate1 :=
  (jwtService.ValidateToken DecodeSegment json_Unmarshal json_Decode_custom
     Claims_Valid Method_Verify j).
#[local] Abbreviation Validate2 :=
  (jwtService2.ValidateToken DecodeSegment json_Unmarshal json_Decode_custom
     Claims_Valid Method_Verify j2).
#[local] Abbreviation GetUserID2 :=
  (jwtService2.GetUserIDByToken DecodeSegment json_Unmarshal json_Decode_custom
     Claims_Valid Method_Verify j2).

(** The claims of a parsed token are of the kind asked for. *)
Lemma ParseUnverified_claims token k tok parts :
  jwt.ParseUnverified DecodeSegment json_Unmarshal json_Decode_custom token k
  = inl (tok, parts) ->
  match k with
  | jwt.IntoMapClaims => exists m, jwt.TokenClaims tok = jwt.MapClaims m
  | jwt.IntoCustomClaims => exists c, jwt.TokenClaims tok = jwt.CustomClaims c
  end.
Proof.
  unfold jwt.ParseUnverified, jwt.decode_claims.
  destruct k; repeat (case_match; try discriminate); intros; simplify_eq; cbn; eauto.
Qed.

(** X21.  Reading the user id.  [GetUserIDByToken] of both documents returns
    on every token, with the error of [ValidateToken] and the empty id
    when the token is refused.  For a token that validates, the first
    document returns the field [UserID] of the claims, and never the
    error "invalid token claims"; the second returns the claim
    "user_id" when it is a string and, with a nil error, the text
    "<nil>" when the claims hold none. *)
Theorem GetUserIDByToken_reads (token : string) :
  (forall tok e,
      Validate1 token = (tok, Some e) ->
      jwtService.GetUserIDByToken DecodeSegment json_Unmarshal json_Decode_custom
        Claims_Valid Method_Verify j token
      = Return ("", Some e))
  /\ (forall tok,
        Validate1 token = (Some tok, None) ->
        exists c,
          jwt.TokenClaims tok = jwt.CustomClaims c
          /\ jwtService.GetUserIDByToken DecodeSegment json_Unmarshal json_Decode_custom
               Claims_Valid Method_Verify j token
             = Return (jwt.UserID c, None))
  /\ (forall e,
        Validate2 token = inr e ->
        jwtService2.GetUserIDByToken DecodeSegment json_Unmarshal json_Decode_custom
          Claims_Valid Method_Verify j2 token
        = Return ("", Some e))
  /\ (forall tok,
        Validate2 token = inl tok ->
        exists m,
          jwt.TokenClaims tok = jwt.MapClaims m
          /\ (forall s, m !! "user_id" = Some (jwt.JString s) -> GetUserID2 token = Return (s, None))
          /\ (m !! "user_id" = None -> GetUserID2 token = Return ("<nil>", None))).
Proof.
  repeat apply conj.
  - intros tok e Hv. unfold jwtService.GetUserIDByToken. rewrite Hv.
    destruct tok; reflexivity.
  - intros tok Hv. unfold jwtService.GetUserIDByToken. rewrite Hv.
    unfold jwtService.ValidateToken in Hv.
    destruct (String.eqb token ""); [discriminate|].
    destruct (negb _); [discriminate|].
    destruct (jwt.ParseWithClaims _ _ _ _ _ token jwt.IntoCustomClaims _)
      as [parsed|e] eqn:Hp; [|discriminate].
    destruct (negb (jwt.Valid parsed)); [discriminate|].
    injection Hv as <-.
    destruct (ParseWithClaims_inl _ _ _ _ _ _ _ _ _ Hp) as (tok0 & parts & key & Hu & _ & _ & Hc & _).
    destruct (ParseUnverified_claims _ _ _ _ Hu) as [c Hc0].
    exists c. rewrite Hc, Hc0. split; reflexivity.
  - intros e Hv. unfold jwtService2.GetUserIDByToken. rewrite Hv. reflexivity.
  - intros tok Hv. unfold jwtService2.GetUserIDByToken. rewrite Hv.
    unfold jwtService2.ValidateToken, jwt.Parse in Hv.
    destruct (ParseWithClaims_inl _ _ _ _ _ _ _ _ _ Hv) as (tok0 & parts & key & Hu & _ & _ & Hc & _).
    destruct (ParseUnverified_claims _ _ _ _ Hu) as [m Hm].
    exists m. rewrite Hc, Hm. cbn [jwtService2.assert_MapClaims bind_outcome].
    repeat split.
    + intros s ->. reflexivity.
    + intros ->. reflexivity.
Qed.

End IssuerReads.

(* ===================================================================== *)
(** * Issued tokens are accepted                                          *)
(* ===================================================================== *)

Section IssueProperties.

Variable EncodeSegment : list byte -> string.
Variable DecodeSegment : string -> list byte * option error.
Variable json_Marshal_header : gmap string jwt.json -> list byte * option error.
Variable json_Marshal_claims : jwt.Claims -> list byte * option error.
Variable json_Unmarshal : list byte -> gmap string jwt.json * option error.
Variable json_Decode_custom : list byte -> jwt.jwtCustomClaim * option error.
Variable Claims_Valid : jwt.Claims -> option error.
Variable Method_Sign : jwt.SigningMethod -> string -> list byte -> string * option error.
Variable Method_Verify : jwt.SigningMethod -> string -> string -> list byte -> option error.

(** The contracts of the collaborators: a segment decodes to what was
    encoded and holds no dot; what was marshalled is read back, the
    header with its "alg", the claims with their user id and role, as a
    struct and as a map; a signature verifies under the key it was made
    with and holds no dot. *)
Hypothesis Decode_Encode : forall b, DecodeSegment (EncodeSegment b) = (b, None).
Hypothesis Encode_no_dot : forall b, strings.Contains (EncodeSegment b) "." = false.
Hypothesis Unmarshal_header : forall h b,
  json_Marshal_header h = (b, None) ->
  exists h', json_Unmarshal b = (h', None) /\ h' !! "alg" = h !! "alg".
Hypothesis Decode_claims : forall c b,
  json_Marshal_claims (jwt.CustomClaims c) = (b, None) ->
  exists c', json_Decode_custom b = (c', None)
             /\ jwt.UserID c' = jwt.UserID c /\ jwt.Role c' = jwt.Role c.
Hypothesis Unmarshal_claims : forall c b,
  json_Marshal_claims (jwt.CustomClaims c) = (b, None) ->
  exists m, json_Unmarshal b = (m, None)
            /\ m !! "user_id" = Some (jwt.JString (jwt.UserID c))
            /\ m !! "role" = Some (jwt.JString (jwt.Role c)).
Hypothesis Verify_Sign : forall m s key sig,
  Method_Sign m s key = (sig, None) ->
  Method_Verify m s sig key = None /\ strings.Contains sig "." = false.

#[local] Abbreviation SignedString :=
  (jwt_signing.SignedString EncodeSegment json_Marshal_header json_Marshal_claims Method_Sign).
#[local] Abbreviation ParseWithClaims :=
  (jwt.ParseWithClaims DecodeSegment json_Unmarshal json_Decode_custom
     Claims_Valid Method_Verify).

(** What [SignedString] returns for HS256 and custom claims: no text
    with an error, or three segments without dot. *)
Lemma SignedString_shape (c : jwt.jwtCustomClaim) (key : list byte) (tx : string)
  (err : option error) :
  SignedString (jwt_signing.NewWithClaims jwt.HS256 (jwt.CustomClaims c)) key = (tx, err) ->
  (err <> None /\ tx = "")
  \/ (err = None
      /\ exists hb cb sig,
           json_Marshal_header
             (jwt.Header (jwt_signing.NewWithClaims jwt.HS256 (jwt.CustomClaims c)))
           = (hb, None)
           /\ json_Marshal_claims (jwt.CustomClaims c) = (cb, None)
           /\ Method_Sign jwt.HS256 (EncodeSegment hb ++ "." ++ EncodeSegment cb) key
              = (sig, None)
           /\ tx = (EncodeSegment hb ++ "." ++ EncodeSegment cb) ++ "." ++ sig
           /\ strings.Split tx "." = [EncodeSegment hb; EncodeSegment cb; sig]).
Proof.
  unfold jwt_signing.SignedString, jwt_signing.SigningString.
  cbn [jwt.Header jwt.TokenClaims jwt.Method jwt_signing.NewWithClaims].
  destruct (json_Marshal_header _) as [hb [e|]] eqn:Hh;
    [intros [= <- <-]; left; split; [discriminate|reflexivity]|].
  destruct (json_Marshal_claims _) as [cb [e|]] eqn:Hc;
    [intros [= <- <-]; left; split; [discriminate|reflexivity]|].
  cbn [strings.Join].
  destruct (Method_Sign _ _ _) as [sig [e|]] eqn:Hs;
    [intros [= <- <-]; left; split; [discriminate|reflexivity]|].
  intros [= <- <-]. right. split; [reflexivity|].
  exists hb, cb, sig. repeat split; try reflexivity; try assumption.
  destruct (Verify_Sign _ _ _ _ Hs) as [_ Hsig].
  change ("." ++ sig) with (String "." sig).
  rewrite Split_app_sep.
  change ("." ++ EncodeSegment cb) with (String "." (EncodeSegment cb)).
  rewrite Split_app_sep.
  rewrite !Split_no_sep by (apply Encode_no_dot || exact Hsig). reflexivity.
Qed.

(** A text of three segments is not empty. *)
Lemma three_segments_nonempty (tx a b c : string) :
  strings.Split tx "." = [a; b; c] -> String.eqb tx "" = false.
Proof. destruct tx; [discriminate|reflexivity]. Qed.

(** What the parser makes of a signed text, when the claims it reads
    from the text pass the validation. *)
Lemma ParseWithClaims_signed (c : jwt.jwtCustomClaim) (key : list byte) (tx : string)
  (k : jwt.ClaimsKind) (keyFunc : jwt.Keyfunc) (claims : jwt.Claims) (cb : list byte) :
  SignedString (jwt_signing.NewWithClaims jwt.HS256 (jwt.CustomClaims c)) key = (tx, None) ->
  json_Marshal_claims (jwt.CustomClaims c) = (cb, None) ->
  jwt.decode_claims json_Unmarshal json_Decode_custom k cb = (claims, None) ->
  (forall tok, jwt.Method tok = jwt.HS256 -> keyFunc tok = (key, None)) ->
  (forall tok parts,
      jwt.ParseUnverified DecodeSegment json_Unmarshal json_Decode_custom tx k
      = inl (tok, parts) ->
      Claims_Valid (jwt.TokenClaims tok) = None) ->
  exists tok,
    ParseWithClaims tx k keyFunc = inl tok
    /\ jwt.Method tok = jwt.HS256 /\ jwt.TokenClaims tok = claims /\ jwt.Valid tok = true.
Proof.
  intros Hsigned Hcb Hdecode Hkey Hvalid.
  destruct (SignedString_shape _ _ _ _ Hsigned) as [[Habs _]|[_ Hshape]]; [congruence|].
  destruct Hshape as (hb & cb' & sig & Hh & Hc & Hs & Htx & Hsplit).
  assert (cb' = cb) by congruence. subst cb'.
  destruct (Unmarshal_header _ _ Hh) as (h' & Hh' & Halg).
  destruct (Verify_Sign _ _ _ _ Hs) as [Hverify _].
  assert (Hread : jwt.ParseUnverified DecodeSegment json_Unmarshal json_Decode_custom tx k
                  = inl ({| jwt.Raw := tx; jwt.Method := jwt.HS256; jwt.Header := h';
                            jwt.TokenClaims := claims; jwt.Signature := "";
                            jwt.Valid := false |},
                         [EncodeSegment hb; EncodeSegment cb; sig])).
  { unfold jwt.ParseUnverified. rewrite Hsplit.
    rewrite !Decode_Encode, Hh', Hdecode, Halg.
    cbn [jwt.Header jwt_signing.NewWithClaims jwt.Alg].
    rewrite lookup_insert_ne by discriminate. rewrite lookup_singleton.
    rewrite decide_True by reflexivity.
    change (jwt.GetSigningMethod "HS256") with (Some jwt.HS256). reflexivity. }
  pose proof (Hvalid _ _ Hread) as Hok. cbn [jwt.TokenClaims] in Hok.
  unfold jwt.ParseWithClaims. rewrite Hread.
  rewrite Hkey by reflexivity.
  cbn [jwt.Method jwt.Raw jwt.Header jwt.TokenClaims take strings.Join lookup list_lookup
         default].
  unfold id. rewrite Hverify, Hok. eexists. split; [reflexivity|]. cbn. auto.
Qed.

#[local] Abbreviation ParseUnverified :=
  (jwt.ParseUnverified DecodeSegment json_Unmarshal json_Decode_custom).
#[local] Abbreviation ValidateToken1 :=
  (jwtService.ValidateToken DecodeSegment json_Unmarshal json_Decode_custom
     Claims_Valid Method_Verify).
#[local] Abbreviation GetUserIDByToken1 :=
  (jwtService.GetUserIDByToken DecodeSegment json_Unmarshal json_Decode_custom
     Claims_Valid Method_Verify).
#[local] Abbreviation ValidateToken2 :=
  (jwtService2.ValidateToken DecodeSegment json_Unmarshal json_Decode_custom
     Claims_Valid Method_Verify).
#[local] Abbreviation GetUserIDByToken2 :=
  (jwtService2.GetUserIDByToken DecodeSegment json_Unmarshal json_Decode_custom
     Claims_Valid Method_Verify).
#[local] Abbreviation GetRoleByToken2 :=
  (jwtService2.GetRoleByToken DecodeSegment json_Unmarshal json_Decode_custom
     Claims_Valid Method_Verify).
#[local] Abbreviation GenerateAccessToken1 :=
  (jwtService_gen.GenerateAccessToken EncodeSegment json_Marshal_header json_Marshal_claims
     Method_Sign).
#[local] Abbreviation GenerateToken2 :=
  (jwtService2_gen.GenerateToken EncodeSegment json_Marshal_header json_Marshal_claims
     Method_Sign).
#[local] Abbreviation GenerateAccessToken2 :=
  (jwtService2_gen.GenerateAccessToken).

(** The first document accepts what it signed with the same key, when
    the claims it reads from the text are valid. *)
Lemma signed_validates1 (j : jwtService.t) (c : jwt.jwtCustomClaim) (tx : string) :
  SignedString (jwt_signing.NewWithClaims jwt.HS256 (jwt.CustomClaims c))
    (list_byte_of_string (jwtService.secretKey j)) = (tx, None) ->
  (forall tok parts, ParseUnverified tx jwt.IntoCustomClaims = inl (tok, parts) ->
     Claims_Valid (jwt.TokenClaims tok) = None) ->
  exists tok c',
    ValidateToken1 j tx = (Some tok, None)
    /\ jwt.Method tok = jwt.HS256 /\ jwt.TokenClaims tok = jwt.CustomClaims c'
    /\ jwt.UserID c' = jwt.UserID c /\ jwt.Role c' = jwt.Role c
    /\ GetUserIDByToken1 j tx = Return (jwt.UserID c, None).
Proof.
  intros Hsigned Hvalid.
  destruct (SignedString_shape _ _ _ _ Hsigned) as [[Habs _]|[_ Hshape]]; [congruence|].
  destruct Hshape as (hb & cb & sig & _ & Hc & _ & _ & Hsplit).
  destruct (Decode_claims _ _ Hc) as (c' & Hdec & Hid & Hrole).
  destruct (ParseWithClaims_signed c _ tx jwt.IntoCustomClaims (jwtService.keyFunc j)
              (jwt.CustomClaims c') cb Hsigned Hc) as (tok & Hparse & Hm & Hclaims & Hv).
  - unfold jwt.decode_claims. rewrite Hdec. reflexivity.
  - intros tok Hm. rewrite keyFunc_HS256, bool_decide_eq_true_2 by exact Hm. reflexivity.
  - exact Hvalid.
  - assert (Hrun : ValidateToken1 j tx = (Some tok, None)).
    { unfold jwtService.ValidateToken.
      rewrite (three_segments_nonempty _ _ _ _ Hsplit), Hsplit. cbn [length Nat.eqb negb].
      rewrite Hparse, Hv. reflexivity. }
    exists tok, c'. repeat split; try assumption.
    unfold jwtService.GetUserIDByToken. rewrite Hrun, Hclaims, Hid. reflexivity.
Qed.

(** The second document accepts what it signed with the same key, when
    the claims it reads from the text are valid, and reads the user id
    and the role. *)
Lemma signed_validates2 (j2 : jwtService2.t) (c : jwt.jwtCustomClaim) (tx : string) :
  SignedString (jwt_signing.NewWithClaims jwt.HS256 (jwt.CustomClaims c))
    (list_byte_of_string (jwtService2.secretKey j2)) = (tx, None) ->
  (forall tok parts, ParseUnverified tx jwt.IntoMapClaims = inl (tok, parts) ->
     Claims_Valid (jwt.TokenClaims tok) = None) ->
  (exists tok, ValidateToken2 j2 tx = inl tok /\ jwt.Method tok = jwt.HS256)
  /\ GetUserIDByToken2 j2 tx = Return (jwt.UserID c, None)
  /\ GetRoleByToken2 j2 tx = Return (jwt.Role c, None).
Proof.
  intros Hsigned Hvalid.
  destruct (SignedString_shape _ _ _ _ Hsigned) as [[Habs _]|[_ Hshape]]; [congruence|].
  destruct Hshape as (hb & cb & sig & _ & Hc & _ & _ & Hsplit).
  destruct (Unmarshal_claims _ _ Hc) as (m & Hdec & Hid & Hrole).
  destruct (ParseWithClaims_signed c _ tx jwt.IntoMapClaims (jwtService2.parseToken j2)
              (jwt.MapClaims m) cb Hsigned Hc) as (tok & Hparse & Hm & Hclaims & Hv).
  - unfold jwt.decode_claims. rewrite Hdec. reflexivity.
  - intros tok Hm. unfold jwtService2.parseToken. rewrite Hm. reflexivity.
  - exact Hvalid.
  - assert (Hrun : ValidateToken2 j2 tx = inl tok) by exact Hparse.
    split; [eauto|].
    unfold jwtService2.GetUserIDByToken, jwtService2.GetRoleByToken.
    rewrite Hrun, Hclaims. cbn [jwtService2.assert_MapClaims bind_outcome].
    rewrite Hid, Hrole. split; reflexivity.
Qed.

(** X22.  Access tokens of the first document round-trip.  Under the
    contracts of the collaborators, [GenerateAccessToken] returns the
    empty text exactly when marshalling or signing failed, and
    [ValidateToken] then answers "token is empty"; otherwise, whenever
    the claims that the parser reads from the token are valid at the
    time of the check, [ValidateToken] accepts the token as one signed
    with HS256 that carries the user id and the role, and
    [GetUserIDByToken] returns the user id. *)
Theorem GenerateAccessToken_validates (j : jwtService.t) (now_exp now_iat : Time)
  (userId role : string) :
  let token := GenerateAccessToken1 j now_exp now_iat userId role in
  let signed :=
    SignedString
      (jwt_signing.NewWithClaims jwt.HS256
         (jwt.CustomClaims (jwtService_gen.access_claims j now_exp now_iat userId role)))
      (list_byte_of_string (jwtService.secretKey j)) in
  (snd signed <> None /\ token = ""
   /\ ValidateToken1 j token = (None, Some (errors_New "token is empty")))
  \/ (snd signed = None
      /\ ((forall tok parts,
              ParseUnverified token jwt.IntoCustomClaims = inl (tok, parts) ->
              Claims_Valid (jwt.TokenClaims tok) = None) ->
          exists tok c,
            ValidateToken1 j token = (Some tok, None)
            /\ jwt.Method tok = jwt.HS256 /\ jwt.TokenClaims tok = jwt.CustomClaims c
            /\ jwt.UserID c = userId /\ jwt.Role c = role
            /\ GetUserIDByToken1 j token = Return (userId, None))).
Proof.
  intros token signed. subst token signed.
  unfold jwtService_gen.GenerateAccessToken.
  destruct (SignedString _ _) as [tx err] eqn:Hsigned. cbn [snd].
  destruct (SignedString_shape _ _ _ _ Hsigned) as [[Herr ->]|[-> _]].
  - left. split; [exact Herr|]. split; reflexivity.
  - right. split; [reflexivity|]. intros Hvalid.
    exact (signed_validates1 j _ tx Hsigned Hvalid).
Qed.

(** X23.  Tokens of the second document round-trip.  Under the contracts
    of the collaborators, a token that [GenerateAccessToken] returned
    without error, and a token of [GenerateToken] that is not empty, is
    accepted by [ValidateToken] as signed with HS256 whenever the claims
    that the parser reads from it are valid at the time of the check;
    [GetUserIDByToken] then returns the user id and [GetRoleByToken] the
    role, without panic. *)
Theorem GenerateAccessToken2_validates (a : Pagination.GOARCH) (j2 : jwtService2.t)
  (now_1 now_2 now_3 : Time) (userID role : string) :
  (forall token expiresIn,
      GenerateAccessToken2 a EncodeSegment json_Marshal_header json_Marshal_claims
        Method_Sign j2 now_1 now_2 now_3 userID role = (token, expiresIn, None) ->
      (forall tok parts,
          ParseUnverified token jwt.IntoMapClaims = inl (tok, parts) ->
          Claims_Valid (jwt.TokenClaims tok) = None) ->
      (exists tok, ValidateToken2 j2 token = inl tok /\ jwt.Method tok = jwt.HS256)
      /\ GetUserIDByToken2 j2 token = Return (userID, None)
      /\ GetRoleByToken2 j2 token = Return (role, None))
  /\ (forall token,
        GenerateToken2 j2 now_1 now_2 userID role = token -> token <> "" ->
        (forall tok parts,
            ParseUnverified token jwt.IntoMapClaims = inl (tok, parts) ->
            Claims_Valid (jwt.TokenClaims tok) = None) ->
        (exists tok, ValidateToken2 j2 token = inl tok /\ jwt.Method tok = jwt.HS256)
        /\ GetUserIDByToken2 j2 token = Return (userID, None)
        /\ GetRoleByToken2 j2 token = Return (role, None)).
Proof.
  split.
  - intros token expiresIn. unfold jwtService2_gen.GenerateAccessToken.
    destruct (SignedString _ _) as [tx [e|]] eqn:Hsigned; [discriminate|].
    intros [= <- _] Hvalid.
    exact (signed_validates2 j2 _ tx Hsigned Hvalid).
  - intros token. unfold jwtService2_gen.GenerateToken.
    destruct (SignedString _ _) as [tx err] eqn:Hsigned. intros <- Hne Hvalid.
    destruct (SignedString_shape _ _ _ _ Hsigned) as [[_ ->]|[-> _]]; [contradiction|].
    exact (signed_validates2 j2 _ tx Hsigned Hvalid).
Qed.

(** X24.  The access token of a login names the user that logged in.
    When [userService.Verify], with the issuer of the first document,
    succeeds, its access token is empty (the signature failed, which is
    only logged) or, whenever the claims that the parser reads from it
    are valid at the time of the check, [GetUserIDByToken] reads from it
    the id of the user found under the email; when [authService.Login],
    with the issuer of the second document, succeeds, then under the
    same condition [GetUserIDByToken] and [GetRoleByToken] read from its
    access token the id and the role of that user. *)
Theorem login_token_names_user (bcrypt : list byte -> list byte -> option error)
  (f : repository.Faults) (db db' : repository.DB) (req : dto.UserLoginRequest) :
  (forall j now_exp now_iat rt resp,
      userService.Verify bcrypt
        {| userService.GenerateAccessToken := GenerateAccessToken1 j now_exp now_iat;
           userService.GenerateRefreshToken := rt |} f db req = ((resp, None), db') ->
      exists user,
        repository.GetUserByEmail (repository.on_GetUser f) db (dto.Email req) = (user, None)
        /\ (dto.AccessToken resp = ""
            \/ ((forall tok parts,
                    ParseUnverified (dto.AccessToken resp) jwt.IntoCustomClaims
                    = inl (tok, parts) ->
                    Claims_Valid (jwt.TokenClaims tok) = None) ->
                GetUserIDByToken1 j (dto.AccessToken resp) = Return (entity.ID user, None))))
  /\ (forall a j2 now_1 now_2 now_3 cfg now_issue uuid e1 e2 resp,
        authService.Login bcrypt
          {| authService.GenerateAccessToken :=
               GenerateAccessToken2 a EncodeSegment json_Marshal_header json_Marshal_claims
                 Method_Sign j2 now_1 now_2 now_3 |}
          cfg now_issue uuid e1 e2 f db req = ((resp, None), db') ->
        exists user,
          repository.GetUserByEmail (repository.on_GetUser f) db (dto.Email req) = (user, None)
          /\ ((forall tok parts,
                  ParseUnverified (dto_auth.AccessToken resp) jwt.IntoMapClaims
                  = inl (tok, parts) ->
                  Claims_Valid (jwt.TokenClaims tok) = None) ->
              GetUserIDByToken2 j2 (dto_auth.AccessToken resp)
              = Return (entity.ID user, None)
              /\ GetRoleByToken2 j2 (dto_auth.AccessToken resp)
                 = Return (entity.Role user, None))).
Proof.
  split.
  - intros j now_exp now_iat rt resp.
    unfold userService.Verify, repository.Begin, repository.Rollback, repository.Commit.
    cbn [userService.GenerateAccessToken userService.GenerateRefreshToken].
    destruct (repository.GetUserByEmail _ db _) as [user [e|]] eqn:Hget; [discriminate|].
    destruct (helpers.CheckPassword _ _ _) as [ok err].
    destruct (bool_decide (is_Some err) || negb ok); [discriminate|].
    destruct rt as [tok exp].
    destruct (repository.DeleteByUserID _ db _) as [[e|] tx]; [discriminate|].
    destruct (repository.Create _ tx _) as [[out [e|]] tx']; [discriminate|].
    destruct (repository.on_Commit f); [discriminate|].
    intros [= <- _]. exists user. split; [reflexivity|]. cbn [dto.AccessToken].
    unfold jwtService_gen.GenerateAccessToken.
    destruct (SignedString _ _) as [token err'] eqn:Hsigned.
    destruct (SignedString_shape _ _ _ _ Hsigned) as [[_ ->]|[-> _]]; [left; reflexivity|].
    right. intros Hvalid.
    destruct (signed_validates1 j _ token Hsigned Hvalid)
      as (tok0 & c & _ & _ & _ & _ & _ & Hread).
    exact Hread.
  - intros a j2 now_1 now_2 now_3 cfg now_issue uuid e1 e2 resp.
    unfold authService.Login. rewrite CheckEmail_GetUserByEmail.
    cbn [authService.GenerateAccessToken].
    destruct (repository.GetUserByEmail _ db _) as [user [e|]] eqn:Hget; [discriminate|].
    cbn [bool_decide negb orb].
    destruct (entity.IsVerified user); [|discriminate]. cbn [negb].
    destruct (helpers.CheckPassword _ _ _) as [ok err].
    destruct (bool_decide (is_Some err) || negb ok); [discriminate|].
    destruct (GenerateAccessToken2 _ _ _ _ _ _ _ _ _ _ _) as [[token expiresIn] [e|]] eqn:Hgen;
      [discriminate|].
    destruct (repository.DeleteRefreshTokensByUserID _ db _) as [de db1].
    destruct (repository.CreateRefreshToken _ db1 _) as [[out [e|]] db2]; [discriminate|].
    intros [= <- _]. exists user. split; [reflexivity|]. cbn [dto_auth.AccessToken].
    unfold jwtService2_gen.GenerateAccessToken in Hgen.
    destruct (SignedString _ _) as [tx [e|]] eqn:Hsigned; [discriminate|].
    injection Hgen as <- _. intros Hvalid.
    destruct (signed_validates2 j2 _ tx Hsigned Hvalid) as (_ & Hid & Hrole).
    split; assumption.
Qed.

End IssueProperties.

(* ===================================================================== *)
(** * Further properties: profile and log pages                           *)
(* ===================================================================== *)

Lemma ReverseSlice_loop_rev (done rest : list string) :
  routes.ReverseSlice_loop (Z.of_nat (length done + length rest)) (Z.of_nat (length done))
    rest (replicate (length rest) "" ++ rev done)%list
  = Return (rev rest ++ rev done)%list.
Proof.
  revert done. induction rest as [|v rest IH]; intros done; [reflexivity|].
  cbn [routes.ReverseSlice_loop length].
  rewrite length_app, length_replicate, length_rev. cbn [length].
  replace (Z.of_nat (length done + S (length rest)) - 1 - Z.of_nat (length done))
    with (Z.of_nat (length rest)) by lia.
  replace ((0 <=? Z.of_nat (length rest))
           && (Z.of_nat (length rest) <? Z.of_nat (S (length rest) + length done)))
    with true by (symmetry; apply andb_true_iff; split; [apply Z.leb_le|apply Z.ltb_lt]; lia).
  rewrite Nat2Z.id.
  replace (<[length rest := v]> (replicate (S (length rest)) "" ++ rev done)%list)
    with (replicate (length rest) "" ++ rev (done ++ [v]))%list.
  - specialize (IH (done ++ [v])%list). rewrite length_app in IH. cbn [length] in IH.
    replace (Z.of_nat (length done + 1 + length rest))
      with (Z.of_nat (length done + S (length rest))) in IH by lia.
    replace (Z.of_nat (length done + 1)) with (Z.of_nat (length done) + 1) in IH by lia.
    rewrite IH, rev_app_distr. cbn [rev app]. rewrite <- app_assoc. reflexivity.
  - rewrite rev_app_distr. cbn [rev app].
    rewrite insert_app_l by (rewrite length_replicate; lia).
    replace (S (length rest)) with (length rest + 1)%nat by lia.
    rewrite replicate_add. cbn [replicate].
    rewrite insert_app_r_alt by (rewrite length_replicate; lia).
    rewrite length_replicate, Nat.sub_diag. cbn. rewrite <- app_assoc. reflexivity.
Qed.

(** X27.  [ReverseSlice] returns on every slice, never writing out of
    range, and the slice it returns holds the elements of the input in
    the opposite order; reversing twice gives the input back. *)
Theorem ReverseSlice_rev (input : list string) :
  routes.ReverseSlice input = Return (rev input)
  /\ bind_outcome (routes.ReverseSlice input) routes.ReverseSlice = Return input.
Proof.
  assert (Hrev : forall l, routes.ReverseSlice l = Return (rev l)).
  { intros l. unfold routes.ReverseSlice. rewrite Nat2Z.id.
    pose proof (ReverseSlice_loop_rev [] l) as H. cbn [length rev] in H.
    rewrite !app_nil_r in H. exact H. }
  split; [apply Hrev|].
  rewrite Hrev. cbn [bind_outcome]. rewrite Hrev, rev_involutive. reflexivity.
Qed.

Section ProfileProperties.

Variable f : repository.Faults.

(** X26.  Update, then read.  An [Update] that fails stores nothing.
    After one that succeeds, the refresh tokens are unchanged and
    [GetUserById], with a working lookup, returns the user with the
    name, phone and email of the request where the request gave one and
    the stored value where it gave the empty text, and with the stored
    role, image and flag; the response of [Update] echoes the request,
    so it shows an empty text where the stored value was kept. *)
Theorem Update_then_GetUserById (db db' : repository.DB)
  (req : userService_profile.UserUpdateRequest) (userId : string)
  (resp : userService_profile.UserUpdateResponse) (err : option error) :
  userService_profile.Update f db req userId = ((resp, err), db') ->
  (err <> None -> db' = db /\ resp = userService_profile.UserUpdateResponse_zero)
  /\ (err = None ->
      exists user,
        repository.GetUserById (repository.on_GetUser f) db userId = (user, None)
        /\ repository.refresh_tokens db' = repository.refresh_tokens db
        /\ resp = {| userService_profile.UID := userId;
                     userService_profile.UName := userService_profile.Name req;
                     userService_profile.UPhoneNumber := userService_profile.PhoneNumber req;
                     userService_profile.URole := entity.Role user;
                     userService_profile.UEmail := userService_profile.Email req;
                     userService_profile.UIsVerified := entity.IsVerified user |}
        /\ userService_profile.GetUserById f db' userId
           = ({| userService_profile.RID := userId;
                 userService_profile.RName :=
                   repository.nonzero (userService_profile.Name req) (entity.Name user);
                 userService_profile.REmail :=
                   repository.nonzero (userService_profile.Email req) (entity.Email user);
                 userService_profile.RPhoneNumber :=
                   repository.nonzero (userService_profile.PhoneNumber req)
                     (entity.TelpNumber user);
                 userService_profile.RRole := entity.Role user;
                 userService_profile.RImageUrl := entity.ImageUrl user;
                 userService_profile.RIsVerified := entity.IsVerified user |}, None)).
Proof.
  unfold userService_profile.Update.
  destruct (repository.GetUserById _ db userId) as [user [e|]] eqn:Hget.
  { intros [= <- <- <-]. split; [auto|discriminate]. }
  unfold repository.Update.
  destruct (repository.on_Update f) eqn:Hupd.
  { intros [= <- <- <-]. split; [auto|discriminate]. }
  intros [= <- <- <-]. split; [intros H; contradiction|]. intros _.
  exists user. split; [reflexivity|]. split; [reflexivity|].
  pose proof Hget as Hfound. apply GetUserById_found in Hfound.
  cbn [entity.ID entity.Name entity.TelpNumber entity.Role entity.Email].
  split; [rewrite Hfound; reflexivity|].
  unfold userService_profile.GetUserById, repository.GetUserById, repository.take_user
    in Hget |- *.
  destruct (repository.on_GetUser f); [discriminate|].
  destruct (List.find _ (repository.users db)) as [found|] eqn:Hfind; [|discriminate].
  injection Hget as ->. cbn [repository.users].
  rewrite find_map_preserved.
  - rewrite Hfind. cbn [option_map]. unfold repository.updates.
    cbn [entity.ID entity.Name entity.TelpNumber entity.Role entity.Email entity.Password
           entity.ImageUrl entity.IsVerified].
    rewrite String.eqb_refl.
    cbn [entity.ID entity.Name entity.TelpNumber entity.Role entity.Email entity.Password
           entity.ImageUrl entity.IsVerified orb].
    rewrite Hfound. f_equal. f_equal.
    unfold repository.nonzero. destruct (String.eqb (entity.Role user) ""); reflexivity.
  - intros row. unfold repository.updates. cbn [entity.ID].
    destruct (String.eqb (entity.ID row) (entity.ID user)); reflexivity.
Qed.

End ProfileProperties.

(* ===================================================================== *)
(** * Further properties: the verification mail                           *)
(* ===================================================================== *)

Ltac mail_error :=
  do 2 eexists; split; [reflexivity|];
  split; [intros ? ? ?; first [reflexivity | discriminate]|];
  split; [reflexivity | discriminate].

Section MailProperties.

Variable strconv_Atoi : string -> Z * option error.
Variable env : gmap string string.
Variable on_DialAndSend : option error.
Variable gcm_Seal : list byte -> list byte -> list byte -> list byte.
Variable now : Time.
Variable Local : Z.
Variable random : list byte.
Variable render_template : string -> string -> string * option error.
Variable f : repository.Faults.

#[local] Abbreviation SendVerificationEmail :=
  (mail.SendVerificationEmail strconv_Atoi env on_DialAndSend gcm_Seal now Local random
     render_template f).

(** [NewEmailConfig] returns a configuration or an error, never both
    nil; a configuration it returns is complete. *)
Lemma NewEmailConfig_complete :
  (exists e, config_email.NewEmailConfig strconv_Atoi env = (None, Some e))
  \/ (exists c, config_email.NewEmailConfig strconv_Atoi env = (Some c, None)
                /\ config_email.Host c <> "" /\ config_email.AuthEmail c <> ""
                /\ config_email.AuthPassword c <> "").
Proof.
  unfold config_email.NewEmailConfig.
  destruct (strconv_Atoi _) as [port [e|]]; [left; eauto|].
  cbn [config_email.Host config_email.AuthEmail config_email.AuthPassword].
  destruct (String.eqb (config_email.getEnv env "SMTP_HOST" "") "") eqn:Hh;
    [left; eauto|].
  destruct (String.eqb (config_email.getEnv env "SMTP_AUTH_EMAIL" "") "") eqn:Ha;
    [left; eauto|].
  destruct (String.eqb (config_email.getEnv env "SMTP_AUTH_PASSWORD" "") "") eqn:Hp;
    [left; eauto|].
  right. eexists. split; [reflexivity|].
  cbn [config_email.Host config_email.AuthEmail config_email.AuthPassword].
  apply String.eqb_neq in Hh, Ha, Hp. auto.
Qed.

(** X25.  The verification mail.  [SendVerificationEmail] returns on
    every request.  For an email that the lookup does not find the
    error is [dto.ErrEmailNotFound]; with any error nothing is
    delivered.  Without an error exactly one message is delivered,
    through the configured host and account, from the configured
    address to the stored email of the user, which is the email of the
    request; its subject is fixed and its body is the template rendered
    with that email and with the link that carries the token made for
    it.  Whether the user is verified already is not looked at. *)
Theorem SendVerificationEmail_delivers (db : repository.DB) (email : string) :
  exists err deliveries,
    SendVerificationEmail db email = Return (err, deliveries)
    /\ (forall u e,
          repository.GetUserByEmail (repository.on_GetUser f) db email = (u, Some e) ->
          err = Some dto.ErrEmailNotFound)
    /\ (err <> None -> deliveries = [])
    /\ (err = None ->
        exists user config token body,
          repository.GetUserByEmail (repository.on_GetUser f) db email = (user, None)
          /\ entity.Email user = email
          /\ config_email.NewEmailConfig strconv_Atoi env = (Some config, None)
          /\ userService.verification_token gcm_Seal now Local random email = (token, None)
          /\ render_template email
               (userService.LOCAL_URL ++ "/" ++ userService.VERIFY_EMAIL_ROUTE
                ++ "?token=" ++ token) = (body, None)
          /\ deliveries
             = [{| mail.DHost := config_email.Host config;
                   mail.DPort := config_email.Port config;
                   mail.DUsername := config_email.AuthEmail config;
                   mail.DPassword := config_email.AuthPassword config;
                   mail.DMessage :=
                     {| mail.From := config_email.AuthEmail config; mail.To := email;
                        mail.Subject := "Cakno - Go Gin Template"; mail.Body := body |} |}]).
Proof.
  unfold mail.SendVerificationEmail.
  destruct (repository.GetUserByEmail _ db email) as [user [e|]] eqn:Hget.
  { mail_error. }
  assert (Hemail : entity.Email user = email).
  { apply take_user_found in Hget as (_ & Hc & _). apply String.eqb_eq in Hc. exact Hc. }
  rewrite Hemail. unfold userService.makeVerificationEmail.
  destruct (userService.verification_token _ _ _ _ email) as [token [e|]] eqn:Htoken.
  { mail_error. }
  destruct (render_template email _) as [body [e|]] eqn:Hbody.
  { mail_error. }
  unfold mail.SendMail, mail.draft_get.
  rewrite lookup_insert. rewrite lookup_insert_ne by discriminate. rewrite lookup_insert.
  cbn [default from_option id].
  destruct NewEmailConfig_complete as [[e ->]|(config & -> & _)].
  { mail_error. }
  destruct on_DialAndSend as [e|] eqn:Hdial.
  { mail_error. }
  do 2 eexists. split; [reflexivity|].
  split; [intros ? ? ?; discriminate|]. split; [intros H; contradiction|].
  intros _. exists user, config, token, body. repeat split; try assumption.
Qed.

End MailProperties.

(* ===================================================================== *)
(** * Runs of the further properties                                      *)
(* ===================================================================== *)

Lemma db_pair_unique : repository.unique_tokens mock.db_pair.
Proof.
  unfold repository.unique_tokens. apply (bool_decide_unpack _). vm_compute. exact I.
Qed.

(** A run of the cascade: Alice is deleted, Bob and his token stay. *)
Lemma Delete_cascade_witness :
  userService.Delete repository.no_faults None mock.db_pair "u1"
  = (None, {| repository.users := [mock.bob];
              repository.refresh_tokens := [mock.token_of "u4" "t3" 1000] |})
  /\ userService.Delete repository.no_faults None
       {| repository.users := [mock.bob];
          repository.refresh_tokens := [mock.token_of "u4" "t3" 1000] |} "u1"
     = (Some dto.ErrUserNotFound,
        {| repository.users := [mock.bob];
           repository.refresh_tokens := [mock.token_of "u4" "t3" 1000] |}).
Proof.
  assert (H : userService.Delete repository.no_faults None mock.db_pair "u1"
              = (None, {| repository.users := [mock.bob];
                          repository.refresh_tokens := [mock.token_of "u4" "t3" 1000] |}))
    by reflexivity.
  split; [exact H|].
  exact (proj1 (proj2 (proj2 (proj2
           (Delete_cascade repository.no_faults None mock.db_pair _ "u1" H))))).
Defined.

(** A run of the revocation: Alice's token t2 cannot be refreshed any more. *)
Lemma RevokeRefreshToken_effect_witness :
  userService.RevokeRefreshToken repository.no_faults mock.db_pair "u1"
  = (None, {| repository.users := [mock.alice; mock.bob];
              repository.refresh_tokens := [mock.token_of "u4" "t3" 1000] |})
  /\ userService.RefreshToken mock.userJWT 500 repository.no_faults
       {| repository.users := [mock.alice; mock.bob];
          repository.refresh_tokens := [mock.token_of "u4" "t3" 1000] |}
       (mock.refresh "t2")
     = ((dto.TokenResponse_zero, Some (errors_New dto.MESSAGE_FAILED_INVALID_REFRESH_TOKEN)),
        {| repository.users := [mock.alice; mock.bob];
           repository.refresh_tokens := [mock.token_of "u4" "t3" 1000] |}).
Proof.
  assert (H : userService.RevokeRefreshToken repository.no_faults mock.db_pair "u1"
              = (None, {| repository.users := [mock.alice; mock.bob];
                          repository.refresh_tokens := [mock.token_of "u4" "t3" 1000] |}))
    by reflexivity.
  split; [exact H|].
  apply (proj2 (proj2 (proj2 (RevokeRefreshToken_effect repository.no_faults mock.db_pair _
                                "u1" H)))
           db_pair_unique (mock.token_of "u1" "t2" 1000) mock.userJWT 500
           repository.no_faults).
  - cbn. auto.
  - reflexivity.
Defined.

(** A run of the logout: the token t1 is refused afterwards. *)
Lemma Logout_then_RefreshToken_witness :
  authService.Logout repository.no_faults mock.db_two "t1"
  = (None, {| repository.users := [mock.alice];
              repository.refresh_tokens := [mock.token_of "u1" "t2" 1000] |})
  /\ authService.RefreshToken mock.authJWT (mock.cfg true) 500 500 "fresh-uuid"
       repository.no_faults
       {| repository.users := [mock.alice];
          repository.refresh_tokens := [mock.token_of "u1" "t2" 1000] |}
       (mock.refresh "t1")
     = ((dto_auth.TokenResponse_zero, Some dto_auth.ErrInvalidRefreshToken),
        {| repository.users := [mock.alice];
           repository.refresh_tokens := [mock.token_of "u1" "t2" 1000] |}).
Proof.
  pose proof (Logout_then_RefreshToken mock.authJWT (mock.cfg true) 500 500 "fresh-uuid"
                repository.no_faults mock.db_two "t1" eq_refl) as (Hout & Hrefresh & _).
  split; [exact Hout|exact Hrefresh].
Defined.

(** A run of the single use: after Alice's refresh, t1 is refused. *)
Lemma refresh_token_single_use_witness :
  exists resp db',
    userService.RefreshToken mock.userJWT 500 repository.no_faults mock.db_pair
      (mock.refresh "t1") = ((resp, None), db')
    /\ dto.RefreshToken resp = "fresh-token"
    /\ userService.RefreshToken mock.userJWT 600 repository.no_faults db' (mock.refresh "t1")
       = ((dto.TokenResponse_zero,
           Some (errors_New dto.MESSAGE_FAILED_INVALID_REFRESH_TOKEN)), db').
Proof.
  eexists _, _.
  assert (H : userService.RefreshToken mock.userJWT 500 repository.no_faults mock.db_pair
                (mock.refresh "t1")
              = (({| dto.AccessToken := "access-u1"; dto.RefreshToken := "fresh-token";
                     dto.Role := "user" |}, None),
                 {| repository.users := [mock.alice; mock.bob];
                    repository.refresh_tokens :=
                      [mock.token_of "u4" "t3" 1000; mock.token_of "u1" "fresh-token" 2000] |}))
    by reflexivity.
  split; [exact H|]. split; [reflexivity|].
  apply (proj1 (refresh_token_single_use mock.userJWT 500 repository.no_faults mock.db_pair
                  _ (mock.refresh "t1") _ db_pair_unique H ltac:(discriminate))).
Defined.

(** A run of the rotation: the rotated token t1 is refused. *)
Lemma rotated_token_single_use_witness :
  exists resp db',
    authService.RefreshToken mock.authJWT (mock.cfg true) 500 500 "fresh-uuid"
      repository.no_faults mock.db_two (mock.refresh "t1") = ((resp, None), db')
    /\ authService.RefreshToken mock.authJWT (mock.cfg true) 600 600 "next-uuid"
         repository.no_faults db' (mock.refresh "t1")
       = ((dto_auth.TokenResponse_zero, Some dto_auth.ErrInvalidRefreshToken), db').
Proof.
  eexists _, _.
  assert (H : authService.RefreshToken mock.authJWT (mock.cfg true) 500 500 "fresh-uuid"
                repository.no_faults mock.db_two (mock.refresh "t1")
              = (({| dto_auth.AccessToken := "access-u1";
                     dto_auth.RefreshToken := "fresh-uuid";
                     dto_auth.ExpiresIn := 900; dto_auth.TokenType := "Bearer" |}, None),
                 {| repository.users := [mock.alice];
                    repository.refresh_tokens :=
                      [mock.token_of "u1" "t2" 1000;
                       mock.token_of "u1" "fresh-uuid"
                         (authService.refreshTokenExpiry (mock.cfg true) 500)] |}))
    by reflexivity.
  split; [exact H|].
  apply (rotated_token_single_use mock.authJWT (mock.cfg true) 500 500 "fresh-uuid"
           repository.no_faults mock.db_two _ (mock.refresh "t1") _ eq_refl eq_refl H
           ltac:(discriminate)).
Defined.

(** A run with a failing delete: the login succeeds and both former
    tokens of Alice stay beside the new one. *)
Lemma authService_discards_delete_error_witness :
  authService.Logout mock.delete_fails mock.db_two "t1"
  = (Some (errors_New "connection reset"), mock.db_two)
  /\ length (repository.refresh_tokens
               (snd (authService.Login mock.CompareHashAndPassword mock.authJWT
                       (mock.cfg true) 500 "fresh-uuid" "e1" "e2" mock.delete_fails
                       mock.db_two (mock.login "alice@example.com" "password123"))))
     = 3%nat.
Proof.
  pose proof (authService_discards_delete_error mock.CompareHashAndPassword mock.authJWT
                (mock.cfg true) 500 500 "fresh-uuid" "e1" "e2" mock.delete_fails
                mock.db_two (errors_New "connection reset") eq_refl) as (Hout & Hlogin & _).
  split; [exact (Hout "t1")|].
  destruct (authService.Login mock.CompareHashAndPassword mock.authJWT
              (mock.cfg true) 500 "fresh-uuid" "e1" "e2" mock.delete_fails
              mock.db_two (mock.login "alice@example.com" "password123"))
    as [[resp err] db'] eqn:Hrun.
  assert (Herr : err = None) by (vm_compute in Hrun; inversion Hrun; reflexivity).
  subst err. destruct (Hlogin _ _ _ Hrun) as (user & _ & Hrows).
  cbn [snd]. rewrite Hrows, length_app. reflexivity.
Defined.

(** A run of the verification of Bob: the same link is refused the
    second time. *)
Lemma VerifyEmail_once_witness :
  let token :=
    fst (userService.verification_token mock.Seal mock.now_2026 0 mock.nonce_bytes
           "bob@example.com") in
  exists db',
    userService.VerifyEmail mock.Open mock.now_2026 repository.no_faults mock.db_pair
      (mock.verify token)
    = Return (({| dto.VEmail := "bob@example.com"; dto.VIsVerified := true |}, None), db')
    /\ exists resp',
         userService.VerifyEmail mock.Open mock.now_2026 repository.no_faults db'
           (mock.verify token)
         = Return ((resp', Some dto.ErrAccountAlreadyVerified), db').
Proof.
  intros token.
  set (db' := snd (repository.Update None mock.db_pair
                     {| entity.ID := "u4"; entity.Name := ""; entity.Email := "";
                        entity.TelpNumber := ""; entity.Password := "";
                        entity.Role := ""; entity.ImageUrl := "";
                        entity.IsVerified := true |})).
  exists db'.
  assert (H : userService.VerifyEmail mock.Open mock.now_2026 repository.no_faults
                mock.db_pair (mock.verify token)
              = Return (({| dto.VEmail := "bob@example.com"; dto.VIsVerified := true |}, None),
                        db'))
    by (vm_compute; reflexivity).
  split; [exact H|].
  destruct (VerifyEmail_once mock.Open mock.now_2026 repository.no_faults mock.db_pair _
              (mock.verify token) _ H mock.now_2026 repository.no_faults eq_refl)
    as (resp' & e & Hrun & _ & Hsame).
  exists resp'. rewrite <- (Hsame ltac:(lia)). exact Hrun.
Defined.

(** A run of the lifetime in the zone UTC+7: thirty hours after the
    mail was made the link still verifies Bob, thirty-two hours after
    it has expired. *)
Lemma verification_link_lifetime_witness :
  let token :=
    fst (userService.verification_token mock.Seal mock.now_2026 mock.UTC_plus_7
           mock.nonce_bytes "bob@example.com") in
  (exists db',
     userService.VerifyEmail mock.Open (mock.now_2026 + 30 * Hour) repository.no_faults
       mock.db_pair (mock.verify token)
     = Return (({| dto.VEmail := "bob@example.com"; dto.VIsVerified := true |}, None), db'))
  /\ userService.VerifyEmail mock.Open (mock.now_2026 + 32 * Hour) repository.no_faults
       mock.db_pair (mock.verify token)
     = Return (({| dto.VEmail := "bob@example.com"; dto.VIsVerified := false |},
                Some dto.ErrTokenExpired), mock.db_pair).
Proof.
  intros token.
  assert (Htoken : userService.verification_token mock.Seal mock.now_2026 mock.UTC_plus_7
                     mock.nonce_bytes "bob@example.com" = (token, None))
    by (vm_compute; reflexivity).
  split.
  - destruct (verification_link_lifetime mock.Seal mock.Open mock_Open_Seal mock.now_2026
                (mock.now_2026 + 30 * Hour) mock.UTC_plus_7 mock.nonce_bytes
                repository.no_faults mock.db_pair "bob@example.com" token 2026 11 1
                Htoken eq_refl ltac:(vm_compute; reflexivity) ltac:(lia))
      as [_ Hearly].
    destruct (Hearly ltac:(vm_compute; discriminate)) as [_ Hfound].
    destruct (Hfound mock.bob eq_refl eq_refl eq_refl) as (db' & Hrun & _).
    exists db'. exact Hrun.
  - destruct (verification_link_lifetime mock.Seal mock.Open mock_Open_Seal mock.now_2026
                (mock.now_2026 + 32 * Hour) mock.UTC_plus_7 mock.nonce_bytes
                repository.no_faults mock.db_pair "bob@example.com" token 2026 11 1
                Htoken eq_refl ltac:(vm_compute; reflexivity) ltac:(lia))
      as [Hlate _].
    apply Hlate. vm_compute. reflexivity.
Defined.

(** A run on a text in upper case. *)
Lemma AESDecrypt_ignores_case_witness :
  hex.Sprintf_x [x3a; xff] = "3aff"
  /\ utils.AESDecrypt mock.Open "3aff" = utils.AESDecrypt mock.Open "3AFF".
Proof.
  destruct (AESDecrypt_ignores_case mock.Open "3AFF" [x3a; xff] eq_refl) as (Hx & _ & Hd).
  split; [exact Hx|exact Hd].
Defined.

(** A run on the third page of ten rows. *)
Lemma Paginate_windows_tile_witness :
  user_repository.window
    (user_repository.Paginate
       {| dto_pagination.Search := ""; dto_pagination.Page := 3;
          dto_pagination.PerPage := 10 |}
       {| user_repository.like := None; user_repository.window := None |})
  = Some (20, 10).
Proof.
  exact (proj1 (Paginate_windows_tile
                  {| dto_pagination.Search := ""; dto_pagination.Page := 3;
                     dto_pagination.PerPage := 10 |}
                  {| user_repository.like := None; user_repository.window := None |}
                  ltac:(cbn; lia) ltac:(cbn; lia) ltac:(vm_compute; discriminate))).
Defined.

(** A run on 21 rows in pages of 10. *)
Lemma TotalPage_integration_ceiling_witness :
  Pagination.TotalPage_integration 21 10 = 3.
Proof.
  exact (proj1 (TotalPage_integration_ceiling 21 10 ltac:(lia) ltac:(lia)
                  ltac:(vm_compute; discriminate))).
Defined.

(** The stand-ins meet the contracts of the collaborators. *)
Lemma hextable_no_dot (b : byte) :
  Ascii.eqb (hex.hextable (Byte.to_N b / 16)) "." = false
  /\ Ascii.eqb (hex.hextable (Byte.to_N b mod 16)) "." = false.
Proof. destruct b; vm_compute; split; reflexivity. Qed.

Lemma mock_Decode_Encode (b : list byte) :
  mock.DecodeSegment_hex (mock.EncodeSegment_hex b) = (b, None).
Proof. apply DecodeString_Sprintf_x. Qed.

Lemma mock_Encode_no_dot (b : list byte) :
  strings.Contains (mock.EncodeSegment_hex b) "." = false.
Proof.
  unfold mock.EncodeSegment_hex. induction b as [|x b IH]; [reflexivity|].
  destruct (hextable_no_dot x) as [Hhi Hlo].
  cbn [hex.Sprintf_x strings.Contains]. rewrite Hhi, Hlo, IH. reflexivity.
Qed.

Lemma mock_Unmarshal_header (h : gmap string jwt.json) (b : list byte) :
  mock.json_Marshal_header h = (b, None) ->
  exists h', mock.json_Unmarshal_issued b = (h', None) /\ h' !! "alg" = h !! "alg".
Proof.
  unfold mock.json_Marshal_header.
  destruct (h !! "alg") as [[| | |alg| |]|]; try discriminate.
  destruct (String.eqb alg "HS256") eqn:H1.
  { apply String.eqb_eq in H1. subst alg. intros [= <-]. eexists. split; reflexivity. }
  destruct (String.eqb alg "HS512") eqn:H2; [|discriminate].
  apply String.eqb_eq in H2. subst alg. intros [= <-]. eexists. split; reflexivity.
Qed.

Lemma mock_Marshal_claims (c : jwt.jwtCustomClaim) (b : list byte) :
  mock.json_Marshal_claims (jwt.CustomClaims c) = (b, None) ->
  jwt.UserID c = "u1" /\ jwt.Role c = "admin"
  /\ b = list_byte_of_string mock.issued_text.
Proof.
  unfold mock.json_Marshal_claims.
  destruct (bool_decide (jwt.UserID c = "u1")) eqn:Hu; [|discriminate].
  destruct (bool_decide (jwt.Role c = "admin")) eqn:Hr; [|discriminate].
  apply bool_decide_eq_true_1 in Hu, Hr. cbn [andb].
  repeat (case_match; try discriminate). intros [= <-]. auto.
Qed.

Lemma mock_Decode_claims (c : jwt.jwtCustomClaim) (b : list byte) :
  mock.json_Marshal_claims (jwt.CustomClaims c) = (b, None) ->
  exists c', mock.json_Decode_issued b = (c', None)
             /\ jwt.UserID c' = jwt.UserID c /\ jwt.Role c' = jwt.Role c.
Proof.
  intros H. apply mock_Marshal_claims in H as (-> & -> & ->).
  eexists. split; [reflexivity|]. split; reflexivity.
Qed.

Lemma mock_Unmarshal_claims (c : jwt.jwtCustomClaim) (b : list byte) :
  mock.json_Marshal_claims (jwt.CustomClaims c) = (b, None) ->
  exists m, mock.json_Unmarshal_issued b = (m, None)
            /\ m !! "user_id" = Some (jwt.JString (jwt.UserID c))
            /\ m !! "role" = Some (jwt.JString (jwt.Role c)).
Proof.
  intros H. apply mock_Marshal_claims in H as (-> & -> & ->).
  eexists. split; [reflexivity|]. split; reflexivity.
Qed.

Lemma mock_Verify_Sign (m : jwt.SigningMethod) (s : string) (key : list byte) (sig : string) :
  mock.Method_Sign m s key = (sig, None) ->
  mock.Method_Verify m s sig key = None /\ strings.Contains sig "." = false.
Proof.
  unfold mock.Method_Sign, mock.Method_Verify.
  destruct (jwt.is_SigningMethodHMAC m); [|discriminate].
  intros [= <-]. split; reflexivity.
Qed.

(** A run of X22: the token issued for the administrator u1 at
    [now_2026] is read five minutes later by a validator that checks
    the expiry, which refuses it twenty minutes later. *)
Lemma GenerateAccessToken_validates_witness :
  let token :=
    jwtService_gen.GenerateAccessToken mock.EncodeSegment_hex mock.json_Marshal_header
      mock.json_Marshal_claims mock.Method_Sign mock.jwtService_j mock.now_2026
      mock.now_2026 "u1" "admin" in
  jwtService.GetUserIDByToken mock.DecodeSegment_hex mock.json_Unmarshal_issued
    mock.json_Decode_issued (mock.Claims_Valid_at mock.five_past) mock.Method_Verify
    mock.jwtService_j token
  = Return ("u1", None)
  /\ jwtService.ValidateToken mock.DecodeSegment_hex mock.json_Unmarshal_issued
       mock.json_Decode_issued (mock.Claims_Valid_at mock.twenty_past) mock.Method_Verify
       mock.jwtService_j token
     = (None, Some (errors_New "invalid token: token is expired")).
Proof.
  intros token. split; [|vm_compute; reflexivity].
  destruct (GenerateAccessToken_validates mock.EncodeSegment_hex mock.DecodeSegment_hex
              mock.json_Marshal_header mock.json_Marshal_claims mock.json_Unmarshal_issued
              mock.json_Decode_issued (mock.Claims_Valid_at mock.five_past)
              mock.Method_Sign mock.Method_Verify
              mock_Decode_Encode mock_Encode_no_dot mock_Unmarshal_header mock_Decode_claims
              mock_Verify_Sign mock.jwtService_j mock.now_2026 mock.now_2026 "u1" "admin")
    as [(Hfailed & _)|(_ & Hok)].
  - exfalso. apply Hfailed. vm_compute. reflexivity.
  - destruct Hok as (tok & c & _ & _ & _ & _ & _ & Hread); [|exact Hread].
    intros tok parts Hparsed. vm_compute in Hparsed.
    injection Hparsed as <- _. vm_compute. reflexivity.
Defined.

(** A run of X23: the role is read from the issued token five minutes
    after the issue, and the token is refused twenty minutes after. *)
Lemma GenerateAccessToken2_validates_witness :
  let issued :=
    jwtService2_gen.GenerateAccessToken Pagination.amd64 mock.EncodeSegment_hex
      mock.json_Marshal_header mock.json_Marshal_claims mock.Method_Sign mock.jwtService2_j
      mock.now_2026 mock.now_2026 mock.now_2026 "u1" "admin" in
  snd issued = None /\ snd (fst issued) = 900
  /\ jwtService2.GetRoleByToken mock.DecodeSegment_hex mock.json_Unmarshal_issued
       mock.json_Decode_issued (mock.Claims_Valid_at mock.five_past) mock.Method_Verify
       mock.jwtService2_j (fst (fst issued))
     = Return ("admin", None)
  /\ jwtService2.ValidateToken mock.DecodeSegment_hex mock.json_Unmarshal_issued
       mock.json_Decode_issued (mock.Claims_Valid_at mock.twenty_past) mock.Method_Verify
       mock.jwtService2_j (fst (fst issued))
     = inr (errors_New "token is expired").
Proof.
  intros issued.
  assert (Hrun : jwtService2_gen.GenerateAccessToken Pagination.amd64 mock.EncodeSegment_hex
                   mock.json_Marshal_header mock.json_Marshal_claims mock.Method_Sign
                   mock.jwtService2_j mock.now_2026 mock.now_2026 mock.now_2026 "u1" "admin"
                 = (fst (fst issued), 900, None))
    by (vm_compute; reflexivity).
  split; [vm_compute; reflexivity|]. split; [vm_compute; reflexivity|].
  split; [|vm_compute; reflexivity].
  destruct (GenerateAccessToken2_validates mock.EncodeSegment_hex mock.DecodeSegment_hex
              mock.json_Marshal_header mock.json_Marshal_claims mock.json_Unmarshal_issued
              mock.json_Decode_issued (mock.Claims_Valid_at mock.five_past)
              mock.Method_Sign mock.Method_Verify
              mock_Decode_Encode mock_Encode_no_dot mock_Unmarshal_header
              mock_Unmarshal_claims mock_Verify_Sign Pagination.amd64 mock.jwtService2_j
              mock.now_2026 mock.now_2026 mock.now_2026 "u1" "admin")
    as [Hread _].
  destruct (Hread _ _ Hrun) as (_ & _ & Hrole); [|exact Hrole].
  intros tok parts Hparsed. vm_compute in Hparsed.
  injection Hparsed as <- _. vm_compute. reflexivity.
Defined.

(** A run of X24: the administrator logs in through [authService], and
    the access token is read five minutes later. *)
Lemma login_token_names_user_witness :
  let login :=
    authService.Login mock.CompareHashAndPassword
      {| authService.GenerateAccessToken :=
           jwtService2_gen.GenerateAccessToken Pagination.amd64 mock.EncodeSegment_hex
             mock.json_Marshal_header mock.json_Marshal_claims mock.Method_Sign
             mock.jwtService2_j mock.now_2026 mock.now_2026 mock.now_2026 |}
      (mock.cfg true) mock.now_2026 "fresh-uuid" "e1" "e2" repository.no_faults mock.db_root
      (mock.login "root@example.com" "password123") in
  snd (fst login) = None
  /\ jwtService2.GetUserIDByToken mock.DecodeSegment_hex mock.json_Unmarshal_issued
       mock.json_Decode_issued (mock.Claims_Valid_at mock.five_past) mock.Method_Verify
       mock.jwtService2_j (dto_auth.AccessToken (fst (fst login)))
     = Return ("u1", None).
Proof.
  intros login.
  assert (Hrun : login = ((fst (fst login), None), snd login)) by (vm_compute; reflexivity).
  split; [vm_compute; reflexivity|].
  destruct (login_token_names_user mock.EncodeSegment_hex mock.DecodeSegment_hex
              mock.json_Marshal_header mock.json_Marshal_claims mock.json_Unmarshal_issued
              mock.json_Decode_issued (mock.Claims_Valid_at mock.five_past)
              mock.Method_Sign mock.Method_Verify
              mock_Decode_Encode mock_Encode_no_dot mock_Unmarshal_header mock_Decode_claims
              mock_Unmarshal_claims mock_Verify_Sign mock.CompareHashAndPassword
              repository.no_faults mock.db_root (snd login)
              (mock.login "root@example.com" "password123"))
    as [_ Hauth].
  destruct (Hauth Pagination.amd64 mock.jwtService2_j mock.now_2026 mock.now_2026
              mock.now_2026 (mock.cfg true) mock.now_2026 "fresh-uuid" "e1" "e2"
              (fst (fst login)) Hrun) as (user & Hget & Hread).
  assert (Huser : user = mock.root) by (vm_compute in Hget; injection Hget as <-; reflexivity).
  rewrite Huser in Hread.
  destruct Hread as [Hid _]; [|exact Hid].
  intros tok parts Hparsed. vm_compute in Hparsed.
  injection Hparsed as <- _. vm_compute. reflexivity.
Defined.

(** A run of X1: a token stored for Alice is found. *)
Lemma Create_then_FindByToken_witness :
  let created := repository.Create None mock.db_one (mock.token_of "u1" "t9" 2000) in
  snd (fst created) = None
  /\ repository.FindByToken None (snd created) "t9" = (mock.token_of "u1" "t9" 2000, None).
Proof.
  intros created. split; [reflexivity|].
  exact (proj1 (proj2 (Create_then_FindByToken None mock.db_one (snd created)
                         (mock.token_of "u1" "t9" 2000) (fst (fst created)) eq_refl))).
Defined.

(** A run of X26: Bob changes his name and nothing else. *)
Lemma Update_then_GetUserById_witness :
  let req := {| userService_profile.Name := "Bobby"; userService_profile.PhoneNumber := "";
                userService_profile.Email := "" |} in
  let updated := userService_profile.Update repository.no_faults mock.db_pair req "u4" in
  userService_profile.UEmail (fst (fst updated)) = ""
  /\ userService_profile.GetUserById repository.no_faults (snd updated) "u4"
     = ({| userService_profile.RID := "u4"; userService_profile.RName := "Bobby";
           userService_profile.REmail := "bob@example.com";
           userService_profile.RPhoneNumber := ""; userService_profile.RRole := "user";
           userService_profile.RImageUrl := ""; userService_profile.RIsVerified := false |},
        None).
Proof.
  intros req updated.
  assert (Hrun : userService_profile.Update repository.no_faults mock.db_pair req "u4"
                 = ((fst (fst updated), None), snd updated)) by reflexivity.
  destruct (Update_then_GetUserById repository.no_faults mock.db_pair _ req "u4" _ _ Hrun)
    as [_ Hok].
  destruct (Hok eq_refl) as (user & Hget & _ & Hresp & Hread).
  assert (Huser : user = mock.bob) by (vm_compute in Hget; injection Hget as <-; reflexivity).
  subst user. split; [reflexivity|]. exact Hread.
Defined.

(* ===================================================================== *)
(** * Further properties: a session lives on                              *)
(* ===================================================================== *)

Lemma has_token_after_delete (token : string) (cond : entity.RefreshToken -> bool)
  (db : repository.DB) :
  repository.findable token db = false ->
  repository.has_token token (snd (repository.delete_tokens cond None db)) = false.
Proof.
  unfold repository.findable, repository.has_token, repository.delete_tokens.
  cbn [snd repository.refresh_tokens].
  induction (repository.refresh_tokens db) as [|r rows IH]; [reflexivity|].
  cbn [existsb List.filter]. intros H. apply orb_false_iff in H as [Hr Hrows].
  destruct (negb (cond r)); [cbn [existsb]; rewrite Hr|]; auto.
Qed.

(** A user that a lookup by email found is found by its id. *)
Lemma GetUserById_of_found (db : repository.DB) (fault : option error) (email : string)
  (user : entity.User) :
  repository.GetUserByEmail fault db email = (user, None) ->
  exists user', repository.GetUserById None db (entity.ID user) = (user', None)
                /\ entity.ID user' = entity.ID user.
Proof.
  intros Hget. apply take_user_found in Hget as (_ & _ & Hin).
  unfold repository.GetUserById, repository.take_user.
  destruct (List.find _ (repository.users db)) as [user'|] eqn:Hfind.
  - exists user'. split; [reflexivity|].
    apply find_some in Hfind as [_ Hid]. apply String.eqb_eq in Hid. exact Hid.
  - exfalso. apply (find_none _ _ Hfind) in Hin. rewrite String.eqb_refl in Hin. discriminate.
Qed.

Section SessionLives.

Variable bcrypt_CompareHashAndPassword : list byte -> list byte -> option error.

(** X28.  A login of [userService] opens a session that can be
    refreshed.  After a [Verify] that succeeded, a [RefreshToken] with
    the refresh token of the response, made before that token expires,
    with a working driver and an issuer whose next refresh token is not
    stored, succeeds: it returns that next refresh token and an access
    token issued for the id of the user that logged in. *)
Theorem Verify_then_RefreshToken (userJWT userJWT' : userService.JWTService)
  (f : repository.Faults) (db db' : repository.DB) (req : dto.UserLoginRequest)
  (resp : dto.TokenResponse) (now' : Time) :
  userService.Verify bcrypt_CompareHashAndPassword userJWT f db req = ((resp, None), db') ->
  Time_After now' (snd (userService.GenerateRefreshToken userJWT)) = false ->
  repository.findable (fst (userService.GenerateRefreshToken userJWT')) db' = false ->
  exists user user' db'',
    repository.GetUserByEmail (repository.on_GetUser f) db (dto.Email req) = (user, None)
    /\ repository.GetUserById None db (entity.ID user) = (user', None)
    /\ userService.RefreshToken userJWT' now' repository.no_faults db'
         {| dto.RefreshToken_ := dto.RefreshToken resp |}
       = (({| dto.AccessToken :=
                userService.GenerateAccessToken userJWT' (entity.ID user) (entity.Role user');
              dto.RefreshToken := fst (userService.GenerateRefreshToken userJWT');
              dto.Role := entity.Role user' |}, None), db'').
Proof.
  unfold userService.Verify, repository.Begin, repository.Rollback, repository.Commit.
  destruct (repository.GetUserByEmail _ db _) as [user [e|]] eqn:Hget; [discriminate|].
  destruct (helpers.CheckPassword _ _ _) as [ok err].
  destruct (bool_decide (is_Some err) || negb ok); [discriminate|].
  destruct (userService.GenerateRefreshToken userJWT) as [tok exp] eqn:Hissued.
  destruct (repository.DeleteByUserID _ db _) as [[e|] tx] eqn:Hdel; [discriminate|].
  destruct (repository.Create _ tx _) as [[out [e|]] tx'] eqn:Hcreate; [discriminate|].
  destruct (repository.on_Commit f); [discriminate|].
  intros [= <- <-]. cbn [snd dto.RefreshToken]. intros Hlive Hfresh.
  destruct (replace_tokens_shape _ _ _ _ _ _ _ _ Hdel Hcreate) as (Husers & Hrows & Hnew).
  assert (Htx : tx = snd (repository.DeleteByUserID None db (entity.ID user))).
  { unfold repository.DeleteByUserID, repository.delete_tokens in Hdel |- *.
    destruct (repository.on_Delete f); [discriminate|]. injection Hdel as <-. reflexivity. }
  destruct (GetUserById_of_found _ _ _ _ Hget) as (user' & Hbyid & Hid).
  destruct (userService.GenerateRefreshToken userJWT') as [tok2 exp2] eqn:Hissued2.
  cbn [fst] in Hfresh |- *.
  exists user, user'. eexists. split; [reflexivity|]. split; [exact Hbyid|].
  unfold userService.RefreshToken, repository.Begin, repository.Rollback, repository.Commit.
  cbn [dto.RefreshToken_ repository.no_faults repository.on_FindToken repository.on_GetUser
         repository.on_Delete repository.on_Create repository.on_Commit].
  assert (Hfind : repository.FindByToken None tx' tok
                  = ({| entity.UserID := entity.ID user; entity.Token := tok;
                        entity.ExpiresAt := exp |}, None)).
  { unfold repository.FindByToken. rewrite Hrows, find_app_new.
    cbn [entity.Token]. rewrite String.eqb_refl.
    unfold repository.has_token in Hnew. rewrite Htx in Hnew. cbn in Hnew.
    cbn [entity.Token] in Hnew. rewrite (find_existsb_false _ _ Hnew). reflexivity. }
  rewrite Hfind. cbn [entity.ExpiresAt entity.UserID]. rewrite Hlive.
  assert (Hbyid' : repository.GetUserById None tx' (entity.ID user) = (user', None)).
  { unfold repository.GetUserById, repository.take_user in Hbyid |- *.
    rewrite Husers. exact Hbyid. }
  rewrite Hbyid', Hissued2.
  unfold repository.DeleteByUserID.
  pose proof (has_token_after_delete tok2
                (fun r => String.eqb (entity.UserID r) (entity.ID user')) tx' Hfresh) as Hnew2.
  unfold repository.delete_tokens in Hnew2 |- *. cbn [snd] in Hnew2.
  unfold repository.Create. cbn [entity.Token]. rewrite Hnew2, Hid. reflexivity.
Qed.

(** X29.  A login of [authService] opens a session that can be
    refreshed.  After a [Login] that succeeded, a [RefreshToken] with
    the refresh token of the response, made before that token expires,
    with a working driver and an issuer that returns an access token,
    succeeds with the access token issued for the id of the user that
    logged in: without rotation it returns the same refresh token and
    stores nothing; with rotation, and a new token that is not stored,
    it returns the new token. *)
Theorem Login_then_RefreshToken (authJWT authJWT' : authService.JWTService)
  (cfg cfg' : config.Config) (now_issue now' now_issue' : Time) (uuid_New uuid_New' : string)
  (e1 e2 : error) (f : repository.Faults) (db db' : repository.DB)
  (req : dto.UserLoginRequest) (resp : dto_auth.TokenResponse) :
  authService.Login bcrypt_CompareHashAndPassword authJWT cfg now_issue uuid_New e1 e2 f db req
  = ((resp, None), db') ->
  Time_After now' (authService.refreshTokenExpiry cfg now_issue) = false ->
  (forall userId role, exists a x,
      authService.GenerateAccessToken authJWT' userId role = (a, x, None)) ->
  (config.RotateRefreshToken (config.JWT cfg') = true ->
   repository.findable uuid_New' db' = false) ->
  exists user user' a x db'',
    repository.GetUserByEmail (repository.on_GetUser f) db (dto.Email req) = (user, None)
    /\ repository.GetUserById None db (entity.ID user) = (user', None)
    /\ authService.GenerateAccessToken authJWT' (entity.ID user) (entity.Role user')
       = (a, x, None)
    /\ authService.RefreshToken authJWT' cfg' now' now_issue' uuid_New' repository.no_faults db'
         {| dto.RefreshToken_ := dto_auth.RefreshToken resp |}
       = (({| dto_auth.AccessToken := a;
              dto_auth.RefreshToken :=
                if config.RotateRefreshToken (config.JWT cfg') then uuid_New'
                else dto_auth.RefreshToken resp;
              dto_auth.ExpiresIn := x; dto_auth.TokenType := "Bearer" |}, None), db'')
    /\ (config.RotateRefreshToken (config.JWT cfg') = false -> db'' = db').
Proof.
  unfold authService.Login. rewrite CheckEmail_GetUserByEmail.
  destruct (repository.GetUserByEmail _ db _) as [user [e|]] eqn:Hget; [discriminate|].
  cbn [bool_decide negb orb].
  destruct (entity.IsVerified user); [|discriminate]. cbn [negb].
  destruct (helpers.CheckPassword _ _ _) as [ok err].
  destruct (bool_decide (is_Some err) || negb ok); [discriminate|].
  destruct (authService.GenerateAccessToken authJWT _ _) as [[a0 x0] [e|]]; [discriminate|].
  destruct (repository.DeleteRefreshTokensByUserID _ db _) as [de db1] eqn:Hdel.
  unfold repository.CreateRefreshToken, repository.Create.
  destruct (repository.on_Create f); [discriminate|].
  cbn [entity.Token].
  destruct (repository.has_token uuid_New db1) eqn:Hnew; [discriminate|].
  intros [= <- <-]. cbn [dto_auth.RefreshToken]. intros Hlive Hissuer Hfresh.
  assert (Husers : repository.users db1 = repository.users db).
  { unfold repository.DeleteRefreshTokensByUserID, repository.DeleteByUserID,
      repository.delete_tokens in Hdel.
    destruct (repository.on_Delete f); injection Hdel as _ <-; reflexivity. }
  destruct (GetUserById_of_found _ _ _ _ Hget) as (user' & Hbyid & Hid).
  destruct (Hissuer (entity.ID user) (entity.Role user')) as (a & x & Hgen).
  assert (Hbyid' : repository.GetUserById None
                     {| repository.users := repository.users db1;
                        repository.refresh_tokens :=
                          (repository.refresh_tokens db1
                           ++ [{| entity.UserID := entity.ID user; entity.Token := uuid_New;
                                  entity.ExpiresAt :=
                                    authService.refreshTokenExpiry cfg now_issue |}])%list |}
                     (entity.ID user) = (user', None)).
  { unfold repository.GetUserById, repository.take_user in Hbyid |- *.
    cbn [repository.users]. rewrite Husers. exact Hbyid. }
  unfold repository.has_token in Hnew.
  exists user, user', a, x.
  destruct (config.RotateRefreshToken (config.JWT cfg')) eqn:Hrot.
  - specialize (Hfresh eq_refl).
    pose proof (has_token_after_delete uuid_New'
                  (fun r => String.eqb (entity.Token r) uuid_New) _ Hfresh) as Hnew2.
    unfold repository.delete_tokens in Hnew2. cbn [snd] in Hnew2.
    eexists. split; [reflexivity|]. split; [exact Hbyid|]. split; [exact Hgen|].
    unfold authService.RefreshToken, repository.GetRefreshToken.
    cbn [dto.RefreshToken_ repository.no_faults repository.on_FindToken
           repository.on_GetUser repository.on_Delete repository.on_Create
           repository.on_Commit].
    unfold repository.FindByToken. cbn [repository.refresh_tokens].
    rewrite find_app_new. cbn [entity.Token]. rewrite String.eqb_refl.
    rewrite (find_existsb_false _ _ Hnew).
    cbn [entity.ExpiresAt entity.UserID]. rewrite Hlive, Hbyid', Hid, Hgen, Hrot.
    unfold repository.DeleteRefreshToken, repository.DeleteByToken,
      repository.CreateRefreshToken, repository.delete_tokens, repository.Create.
    cbn [entity.Token]. rewrite Hnew2.
    split; [reflexivity|discriminate].
  - eexists. split; [reflexivity|]. split; [exact Hbyid|]. split; [exact Hgen|].
    unfold authService.RefreshToken, repository.GetRefreshToken.
    cbn [dto.RefreshToken_ repository.no_faults repository.on_FindToken
           repository.on_GetUser repository.on_Delete repository.on_Create
           repository.on_Commit].
    unfold repository.FindByToken. cbn [repository.refresh_tokens].
    rewrite find_app_new. cbn [entity.Token]. rewrite String.eqb_refl.
    rewrite (find_existsb_false _ _ Hnew).
    cbn [entity.ExpiresAt entity.UserID]. rewrite Hlive, Hbyid', Hid, Hgen, Hrot.
    split; [reflexivity|]. intros _. reflexivity.
Qed.

End SessionLives.

(** A run of X28: Alice logs in through [userService] and refreshes. *)
Lemma Verify_then_RefreshToken_witness :
  let next := {| userService.GenerateAccessToken := fun userId role => "access-" ++ userId;
                 userService.GenerateRefreshToken := ("next-token", 3000) |} in
  let login := userService.Verify mock.CompareHashAndPassword mock.userJWT
                 repository.no_faults mock.db_pair
                 (mock.login "alice@example.com" "password123") in
  snd (fst login) = None
  /\ fst (userService.RefreshToken next 1500 repository.no_faults (snd login)
            (mock.refresh (dto.RefreshToken (fst (fst login)))))
     = ({| dto.AccessToken := "access-u1"; dto.RefreshToken := "next-token";
           dto.Role := "user" |}, None).
Proof.
  intros next login.
  assert (Hrun : login = ((fst (fst login), None), snd login)) by (vm_compute; reflexivity).
  split; [vm_compute; reflexivity|].
  destruct (Verify_then_RefreshToken mock.CompareHashAndPassword mock.userJWT next
              repository.no_faults mock.db_pair (snd login)
              (mock.login "alice@example.com" "password123") (fst (fst login)) 1500
              Hrun ltac:(reflexivity) ltac:(reflexivity))
    as (user & user' & db'' & Hget & Hbyid & Hrefresh).
  assert (Huser : user = mock.alice) by (vm_compute in Hget; injection Hget as <-; reflexivity).
  rewrite Huser in Hbyid, Hrefresh.
  assert (Huser' : user' = mock.alice)
    by (vm_compute in Hbyid; injection Hbyid as <-; reflexivity).
  rewrite Huser' in Hrefresh.
  unfold mock.refresh. rewrite Hrefresh. reflexivity.
Defined.

(** A run of X29: Alice logs in through [authService] and refreshes,
    with rotation. *)
Lemma Login_then_RefreshToken_witness :
  let login := authService.Login mock.CompareHashAndPassword mock.authJWT (mock.cfg true)
                 500 "fresh-uuid" "e1" "e2" repository.no_faults mock.db_pair
                 (mock.login "alice@example.com" "password123") in
  snd (fst login) = None
  /\ fst (authService.RefreshToken mock.authJWT (mock.cfg true) 600 600 "next-uuid"
            repository.no_faults (snd login)
            (mock.refresh (dto_auth.RefreshToken (fst (fst login)))))
     = ({| dto_auth.AccessToken := "access-u1"; dto_auth.RefreshToken := "next-uuid";
           dto_auth.ExpiresIn := 900; dto_auth.TokenType := "Bearer" |}, None).
Proof.
  intros login.
  assert (Hrun : login = ((fst (fst login), None), snd login)) by (vm_compute; reflexivity).
  split; [vm_compute; reflexivity|].
  destruct (Login_then_RefreshToken mock.CompareHashAndPassword mock.authJWT mock.authJWT
              (mock.cfg true) (mock.cfg true) 500 600 600 "fresh-uuid" "next-uuid" "e1" "e2"
              repository.no_faults mock.db_pair (snd login)
              (mock.login "alice@example.com" "password123") (fst (fst login))
              Hrun ltac:(reflexivity)
              ltac:(intros userId role; eexists _, _; reflexivity)
              ltac:(intros _; reflexivity))
    as (user & user' & a & x & db'' & Hget & Hbyid & Hgen & Hrefresh & _).
  assert (Huser : user = mock.alice) by (vm_compute in Hget; injection Hget as <-; reflexivity).
  rewrite Huser in Hbyid, Hgen.
  assert (Huser' : user' = mock.alice)
    by (vm_compute in Hbyid; injection Hbyid as <-; reflexivity).
  rewrite Huser' in Hgen.
  injection Hgen as <- <-.
  unfold mock.refresh. rewrite Hrefresh. reflexivity.
Defined.
